(** * Transaction composer of the trader service: bet placement and redeeming

    A shallow embedding of
      packages/valory/skills/decision_maker_abci/behaviours/bet_placement.py
      packages/valory/skills/decision_maker_abci/behaviours/reedem.py
    The behaviours are Python generators that suspend on every external
    request.  Here a behaviour method is a function in a small state and
    error monad: it threads the log of requests sent so far and the
    instance fields, and ends by returning, by raising, or by still
    polling when its retry budget is used up. *)

From Stdlib Require Import ZArith List String Ascii Bool Lia.
From stdpp Require Import base option list gmap strings.
Import ListNotations.

Set Default Proof Using "Type".

Local Open Scope Z_scope.
Local Open Scope string_scope.
Local Open Scope list_scope.

(** ** Values exchanged with the collaborators *)

Definition bytes := list Byte.byte.

(** A [HexBytes] value of the hexbytes package, represented by the text
    it was built from; [HexBytes_new] below is the call [HexBytes(text)],
    which fails on text that is not hexadecimal. *)
Inductive HexBytes : Type :=
| HexBytes_of (raw : string).

(** Keyword arguments of a request. *)
#[local] Unset Elimination Schemes.
Inductive Value : Type :=
| VInt (z : Z)
| VStr (s : string)
| VBytes (b : bytes)
| VHex (h : HexBytes)
| VList (l : list Value)
| VDict (d : list (string * Value)).
#[local] Set Elimination Schemes.

(** The performatives of the contract-api protocol that the behaviours
    send and compare answers with; the protocol package is not part of
    the sources. *)
Inductive Performative : Type :=
| GET_RAW_TRANSACTION
| GET_STATE
| RAW_TRANSACTION
| STATE
| ERROR.

Definition Performative_eqb (p q : Performative) : bool :=
  match p, q with
  | GET_RAW_TRANSACTION, GET_RAW_TRANSACTION
  | GET_STATE, GET_STATE
  | RAW_TRANSACTION, RAW_TRANSACTION
  | STATE, STATE
  | ERROR, ERROR => true
  | _, _ => false
  end.

(** What [get_contract_api_response] is called with. *)
Record Request : Type := mkRequest {
  req_performative : Performative;
  req_contract_address : string;
  req_contract_id : string;
  req_contract_callable : string;
  req_kwargs : list (string * Value)
}.

(** The body of an answer, read with [body.get(key, None)].  Each key the
    behaviours read is a field; [None] is a missing key.  The fields carry
    the Python types the contract packages answer with, so that [int(..)]
    and [str(..)] on them are the identity. *)
Record Body : Type := mkBody {
  body_balance : option Z;
  body_amount : option Z;
  body_data : option string;
  body_tx_hash : option string;
  body_payouts : option (gmap string Z);
  body_resolved : option bool
}.

Record ContractApiMessage : Type := mkMessage {
  performative : Performative;
  body : Body
}.

(** Modelled from the spec: the operation kind of a safe transaction
    (section 4.3, step 7); the enumeration [SafeOperation] of the gnosis
    safe contract package is not part of the sources.  The values are
    those of the Safe contracts' [Enum.Operation]. *)
Inductive SafeOperation : Type :=
| CALL
| DELEGATE_CALL
| CREATE.

(** [SafeOperation.X.value] *)
Definition SafeOperation_value (op : SafeOperation) : Z :=
  match op with
  | CALL => 0
  | DELEGATE_CALL => 1
  | CREATE => 2
  end.

(** Modelled from the spec: the status of a paged fetch, section 6
    ("in-progress, success, failure"), and [NONE] before any fetch;
    [FetchStatus] of the market manager skill is not part of the
    sources. *)
Inductive FetchStatus : Type :=
| SUCCESS
| IN_PROGRESS
| FAIL
| NONE.

Definition FetchStatus_eqb (a b : FetchStatus) : bool :=
  match a, b with
  | SUCCESS, SUCCESS
  | IN_PROGRESS, IN_PROGRESS
  | FAIL, FAIL
  | NONE, NONE => true
  | _, _ => false
  end.

(** ** Data model *)

(** Modelled from the spec: CallBatchEntry of section 3 (the class
    MultisendBatch of models.py is not part of the sources): a target,
    the payload bytes and a value, which no call site sets and so stays
    at zero. *)
Record MultisendBatch : Type := mkBatch {
  batch_to : string;
  batch_data : HexBytes;
  batch_value : Z
}.

Definition MultisendBatch_new (to : string) (data : HexBytes) : MultisendBatch :=
  {| batch_to := to; batch_data := data; batch_value := 0 |}.

(** Modelled from the spec: the question identifier of RedeemCandidate,
    section 3 (redeem_info.py is not part of the sources), with the
    question text that [_build_resolve_data] reads. *)
Record Question : Type := mkQuestion {
  question_id : string;
  question_data : string
}.

(** Modelled from the spec: the condition identifier and outcome-slot
    count of RedeemCandidate, section 3, with the index sets that the
    redeem call reads. *)
Record Condition : Type := mkCondition {
  condition_id : HexBytes;
  outcomeSlotCount : Z;
  index_sets : list Z
}.

(** Modelled from the spec: the market of a RedeemCandidate and its
    current resolution state, section 3: collateral token, current
    winning outcome index, creation timestamp, template identifier. *)
Record FPMM : Type := mkFPMM {
  collateralToken : string;
  condition : Condition;
  question : Question;
  templateId : Z;
  current_answer_index : Z;
  creationTimestamp : Z
}.

(** Modelled from the spec: RedeemCandidate of section 3, one historical
    trade: its market, chosen outcome index, transaction hash and
    claimable amount. *)
Record RedeemInfo : Type := mkRedeemInfo {
  fpmm : FPMM;
  outcomeIndex : Z;
  transactionHash : string;
  claimable_amount : Z
}.

(** [self.params] *)
Record Params : Type := mkParams {
  multisend_address : string;
  conditional_tokens_address : string;
  realitio_proxy_address : string;
  realitio_address : string;
  dust_threshold : Z;
  redeeming_batch_size : nat;
  get_bet_amount : Z -> Z
}.

(** [self.synchronized_data] *)
Record SynchronizedData : Type := mkSync {
  safe_contract_address : string;
  sampled_bet_collateralToken : string;
  sampled_bet_id : string;
  confidence : Z;
  vote : Z
}.

(** ** The monad of a behaviour method *)

Definition Trace := list Request.

Inductive Result (S A : Type) : Type :=
| Returned (a : A) (log : Trace) (s : S)
| Polling
| Raised (exc : string).

Arguments Returned {S A} a log s.
Arguments Polling {S A}.
Arguments Raised {S A} exc.

Definition M (S A : Type) : Type := Trace -> S -> Result S A.

Definition ret {S A} (a : A) : M S A := fun log s => Returned a log s.

Definition bind {S A B} (m : M S A) (k : A -> M S B) : M S B :=
  fun log s =>
    match m log s with
    | Returned a log' s' => k a log' s'
    | Polling => Polling
    | Raised e => Raised e
    end.

Definition gets {S A} (f : S -> A) : M S A := fun log s => Returned (f s) log s.

Definition modify {S} (f : S -> S) : M S unit := fun log s => Returned tt log (f s).

Definition raise {S A} (exc : string) : M S A := fun _ _ => Raised exc.

Notation "'let*' x ':=' m 'in' k" := (bind m (fun x => k))
  (at level 10, x name, m at level 100, k at level 200).
Notation "m ';;' k" := (bind m (fun _ => k))
  (at level 100, k at level 200, right associativity).

(** Modelled from the spec: the Retry-Poll Controller of section 4.1
    ([wait_for_condition_with_sleep] of behaviours/base.py is not part of
    the sources): invoke the step again, after a sleep, until it reports
    success.  The controller has no attempt limit; [attempts] bounds how
    long a run is followed, and a loop that has not succeeded by then is
    [Polling]. *)
Fixpoint wait_for_condition_with_sleep {S} (attempts : nat) (condition : M S bool)
  : M S unit :=
  match attempts with
  | O => fun _ _ => Polling
  | S n =>
      let* done := condition in
      if done then ret tt else wait_for_condition_with_sleep n condition
  end.

(** Run the steps one after the other, each under the controller. *)
Fixpoint wait_for_each {S} (attempts : nat) (steps : list (M S bool)) : M S unit :=
  match steps with
  | [] => ret tt
  | step :: rest =>
      wait_for_condition_with_sleep attempts step ;;
      wait_for_each attempts rest
  end.

(** ** Python built-ins used by the behaviours *)

(** [s[2:]] *)
Definition drop2 (s : string) : string :=
  match s with
  | String _ (String _ rest) => rest
  | _ => ""
  end.

Definition is_space (c : ascii) : bool :=
  let n := nat_of_ascii c in
  (Nat.eqb n 32 || (Nat.leb 9 n && Nat.leb n 13))%bool.

Definition hex_digit (c : ascii) : option nat :=
  let n := nat_of_ascii c in
  if (Nat.leb 48 n && Nat.leb n 57)%bool then Some (n - 48)%nat
  else if (Nat.leb 97 n && Nat.leb n 102)%bool then Some (n - 87)%nat
  else if (Nat.leb 65 n && Nat.leb n 70)%bool then Some (n - 55)%nat
  else None.

(** [bytes.fromhex]: two hexadecimal digits per byte, white space skipped
    between bytes; [None] is the ValueError. *)
Fixpoint bytes_fromhex (s : string) : option bytes :=
  match s with
  | EmptyString => Some []
  | String c rest =>
      if is_space c then bytes_fromhex rest
      else
        match hex_digit c, rest with
        | Some hi, String d rest' =>
            match hex_digit d, bytes_fromhex rest' with
            | Some lo, Some bs =>
                Some (byte_of_ascii (ascii_of_nat (16 * hi + lo)) :: bs)
            | _, _ => None
            end
        | _, _ => None
        end
  end.

(** [text.encode("ascii")] succeeds. *)
Fixpoint is_ascii_text (text : string) : bool :=
  match text with
  | EmptyString => true
  | String c rest => (Nat.ltb (nat_of_ascii c) 128 && is_ascii_text rest)%bool
  end.

(** The text without a leading "0x" or "0X". *)
Definition without_0x (text : string) : string :=
  match text with
  | String "0" (String "x" rest) => rest
  | String "0" (String "X" rest) => rest
  | _ => text
  end.

Fixpoint all_hex_digits (text : string) : bool :=
  match text with
  | EmptyString => true
  | String c rest =>
      match hex_digit c with
      | Some _ => all_hex_digits rest
      | None => false
      end
  end.

(** The exception that [HexBytes(text)] raises, if any.  The package
    drops a leading "0x", pads a text of odd length with a zero on the
    left, encodes it as ASCII and hands it to [binascii.unhexlify], which
    wants hexadecimal digits and nothing else. *)
Definition HexBytes_error (text : string) : option string :=
  if negb (is_ascii_text text) then Some "UnicodeEncodeError"
  else if all_hex_digits (without_0x text) then None
  else Some "binascii.Error".

(** [HexBytes(text)] *)
Definition HexBytes_new {S} (text : string) : M S HexBytes :=
  fun log s =>
    match HexBytes_error text with
    | Some exc => Raised exc
    | None => Returned (HexBytes_of text) log s
    end.

(** ** The contract-call boundary *)

(** The answer to a request depends on the request and on how many
    requests were sent before it. *)
Definition Ledger : Type := nat -> Request -> ContractApiMessage.

(** Modelled from the spec: the Contract Call Step of section 2
    ([get_contract_api_response] belongs to the framework): send one
    request, suspend, resume with its answer. *)
Definition get_contract_api_response {S} (ledger : Ledger) (req : Request)
  : M S ContractApiMessage :=
  fun log s => Returned (ledger (List.length log) req) (log ++ [req]) s.

(** The kind of answer a request of a given kind expects. *)
Definition expected_performative (p : Performative) : Performative :=
  match p with
  | GET_STATE => STATE
  | _ => RAW_TRANSACTION
  end.

(** The public ids of the contract packages, which are not part of the
    sources. *)
Record ContractIds : Type := mkContractIds {
  ERC20_contract_id : string;
  GnosisSafeContract_contract_id : string;
  FixedProductMarketMakerContract_contract_id : string;
  MultiSendContract_contract_id : string;
  ConditionalTokensContract_contract_id : string;
  RealitioContract_contract_id : string;
  RealitioProxyContract_contract_id : string
}.

(** [dataclasses.asdict(batch)] *)
Definition asdict (batch : MultisendBatch) : Value :=
  VDict [("to", VStr (batch_to batch));
         ("data", VHex (batch_data batch));
         ("value", VInt (batch_value batch))].

(** A call of a payload class with positional arguments, as the two
    [async_act] methods make it; an argument is a string or None.  The
    class [MultisigTxPayload] itself is not in payloads.py. *)
Record PayloadCall : Type := mkPayloadCall {
  payload_class : string;
  payload_args : list (option string)
}.

Definition MultisigTxPayload (args : list (option string)) : PayloadCall :=
  {| payload_class := "MultisigTxPayload"; payload_args := args |}.

(** hardcoded to 0 because we don't need to send any ETH when betting *)
Definition _ETHER_VALUE : Z := 0.

(** ** bet_placement.py *)

Module BetPlacementBehaviour.

(** The instance fields set by [__init__]. *)
Record State : Type := mkState {
  balance : Z;
  buy_amount : Z;
  multisend_batches : list MultisendBatch;
  multisend_data : bytes;
  safe_tx_hash : string
}.

Definition __init__ : State :=
  {| balance := 0;
     buy_amount := 0;
     multisend_batches := [];
     multisend_data := [];
     safe_tx_hash := "" |}.

Definition set_balance (v : Z) (s : State) : State :=
  {| balance := v;
     buy_amount := buy_amount s;
     multisend_batches := multisend_batches s;
     multisend_data := multisend_data s;
     safe_tx_hash := safe_tx_hash s |}.

Definition set_buy_amount (v : Z) (s : State) : State :=
  {| balance := balance s;
     buy_amount := v;
     multisend_batches := multisend_batches s;
     multisend_data := multisend_data s;
     safe_tx_hash := safe_tx_hash s |}.

(** [self.multisend_batches.append(batch)] *)
Definition append_batch (batch : MultisendBatch) (s : State) : State :=
  {| balance := balance s;
     buy_amount := buy_amount s;
     multisend_batches := multisend_batches s ++ [batch];
     multisend_data := multisend_data s;
     safe_tx_hash := safe_tx_hash s |}.

Definition set_multisend_data (v : bytes) (s : State) : State :=
  {| balance := balance s;
     buy_amount := buy_amount s;
     multisend_batches := multisend_batches s;
     multisend_data := v;
     safe_tx_hash := safe_tx_hash s |}.

Definition set_safe_tx_hash (v : string) (s : State) : State :=
  {| balance := balance s;
     buy_amount := buy_amount s;
     multisend_batches := multisend_batches s;
     multisend_data := multisend_data s;
     safe_tx_hash := v |}.

Section Behaviour.

Variable ledger : Ledger.
Variable params : Params.
Variable synchronized_data : SynchronizedData.
Variable agent_address : string.
Variable ids : ContractIds.
(** [SAFE_GAS] of behaviours/base.py and [TX_HASH_LENGTH] and
    [hash_payload_to_hex] of the transaction settlement skill are not
    part of the sources. *)
Variable SAFE_GAS : Z.
Variable TX_HASH_LENGTH : nat.
Variable hash_payload_to_hex : string -> Z -> Z -> string -> bytes -> Z -> string.

Definition collateral_token : string := sampled_bet_collateralToken synchronized_data.

Definition market_maker_contract_address : string := sampled_bet_id synchronized_data.

Definition investment_amount : Z := get_bet_amount params (confidence synchronized_data).

Definition sufficient_balance (s : State) : bool := (investment_amount <=? balance s)%Z.

Definition outcome_index : Z := vote synchronized_data.

Definition multi_send_txs (s : State) : Value := VList (map asdict (multisend_batches s)).

Definition check_balance_request : Request :=
  {| req_performative := GET_RAW_TRANSACTION;
     req_contract_address := collateral_token;
     req_contract_id := ERC20_contract_id ids;
     req_contract_callable := "check_balance";
     req_kwargs := [("account", VStr (safe_contract_address synchronized_data))] |}.

Definition _check_balance : M State bool :=
  let* response_msg := get_contract_api_response ledger check_balance_request in
  if negb (Performative_eqb (performative response_msg) RAW_TRANSACTION) then ret false
  else
    match body_balance (body response_msg) with
    | None => ret false
    | Some balance =>
        modify (set_balance balance) ;;
        ret true
    end.

Definition build_approval_request : Request :=
  {| req_performative := GET_STATE;
     req_contract_address := collateral_token;
     req_contract_id := ERC20_contract_id ids;
     req_contract_callable := "build_approval_tx";
     req_kwargs := [("spender", VStr market_maker_contract_address);
                    ("amount", VInt investment_amount)] |}.

Definition _build_approval_tx : M State bool :=
  let* response_msg := get_contract_api_response ledger build_approval_request in
  if negb (Performative_eqb (performative response_msg) STATE) then ret false
  else
    match body_data (body response_msg) with
    | None => ret false
    | Some approval_data =>
        let* data := HexBytes_new approval_data in
        let batch := MultisendBatch_new collateral_token data in
        modify (append_batch batch) ;;
        ret true
    end.

Definition calc_buy_amount_request : Request :=
  {| req_performative := GET_RAW_TRANSACTION;
     req_contract_address := market_maker_contract_address;
     req_contract_id := FixedProductMarketMakerContract_contract_id ids;
     req_contract_callable := "calc_buy_amount";
     req_kwargs := [("investment_amount", VInt investment_amount);
                    ("outcome_index", VInt outcome_index)] |}.

Definition _calc_buy_amount : M State bool :=
  let* response_msg := get_contract_api_response ledger calc_buy_amount_request in
  if negb (Performative_eqb (performative response_msg) RAW_TRANSACTION) then ret false
  else
    match body_amount (body response_msg) with
    | None => ret false
    | Some buy_amount =>
        modify (set_buy_amount buy_amount) ;;
        ret true
    end.

Definition get_buy_data_request (s : State) : Request :=
  {| req_performative := GET_STATE;
     req_contract_address := market_maker_contract_address;
     req_contract_id := FixedProductMarketMakerContract_contract_id ids;
     req_contract_callable := "get_buy_data";
     req_kwargs := [("investment_amount", VInt investment_amount);
                    ("outcome_index", VInt outcome_index);
                    ("min_outcome_tokens_to_buy", VInt (buy_amount s))] |}.

Definition _build_buy_tx : M State bool :=
  let* request := gets get_buy_data_request in
  let* response_msg := get_contract_api_response ledger request in
  if negb (Performative_eqb (performative response_msg) STATE) then ret false
  else
    match body_data (body response_msg) with
    | None => ret false
    | Some buy_data =>
        let* data := HexBytes_new buy_data in
        let batch := MultisendBatch_new market_maker_contract_address data in
        modify (append_batch batch) ;;
        ret true
    end.

Definition get_tx_data_request (s : State) : Request :=
  {| req_performative := GET_RAW_TRANSACTION;
     req_contract_address := multisend_address params;
     req_contract_id := MultiSendContract_contract_id ids;
     req_contract_callable := "get_tx_data";
     req_kwargs := [("multi_send_txs", multi_send_txs s)] |}.

Definition _build_multisend_data : M State bool :=
  let* request := gets get_tx_data_request in
  let* response_msg := get_contract_api_response ledger request in
  if negb (Performative_eqb (performative response_msg) RAW_TRANSACTION) then ret false
  else
    match body_data (body response_msg) with
    | None => ret false
    | Some data =>
        (* strip "0x" from the response *)
        let multisend_data_str := drop2 data in
        match bytes_fromhex multisend_data_str with
        | None => raise "ValueError"
        | Some decoded =>
            modify (set_multisend_data decoded) ;;
            ret true
        end
    end.

Definition get_raw_safe_transaction_hash_request (s : State) : Request :=
  {| req_performative := GET_STATE;
     req_contract_address := safe_contract_address synchronized_data;
     req_contract_id := GnosisSafeContract_contract_id ids;
     req_contract_callable := "get_raw_safe_transaction_hash";
     req_kwargs := [("to_address", VStr (multisend_address params));
                    ("value", VInt _ETHER_VALUE);
                    ("data", VBytes (multisend_data s));
                    ("safe_tx_gas", VInt SAFE_GAS);
                    ("operation", VInt (SafeOperation_value DELEGATE_CALL))] |}.

Definition _build_safe_tx_hash : M State bool :=
  let* request := gets get_raw_safe_transaction_hash_request in
  let* response_msg := get_contract_api_response ledger request in
  if negb (Performative_eqb (performative response_msg) STATE) then ret false
  else
    match body_tx_hash (body response_msg) with
    | None => ret false
    | Some tx_hash =>
        if negb (Nat.eqb (String.length tx_hash) TX_HASH_LENGTH) then ret false
        else
          (* strip "0x" from the response hash *)
          modify (set_safe_tx_hash (drop2 tx_hash)) ;;
          ret true
    end.

Definition _prepare_safe_tx (attempts : nat) : M State string :=
  wait_for_each attempts
    [_build_approval_tx;
     _calc_buy_amount;
     _build_buy_tx;
     _build_multisend_data;
     _build_safe_tx_hash] ;;
  let* s := gets (fun s => s) in
  ret (hash_payload_to_hex
         (safe_tx_hash s)
         _ETHER_VALUE
         SAFE_GAS
         (multisend_address params)
         (multisend_data s)
         (SafeOperation_value DELEGATE_CALL)).

(** [async_act] up to the payload it hands to [finish_behaviour]. *)
Definition async_act (attempts : nat) : M State PayloadCall :=
  wait_for_condition_with_sleep attempts _check_balance ;;
  let* sufficient := gets sufficient_balance in
  let* betting_tx_hex :=
    (if sufficient
     then let* hex := _prepare_safe_tx attempts in ret (Some hex)
     else ret None) in
  let payload := MultisigTxPayload [Some agent_address; betting_tx_hex] in
  ret payload.

End Behaviour.

End BetPlacementBehaviour.

(** ** reedem.py *)

(** [str.lower] on ASCII text *)
Definition lower_ascii (c : ascii) : ascii :=
  let n := nat_of_ascii c in
  if (Nat.leb 65 n && Nat.leb n 90)%bool then ascii_of_nat (n + 32) else c.

Fixpoint lower (s : string) : string :=
  match s with
  | EmptyString => EmptyString
  | String c rest => String (lower_ascii c) (lower rest)
  end.

(** [HASH_ZERO] of web3.constants: "0x" and sixty-four zeros. *)
Definition HASH_ZERO : string :=
  "0x0000000000000000000000000000000000000000000000000000000000000000".

Definition ZERO_HEX : string := drop2 HASH_ZERO.

Definition ZERO_BYTES : bytes :=
  match bytes_fromhex ZERO_HEX with
  | Some b => b
  | None => []
  end.

Definition DEFAULT_FROM_BLOCK : string := "earliest".

(** One answer of the trade-history source: a chunk of trades, or none,
    and the fetch status it leaves. *)
Record Page : Type := mkPage {
  page_chunk : option (list RedeemInfo);
  page_status : FetchStatus
}.

(** One answer of the block-index lookup: the block, read with
    [block.get("id", ..)], and the fetch status it leaves. *)
Record BlockAnswer : Type := mkBlockAnswer {
  block_id : option string;
  block_status : FetchStatus
}.

Module RedeemBehaviour.

(** The instance fields set by [__init__], the fields of the base class
    that the behaviour uses, the fetch status of [QueryingBehaviour], and
    the answers its two data sources still hold. *)
Record State : Type := mkState {
  _already_resolved : bool;
  _payouts : gmap string Z;
  _from_block : Value;
  _built_data : option HexBytes;
  _redeem_info : list RedeemInfo;
  _current_redeem_info : option RedeemInfo;
  _expected_winnings : Z;
  multisend_batches : list MultisendBatch;
  multisend_data : bytes;
  safe_tx_hash : string;
  _fetch_status : FetchStatus;
  pending_pages : list Page;
  pending_blocks : list BlockAnswer
}.

Definition __init__ (pages : list Page) (blocks : list BlockAnswer) : State :=
  {| _already_resolved := false;
     _payouts := ∅;
     _from_block := VStr DEFAULT_FROM_BLOCK;
     _built_data := None;
     _redeem_info := [];
     _current_redeem_info := None;
     _expected_winnings := 0;
     multisend_batches := [];
     multisend_data := [];
     safe_tx_hash := "";
     _fetch_status := NONE;
     pending_pages := pages;
     pending_blocks := blocks |}.

Definition set_already_resolved (v : bool) (s : State) : State :=
  mkState v (_payouts s) (_from_block s) (_built_data s) (_redeem_info s)
    (_current_redeem_info s) (_expected_winnings s) (multisend_batches s)
    (multisend_data s) (safe_tx_hash s) (_fetch_status s) (pending_pages s)
    (pending_blocks s).

Definition set_payouts (v : gmap string Z) (s : State) : State :=
  mkState (_already_resolved s) v (_from_block s) (_built_data s) (_redeem_info s)
    (_current_redeem_info s) (_expected_winnings s) (multisend_batches s)
    (multisend_data s) (safe_tx_hash s) (_fetch_status s) (pending_pages s)
    (pending_blocks s).

Definition set_from_block_field (v : Value) (s : State) : State :=
  mkState (_already_resolved s) (_payouts s) v (_built_data s) (_redeem_info s)
    (_current_redeem_info s) (_expected_winnings s) (multisend_batches s)
    (multisend_data s) (safe_tx_hash s) (_fetch_status s) (pending_pages s)
    (pending_blocks s).

Definition set_built_data_field (v : HexBytes) (s : State) : State :=
  mkState (_already_resolved s) (_payouts s) (_from_block s) (Some v)
    (_redeem_info s) (_current_redeem_info s) (_expected_winnings s)
    (multisend_batches s) (multisend_data s) (safe_tx_hash s) (_fetch_status s)
    (pending_pages s) (pending_blocks s).

(** The setter of [built_data]: [self._built_data = HexBytes(built_data)];
    it raises what [HexBytes] raises. *)
Definition set_built_data (built_data : string) : M State unit :=
  let* data := HexBytes_new built_data in
  modify (set_built_data_field data).

Definition set_redeem_info (v : list RedeemInfo) (s : State) : State :=
  mkState (_already_resolved s) (_payouts s) (_from_block s) (_built_data s) v
    (_current_redeem_info s) (_expected_winnings s) (multisend_batches s)
    (multisend_data s) (safe_tx_hash s) (_fetch_status s) (pending_pages s)
    (pending_blocks s).

Definition set_current_redeem_info (v : option RedeemInfo) (s : State) : State :=
  mkState (_already_resolved s) (_payouts s) (_from_block s) (_built_data s)
    (_redeem_info s) v (_expected_winnings s) (multisend_batches s)
    (multisend_data s) (safe_tx_hash s) (_fetch_status s) (pending_pages s)
    (pending_blocks s).

Definition set_expected_winnings (v : Z) (s : State) : State :=
  mkState (_already_resolved s) (_payouts s) (_from_block s) (_built_data s)
    (_redeem_info s) (_current_redeem_info s) v (multisend_batches s)
    (multisend_data s) (safe_tx_hash s) (_fetch_status s) (pending_pages s)
    (pending_blocks s).

(** [self.multisend_batches.append(batch)] *)
Definition append_batch (batch : MultisendBatch) (s : State) : State :=
  mkState (_already_resolved s) (_payouts s) (_from_block s) (_built_data s)
    (_redeem_info s) (_current_redeem_info s) (_expected_winnings s)
    (multisend_batches s ++ [batch]) (multisend_data s) (safe_tx_hash s)
    (_fetch_status s) (pending_pages s) (pending_blocks s).

Definition set_multisend_data (v : bytes) (s : State) : State :=
  mkState (_already_resolved s) (_payouts s) (_from_block s) (_built_data s)
    (_redeem_info s) (_current_redeem_info s) (_expected_winnings s)
    (multisend_batches s) v (safe_tx_hash s) (_fetch_status s) (pending_pages s)
    (pending_blocks s).

Definition set_safe_tx_hash (v : string) (s : State) : State :=
  mkState (_already_resolved s) (_payouts s) (_from_block s) (_built_data s)
    (_redeem_info s) (_current_redeem_info s) (_expected_winnings s)
    (multisend_batches s) (multisend_data s) v (_fetch_status s) (pending_pages s)
    (pending_blocks s).

Definition set_fetch_status (v : FetchStatus) (s : State) : State :=
  mkState (_already_resolved s) (_payouts s) (_from_block s) (_built_data s)
    (_redeem_info s) (_current_redeem_info s) (_expected_winnings s)
    (multisend_batches s) (multisend_data s) (safe_tx_hash s) v (pending_pages s)
    (pending_blocks s).

Definition set_pending_pages (v : list Page) (s : State) : State :=
  mkState (_already_resolved s) (_payouts s) (_from_block s) (_built_data s)
    (_redeem_info s) (_current_redeem_info s) (_expected_winnings s)
    (multisend_batches s) (multisend_data s) (safe_tx_hash s) (_fetch_status s) v
    (pending_blocks s).

Definition set_pending_blocks (v : list BlockAnswer) (s : State) : State :=
  mkState (_already_resolved s) (_payouts s) (_from_block s) (_built_data s)
    (_redeem_info s) (_current_redeem_info s) (_expected_winnings s)
    (multisend_batches s) (multisend_data s) (safe_tx_hash s) (_fetch_status s)
    (pending_pages s) v.

(** [sum(self.payouts.values())] *)
Definition sum_values (payouts : gmap string Z) : Z :=
  foldr Z.add 0 (map snd (map_to_list payouts)).

(** [key in self.payouts.keys()] *)
Definition in_keys (key : string) (payouts : gmap string Z) : bool :=
  match payouts !! key with
  | Some _ => true
  | None => false
  end.

Section Behaviour.

Variable ledger : Ledger.
Variable params : Params.
Variable synchronized_data : SynchronizedData.
Variable agent_address : string.
Variable ids : ContractIds.
(** [SAFE_GAS] of behaviours/base.py, [TX_HASH_LENGTH] and
    [hash_payload_to_hex] of the transaction settlement skill and
    [RedeemRound.auto_round_id()] are not part of the sources. *)
Variable SAFE_GAS : Z.
Variable TX_HASH_LENGTH : nat.
Variable hash_payload_to_hex : string -> Z -> Z -> string -> bytes -> Z -> string.
Variable RedeemRound_auto_round_id : string.
(** Python's [int] on a string; [None] is the ValueError. *)
Variable int : string -> option Z.

(** The property [current_redeem_info]. *)
Definition current_redeem_info : M State RedeemInfo :=
  fun log s =>
    match _current_redeem_info s with
    | None => Raised "ValueError"
    | Some info => Returned info log s
    end.

Definition current_fpmm : M State FPMM :=
  let* info := current_redeem_info in ret (fpmm info).

Definition current_condition : M State Condition :=
  let* market := current_fpmm in ret (condition market).

Definition current_question_id : M State string :=
  let* market := current_fpmm in ret (question_id (question market)).

Definition current_collateral_token : M State string :=
  let* market := current_fpmm in ret (collateralToken market).

Definition current_condition_id : M State HexBytes :=
  let* cond := current_condition in ret (condition_id cond).

Definition current_index_sets : M State (list Z) :=
  let* cond := current_condition in ret (index_sets cond).

Definition safe_address_lower : string := lower (safe_contract_address synchronized_data).

(** The setter of [from_block]. *)
Definition set_from_block (from_block : string) (s : State) : State :=
  match int from_block with
  | Some n => set_from_block_field (VInt n) s
  | None => set_from_block_field (VStr DEFAULT_FROM_BLOCK) s
  end.

(** The property [built_data] as the builders use it:
    [HexBytes(self.built_data)]; it raises while nothing was built. *)
Definition built_data : M State HexBytes :=
  fun log s =>
    match _built_data s with
    | None => Raised "TypeError"
    | Some h => Returned h log s
    end.

(** Modelled from the spec: the paged trade-history source of sections
    4.4 and 6 ([_prepare_fetching] and [_fetch_redeem_info] of
    QueryingBehaviour are not part of the sources).  Fetching can proceed
    until the source is exhausted or has reported failure. *)
Definition _prepare_fetching : M State bool :=
  fun log s =>
    match _fetch_status s, pending_pages s with
    | FAIL, _ => Returned false log s
    | _, [] => Returned false log s
    | _, _ :: _ => Returned true log s
    end.

(** Modelled from the spec: the next page of the trade-history source and
    the status it reports. *)
Definition _fetch_redeem_info : M State (option (list RedeemInfo)) :=
  fun log s =>
    match pending_pages s with
    | [] => Returned None log s
    | page :: rest =>
        Returned (page_chunk page) log
          (set_fetch_status (page_status page) (set_pending_pages rest s))
    end.

Fixpoint _get_redeem_info_loop (rounds : nat) : M State unit :=
  match rounds with
  | O => fun _ _ => Polling
  | S n =>
      let* can_proceed := _prepare_fetching in
      if negb can_proceed then ret tt
      else
        let* trades_market_chunk := _fetch_redeem_info in
        match trades_market_chunk with
        | Some redeem_updates =>
            modify (fun s => set_redeem_info (_redeem_info s ++ redeem_updates) s)
        | None => ret tt
        end ;;
        _get_redeem_info_loop n
  end.

(** The loop pops one pending page per round, so one round more than
    there are pending pages always reaches its [break]. *)
Definition _get_redeem_info : M State unit :=
  let* rounds := gets (fun s => S (List.length (pending_pages s))) in
  _get_redeem_info_loop rounds ;;
  let* status := gets _fetch_status in
  if negb (FetchStatus_eqb status SUCCESS) then modify (set_redeem_info [])
  else ret tt.

(** Modelled from the spec: the contract-call boundary of section 6
    ([contract_interact] of behaviours/base.py is not part of the
    sources): an answer of the wrong kind, or without the field
    [data_key], makes the step return false; otherwise the field is
    stored through the setter [placeholder], which may raise, and the
    step returns true. *)
Definition contract_interact {X} (request : Request)
    (data_key : Body -> option X) (placeholder : X -> M State unit) : M State bool :=
  let* response_msg := get_contract_api_response ledger request in
  if negb (Performative_eqb (performative response_msg)
             (expected_performative (req_performative request)))
  then ret false
  else
    match data_key (body response_msg) with
    | None => ret false
    | Some data =>
        placeholder data ;;
        ret true
    end.

Definition _conditional_tokens_interact {X} (contract_callable : string)
    (data_key : Body -> option X) (placeholder : X -> M State unit)
    (kwargs : list (string * Value)) : M State bool :=
  contract_interact
    {| req_performative := GET_RAW_TRANSACTION;
       req_contract_address := conditional_tokens_address params;
       req_contract_id := ConditionalTokensContract_contract_id ids;
       req_contract_callable := contract_callable;
       req_kwargs := kwargs |}
    data_key placeholder.

Definition check_redeemed_kwargs (candidates : list RedeemInfo) : list (string * Value) :=
  [("redeemer", VStr safe_address_lower);
   ("collateral_tokens",
     VList (map (fun c => VStr (collateralToken (fpmm c))) candidates));
   ("parent_collection_ids", VList (map (fun _ => VBytes ZERO_BYTES) candidates));
   ("condition_ids",
     VList (map (fun c => VHex (condition_id (condition (fpmm c)))) candidates));
   ("index_sets",
     VList (map (fun c => VList (map VInt (index_sets (condition (fpmm c))))) candidates));
   ("trade_tx_hashes", VList (map (fun c => VStr (transactionHash c)) candidates))].

Definition _check_already_redeemed : M State bool :=
  let* candidates := gets _redeem_info in
  _conditional_tokens_interact "check_redeemed" body_payouts
    (fun payouts => modify (set_payouts payouts))
    (check_redeemed_kwargs candidates).

Definition _clean_redeem_info (attempts : nat) : M State unit :=
  wait_for_condition_with_sleep attempts _check_already_redeemed ;;
  let* payouts := gets _payouts in
  let payout_so_far := sum_values payouts in
  if (0 <? payout_so_far)%Z
  then
    modify (fun s =>
      set_redeem_info
        (List.filter (fun info => negb (in_keys (transactionHash info) payouts))
           (_redeem_info s)) s)
  else ret tt.

Definition _is_winning_position : M State bool :=
  let* info := current_redeem_info in
  let our_answer := outcomeIndex info in
  let* info' := current_redeem_info in
  let correct_answer := current_answer_index (fpmm info') in
  ret (our_answer =? correct_answer)%Z.

Definition _is_dust : M State bool :=
  let* info := current_redeem_info in
  ret (claimable_amount info <? dust_threshold params)%Z.

Definition _check_already_resolved : M State bool :=
  let* cid := current_condition_id in
  _conditional_tokens_interact "check_resolved" body_resolved
    (fun flag => modify (set_already_resolved flag))
    [("condition_id", VHex cid)].

Definition _build_resolve_data : M State bool :=
  let* qid := current_question_id in
  let* market := current_fpmm in
  let* market' := current_fpmm in
  let* cond := current_condition in
  let* result :=
    contract_interact
      {| req_performative := GET_RAW_TRANSACTION;
         req_contract_address := realitio_proxy_address params;
         req_contract_id := RealitioProxyContract_contract_id ids;
         req_contract_callable := "build_resolve_tx";
         req_kwargs := [("question_id", VStr qid);
                        ("template_id", VInt (templateId market));
                        ("question", VStr (question_data (question market')));
                        ("num_outcomes", VInt (outcomeSlotCount cond))] |}
      body_data set_built_data in
  if negb result then ret false
  else
    let* data := built_data in
    let batch := MultisendBatch_new (realitio_proxy_address params) data in
    modify (append_batch batch) ;;
    ret true.

(** Modelled from the spec: the block-index lookup of section 6
    ([_fetch_block_number] of QueryingBehaviour is not part of the
    sources): one answer per call, with the status it leaves; while the
    lookup holds no answer the caller stays suspended. *)
Definition _fetch_block_number (timestamp : Z) : M State BlockAnswer :=
  fun log s =>
    match pending_blocks s with
    | [] => Polling
    | answer :: rest =>
        Returned answer log
          (set_fetch_status (block_status answer) (set_pending_blocks rest s))
    end.

Fixpoint _get_block_number_loop (attempts : nat) (market_timestamp : Z)
  : M State BlockAnswer :=
  match attempts with
  | O => fun _ _ => Polling
  | S n =>
      let* block := _fetch_block_number market_timestamp in
      let* status := gets _fetch_status in
      if negb (FetchStatus_eqb status IN_PROGRESS) then ret block
      else _get_block_number_loop n market_timestamp
  end.

Definition _get_block_number (attempts : nat) : M State bool :=
  let* info := current_redeem_info in
  let market_timestamp := creationTimestamp (fpmm info) in
  let* block := _get_block_number_loop attempts market_timestamp in
  let* status := gets _fetch_status in
  (if FetchStatus_eqb status SUCCESS
   then
     modify (set_from_block
               (match block_id block with
                | Some id => id
                | None => DEFAULT_FROM_BLOCK
                end))
   else ret tt) ;;
  ret true.

Definition _build_claim_data : M State bool :=
  let* from_block := gets _from_block in
  let* qid := current_question_id in
  let* result :=
    contract_interact
      {| req_performative := GET_RAW_TRANSACTION;
         req_contract_address := realitio_address params;
         req_contract_id := RealitioContract_contract_id ids;
         req_contract_callable := "build_claim_winnings";
         req_kwargs := [("from_block", from_block);
                        ("question_id", VStr qid)] |}
      body_data set_built_data in
  if negb result then ret false
  else
    let* data := built_data in
    let batch := MultisendBatch_new (realitio_address params) data in
    modify (append_batch batch) ;;
    ret true.

Definition _build_redeem_data : M State bool :=
  let* token := current_collateral_token in
  let* cid := current_condition_id in
  let* sets := current_index_sets in
  let* result :=
    _conditional_tokens_interact "build_redeem_positions_tx" body_data set_built_data
      [("collateral_token", VStr token);
       ("parent_collection_id", VBytes ZERO_BYTES);
       ("condition_id", VHex cid);
       ("index_sets", VList (map VInt sets))] in
  if negb result then ret false
  else
    let* data := built_data in
    let batch := MultisendBatch_new (conditional_tokens_address params) data in
    modify (append_batch batch) ;;
    ret true.

Definition _prepare_single_redeem (attempts : nat) : M State unit :=
  wait_for_condition_with_sleep attempts _check_already_resolved ;;
  let* already_resolved := gets _already_resolved in
  let steps := if already_resolved then [] else [_build_resolve_data] in
  let steps := steps ++ [_build_claim_data; _build_redeem_data] in
  wait_for_each attempts steps.

Definition _process_candidate (attempts : nat) (redeem_candidate : RedeemInfo)
  : M State bool :=
  modify (set_current_redeem_info (Some redeem_candidate)) ;;
  (* in case of a non-winning position or the claimable amount is dust *)
  let* winning := _is_winning_position in
  let* skip := (if negb winning then ret true else _is_dust) in
  if skip then ret false
  else
    _prepare_single_redeem attempts ;;
    let* info := current_redeem_info in
    modify (fun s => set_expected_winnings (_expected_winnings s + claimable_amount info) s) ;;
    ret true.

Definition multi_send_txs (s : State) : Value := VList (map asdict (multisend_batches s)).

Definition get_tx_data_request (s : State) : Request :=
  {| req_performative := GET_RAW_TRANSACTION;
     req_contract_address := multisend_address params;
     req_contract_id := MultiSendContract_contract_id ids;
     req_contract_callable := "get_tx_data";
     req_kwargs := [("multi_send_txs", multi_send_txs s)] |}.

(** Modelled from the spec: step 5 of section 4.4, "identical mechanics
    to steps 6-8 of section 4.3" ([_build_multisend_data] of
    behaviours/base.py is not part of the sources); it follows the
    method of the same name in bet_placement.py. *)
Definition _build_multisend_data : M State bool :=
  let* request := gets get_tx_data_request in
  let* response_msg := get_contract_api_response ledger request in
  if negb (Performative_eqb (performative response_msg) RAW_TRANSACTION) then ret false
  else
    match body_data (body response_msg) with
    | None => ret false
    | Some data =>
        let multisend_data_str := drop2 data in
        match bytes_fromhex multisend_data_str with
        | None => raise "ValueError"
        | Some decoded =>
            modify (set_multisend_data decoded) ;;
            ret true
        end
    end.

Definition get_raw_safe_transaction_hash_request (s : State) : Request :=
  {| req_performative := GET_STATE;
     req_contract_address := safe_contract_address synchronized_data;
     req_contract_id := GnosisSafeContract_contract_id ids;
     req_contract_callable := "get_raw_safe_transaction_hash";
     req_kwargs := [("to_address", VStr (multisend_address params));
                    ("value", VInt _ETHER_VALUE);
                    ("data", VBytes (multisend_data s));
                    ("safe_tx_gas", VInt SAFE_GAS);
                    ("operation", VInt (SafeOperation_value DELEGATE_CALL))] |}.

(** Modelled from the spec: step 5 of section 4.4
    ([_build_multisend_safe_tx_hash] of behaviours/base.py is not part of
    the sources); it follows [_build_safe_tx_hash] of bet_placement.py. *)
Definition _build_multisend_safe_tx_hash : M State bool :=
  let* request := gets get_raw_safe_transaction_hash_request in
  let* response_msg := get_contract_api_response ledger request in
  if negb (Performative_eqb (performative response_msg) STATE) then ret false
  else
    match body_tx_hash (body response_msg) with
    | None => ret false
    | Some tx_hash =>
        if negb (Nat.eqb (String.length tx_hash) TX_HASH_LENGTH) then ret false
        else
          modify (set_safe_tx_hash (drop2 tx_hash)) ;;
          ret true
    end.

(** Modelled from the spec: step 8 of section 4.3, reused by step 5 of
    section 4.4 (the property [tx_hex] of behaviours/base.py is not part
    of the sources). *)
Definition tx_hex (s : State) : string :=
  hash_payload_to_hex
    (safe_tx_hash s)
    _ETHER_VALUE
    SAFE_GAS
    (multisend_address params)
    (multisend_data s)
    (SafeOperation_value DELEGATE_CALL).

(** The [for] loop of [_prepare_safe_tx] over the candidates; its result
    is [winnings_found]. *)
Fixpoint _prepare_safe_tx_loop (attempts : nat) (candidates : list RedeemInfo)
    (winnings_found : bool) : M State bool :=
  match candidates with
  | [] => ret winnings_found
  | redeem_candidate :: rest =>
      let* is_non_dust_winning := _process_candidate attempts redeem_candidate in
      if negb is_non_dust_winning
      then _prepare_safe_tx_loop attempts rest winnings_found
      else
        let* size := gets (fun s => List.length (multisend_batches s)) in
        if Nat.eqb size (redeeming_batch_size params) then ret true
        else _prepare_safe_tx_loop attempts rest true
  end.

Definition _prepare_safe_tx (attempts : nat) : M State (option string) :=
  let* candidates := gets _redeem_info in
  let* winnings_found := _prepare_safe_tx_loop attempts candidates false in
  if negb winnings_found then ret None
  else
    wait_for_each attempts [_build_multisend_data; _build_multisend_safe_tx_hash] ;;
    let* hex := gets tx_hex in
    ret (Some hex).

(** [async_act] up to the payload it hands to [finish_behaviour]. *)
Definition async_act (attempts : nat) : M State PayloadCall :=
  _get_redeem_info ;;
  _clean_redeem_info attempts ;;
  let agent := agent_address in
  let* redeem_tx_hex := _prepare_safe_tx attempts in
  let tx_submitter :=
    match redeem_tx_hex with
    | Some _ => Some RedeemRound_auto_round_id
    | None => None
    end in
  let payload := MultisigTxPayload [Some agent; tx_submitter; redeem_tx_hex] in
  ret payload.

End Behaviour.

End RedeemBehaviour.

(** * Reasoning about behaviour methods *)

(** What a polled step makes of one answer: it accepts it and moves to a
    new state, rejects it and stays where it was, or raises. *)
Inductive Verdict (S : Type) : Type :=
| Accept (s' : S)
| Reject
| Crash (exc : string).

Arguments Accept {S} s'.
Arguments Reject {S}.
Arguments Crash {S} exc.

(** [polls ledger step I request verdict]: from a state in [I] the step
    sends exactly the request [request s] and returns whether [verdict]
    accepts the answer; a rejected answer leaves the fields untouched. *)
Definition polls {S} (ledger : Ledger) (step : M S bool) (I : S -> Prop)
    (request : S -> Request) (verdict : ContractApiMessage -> S -> Verdict S) : Prop :=
  forall log s, I s ->
    step log s =
      match verdict (ledger (List.length log) (request s)) s with
      | Accept s' => Returned true (log ++ [request s]) s'
      | Reject => Returned false (log ++ [request s]) s
      | Crash e => Raised e
      end.

(** The fields of an answer's body. *)
Inductive Key : Type :=
| KBalance
| KAmount
| KData
| KTxHash
| KPayouts
| KResolved.

(** The field in which a call is answered: the one that the step making
    the call reads. *)
Definition answered_key (contract_callable : string) : Key :=
  if String.eqb contract_callable "check_balance" then KBalance
  else if String.eqb contract_callable "calc_buy_amount" then KAmount
  else if String.eqb contract_callable "get_raw_safe_transaction_hash" then KTxHash
  else if String.eqb contract_callable "check_redeemed" then KPayouts
  else if String.eqb contract_callable "check_resolved" then KResolved
  else KData.

(** The body has the field, a hash being of the expected length. *)
Definition carries (tx_hash_length : nat) (key : Key) (b : Body) : Prop :=
  match key with
  | KBalance => is_Some (body_balance b)
  | KAmount => is_Some (body_amount b)
  | KData => is_Some (body_data b)
  | KTxHash => exists h, body_tx_hash b = Some h /\ String.length h = tx_hash_length
  | KPayouts => is_Some (body_payouts b)
  | KResolved => is_Some (body_resolved b)
  end.

(** The answer is of the kind the request expects and carries the field
    in which the request is answered. *)
Definition answers_well (tx_hash_length : nat) (msg : ContractApiMessage) (req : Request)
  : Prop :=
  performative msg = expected_performative (req_performative req) /\
  carries tx_hash_length (answered_key (req_contract_callable req)) (body msg).

(** Within any [k] consecutive requests one is answered well. *)
Definition responsive (tx_hash_length : nat) (ledger : Ledger) (k : nat) : Prop :=
  forall n, exists j, (j < k)%nat /\
    forall req, answers_well tx_hash_length (ledger (n + j)%nat req) req.

(** The data of the ledger's answers is hexadecimal: whenever an answer
    of the expected kind carries data, [bytes.fromhex] accepts it without
    its first two characters if it answers an encoding request, and
    [HexBytes] accepts it otherwise. *)
Definition answers_in_hex (ledger : Ledger) : Prop :=
  forall n req data,
    performative (ledger n req) = expected_performative (req_performative req) ->
    body_data (body (ledger n req)) = Some data ->
    if String.eqb (req_contract_callable req) "get_tx_data"
    then is_Some (bytes_fromhex (drop2 data))
    else HexBytes_error data = None.

Section Monad.

Context {S : Type}.

Lemma bind_Returned {A B} (m : M S A) (k : A -> M S B) log s b log2 s2 :
  bind m k log s = Returned b log2 s2 ->
  exists a log1 s1, m log s = Returned a log1 s1 /\ k a log1 s1 = Returned b log2 s2.
Proof.
  unfold bind. destruct (m log s) as [a log1 s1| |e]; intros H; try discriminate.
  exists a, log1, s1. split; [reflexivity | exact H].
Qed.

Lemma bind_eq {A B} (m : M S A) (k : A -> M S B) log s a log1 s1 :
  m log s = Returned a log1 s1 -> bind m k log s = k a log1 s1.
Proof. unfold bind. intros ->. reflexivity. Qed.

Lemma repeat_snoc {A} (x : A) (n : nat) : repeat x n ++ [x] = x :: repeat x n.
Proof. induction n as [|n IH]; simpl; [reflexivity | rewrite IH; reflexivity]. Qed.

Section Wait.

Variable ledger : Ledger.
Variable step : M S bool.
Variable I : S -> Prop.
Variable request : S -> Request.
Variable verdict : ContractApiMessage -> S -> Verdict S.
Hypothesis step_polls : polls ledger step I request verdict.

(** A wait that returns has sent the same request over and over, was
    rejected every time but the last, and ends in the accepted state. *)
Lemma wait_returned (attempts : nat) log s log' s' :
  I s ->
  wait_for_condition_with_sleep attempts step log s = Returned tt log' s' ->
  exists m, (m < attempts)%nat /\
    log' = log ++ repeat (request s) (Datatypes.S m) /\
    verdict (ledger (List.length log + m)%nat (request s)) s = Accept s' /\
    forall i, (i < m)%nat ->
      verdict (ledger (List.length log + i)%nat (request s)) s = Reject.
Proof using step_polls.
  intros HI. revert log.
  induction attempts as [|n IH]; intros log H; simpl in H; [discriminate|].
  unfold bind in H. rewrite (step_polls log s HI) in H.
  destruct (verdict (ledger (List.length log) (request s)) s) as [s1| |e] eqn:Hv;
    try discriminate.
  - inversion H; subst. exists 0%nat. rewrite Nat.add_0_r.
    repeat split; [lia | assumption | intros i Hi; lia].
  - apply IH in H. destruct H as (m & Hm & Hlog & Hacc & Hrej).
    rewrite length_app in Hacc, Hrej. simpl in Hacc, Hrej.
    exists (Datatypes.S m). repeat split.
    + lia.
    + rewrite Hlog, <- app_assoc. reflexivity.
    + replace (List.length log + Datatypes.S m)%nat
        with (List.length log + 1 + m)%nat by lia. exact Hacc.
    + intros i Hi. destruct i as [|i].
      * rewrite Nat.add_0_r. exact Hv.
      * replace (List.length log + Datatypes.S i)%nat
          with (List.length log + 1 + i)%nat by lia. apply Hrej. lia.
Qed.

(** Rejections followed by an accepted answer within the budget make the
    wait return. *)
Lemma wait_returns (attempts m : nat) log s s' :
  I s ->
  (m < attempts)%nat ->
  verdict (ledger (List.length log + m)%nat (request s)) s = Accept s' ->
  (forall i, (i < m)%nat ->
     verdict (ledger (List.length log + i)%nat (request s)) s = Reject) ->
  wait_for_condition_with_sleep attempts step log s =
    Returned tt (log ++ repeat (request s) (Datatypes.S m)) s'.
Proof using step_polls.
  intros HI. revert attempts log.
  induction m as [|m IH]; intros attempts log Hlt Hacc Hrej;
    (destruct attempts as [|n]; [lia|]); simpl; unfold bind;
    rewrite (step_polls log s HI).
  - rewrite Nat.add_0_r in Hacc. rewrite Hacc. reflexivity.
  - assert (Hr0 := Hrej 0%nat). rewrite Nat.add_0_r in Hr0. rewrite Hr0 by lia.
    rewrite (IH n (log ++ [request s])).
    + rewrite <- app_assoc. reflexivity.
    + lia.
    + rewrite length_app. simpl.
      replace (List.length log + 1 + m)%nat
        with (List.length log + Datatypes.S m)%nat by lia. exact Hacc.
    + intros i Hi. rewrite length_app. simpl.
      replace (List.length log + 1 + i)%nat
        with (List.length log + Datatypes.S i)%nat by lia. apply Hrej. lia.
Qed.

(** With a responsive ledger, a step that accepts every good answer and
    raises on none of the ledger's answers is through within [k]
    attempts. *)
Lemma wait_responsive (hl k attempts : nat) log s :
  responsive hl ledger k ->
  (k <= attempts)%nat ->
  I s ->
  (forall n, answers_well hl (ledger n (request s)) (request s) ->
     exists s', verdict (ledger n (request s)) s = Accept s') ->
  (forall n e, verdict (ledger n (request s)) s <> Crash e) ->
  exists m s', (m < k)%nat /\
    verdict (ledger (List.length log + m)%nat (request s)) s = Accept s' /\
    wait_for_condition_with_sleep attempts step log s =
      Returned tt (log ++ repeat (request s) (Datatypes.S m)) s'.
Proof using step_polls.
  intros Hresp Hk HI Hgood Hnocrash.
  destruct (Hresp (List.length log)) as (j & Hj & Hwell).
  assert (Hfirst : exists m s', (m <= j)%nat /\
            verdict (ledger (List.length log + m)%nat (request s)) s = Accept s' /\
            forall i, (i < m)%nat ->
              verdict (ledger (List.length log + i)%nat (request s)) s = Reject).
  { clear Hj Hk. revert Hwell. generalize (List.length log) as base.
    induction j as [|j IH]; intros base Hwell.
    - destruct (Hgood _ (Hwell (request s))) as [s' Hs']. exists 0%nat, s'.
      repeat split; [lia | exact Hs' | intros i Hi; lia].
    - destruct (verdict (ledger base (request s)) s) as [s1| |e] eqn:Hv.
      + exists 0%nat, s1. rewrite Nat.add_0_r.
        repeat split; [lia | exact Hv | intros i Hi; lia].
      + destruct (IH (Datatypes.S base)) as (m & s' & Hm & Hacc & Hrej).
        { intros req. replace (Datatypes.S base + j)%nat
            with (base + Datatypes.S j)%nat by lia. apply Hwell. }
        exists (Datatypes.S m), s'. repeat split.
        * lia.
        * replace (base + Datatypes.S m)%nat
            with (Datatypes.S base + m)%nat by lia. exact Hacc.
        * intros i Hi. destruct i as [|i].
          -- rewrite Nat.add_0_r. exact Hv.
          -- replace (base + Datatypes.S i)%nat
               with (Datatypes.S base + i)%nat by lia. apply Hrej. lia.
      + exfalso. exact (Hnocrash _ _ Hv). }
  destruct Hfirst as (m & s' & Hm & Hacc & Hrej).
  exists m, s'. repeat split; [lia | exact Hacc |].
  apply wait_returns; [exact HI | lia | exact Hacc | exact Hrej].
Qed.

End Wait.

End Monad.

(** ** Verdicts of the contract-call steps *)

(** The common shape: an answer of another kind than [expected], or
    without the field [key], is rejected; otherwise [k] decides. *)
Definition on_field {S X} (expected : Performative) (key : Body -> option X)
    (k : X -> S -> Verdict S) (msg : ContractApiMessage) (s : S) : Verdict S :=
  if negb (Performative_eqb (performative msg) expected) then Reject
  else
    match key (body msg) with
    | None => Reject
    | Some x => k x s
    end.

(** The external call failed: the answer is of the wrong kind or lacks
    the expected field. *)
Definition failed_answer {X} (expected : Performative) (key : Body -> option X)
    (msg : ContractApiMessage) : Prop :=
  performative msg <> expected \/ key (body msg) = None.

(** [polled ledger verdict request log s log' s']: a completed wait, from
    [log] and [s] to [log'] and [s']. *)
Definition polled {S} (ledger : Ledger) (verdict : ContractApiMessage -> S -> Verdict S)
    (request : S -> Request) (log : Trace) (s : S) (log' : Trace) (s' : S) : Prop :=
  exists m,
    log' = log ++ repeat (request s) (Datatypes.S m) /\
    verdict (ledger (List.length log + m)%nat (request s)) s = Accept s' /\
    forall i, (i < m)%nat ->
      verdict (ledger (List.length log + i)%nat (request s)) s = Reject.

Lemma Performative_eqb_eq (p q : Performative) : Performative_eqb p q = true <-> p = q.
Proof. destruct p, q; simpl; split; intros H; try reflexivity; discriminate. Qed.

Lemma FetchStatus_eqb_eq (a b : FetchStatus) : FetchStatus_eqb a b = true <-> a = b.
Proof. destruct a, b; simpl; split; intros H; try reflexivity; discriminate. Qed.

Lemma on_field_failed {S X} expected (key : Body -> option X) (k : X -> S -> Verdict S)
    msg s :
  failed_answer expected key msg -> on_field expected key k msg s = Reject.
Proof.
  unfold failed_answer, on_field. intros [Hp | Hk].
  - destruct (Performative_eqb (performative msg) expected) eqn:E; [|reflexivity].
    apply Performative_eqb_eq in E. contradiction.
  - rewrite Hk. destruct (negb _); reflexivity.
Qed.

Lemma on_field_Accept {S X} expected (key : Body -> option X) (k : X -> S -> Verdict S)
    msg s s' :
  on_field expected key k msg s = Accept s' ->
  performative msg = expected /\
  exists x, key (body msg) = Some x /\ k x s = Accept s'.
Proof.
  unfold on_field.
  destruct (Performative_eqb (performative msg) expected) eqn:E; simpl; [|discriminate].
  apply Performative_eqb_eq in E.
  destruct (key (body msg)) as [x|]; [|discriminate].
  intros H. split; [exact E|]. exists x. split; [reflexivity | exact H].
Qed.

Lemma on_field_good {S X} expected (key : Body -> option X) (k : X -> S -> Verdict S)
    msg s x :
  performative msg = expected -> key (body msg) = Some x ->
  on_field expected key k msg s = k x s.
Proof.
  unfold on_field. intros Hp Hk.
  apply Performative_eqb_eq in Hp. rewrite Hp, Hk. reflexivity.
Qed.

Lemma wait_polled {S} ledger (step : M S bool) I request verdict attempts log s log' s' :
  polls ledger step I request verdict ->
  I s ->
  wait_for_condition_with_sleep attempts step log s = Returned tt log' s' ->
  polled ledger verdict request log s log' s'.
Proof.
  intros Hp HI H.
  destruct (wait_returned ledger step I request verdict Hp attempts log s log' s' HI H)
    as (m & _ & Hlog & Hacc & Hrej).
  exists m. auto.
Qed.

(** A step that accepts every answer of the expected kind carrying its
    field gets through on a responsive ledger. *)
Lemma wait_accepting {S X} (ledger : Ledger) (step : M S bool) (I : S -> Prop)
    (request : S -> Request) (expected : Performative) (key : Body -> option X)
    (f : X -> S -> S) (hl k attempts : nat) log s :
  polls ledger step I request (on_field expected key (fun x s => Accept (f x s))) ->
  responsive hl ledger k ->
  (k <= attempts)%nat ->
  I s ->
  expected = expected_performative (req_performative (request s)) ->
  (forall msg, answers_well hl msg (request s) -> is_Some (key (body msg))) ->
  exists m x,
    (m < k)%nat /\
    performative (ledger (List.length log + m)%nat (request s)) = expected /\
    key (body (ledger (List.length log + m)%nat (request s))) = Some x /\
    wait_for_condition_with_sleep attempts step log s =
      Returned tt (log ++ repeat (request s) (Datatypes.S m)) (f x s).
Proof.
  intros Hpolls Hresp Hk HI Hexp Hkey.
  destruct (wait_responsive ledger step I request _ Hpolls hl k attempts log s
              Hresp Hk HI) as (m & s' & Hm & Hacc & Hrun).
  - intros n Hwell.
    destruct (Hkey _ Hwell) as [x Hx].
    destruct Hwell as (Hp & _). exists (f x s).
    rewrite (on_field_good _ _ _ _ _ x); [reflexivity | congruence | exact Hx].
  - intros n e. unfold on_field.
    destruct (negb _); [discriminate|]. destruct (key (body _)); discriminate.
  - apply on_field_Accept in Hacc. destruct Hacc as (Hp & x & Hx & Hs).
    exists m, x. inversion Hs. subst s'. auto.
Qed.

(** ** Two runs against the same ledger *)

(** Two verdicts on the same answer agree: both accept, into states
    related by [R'], or both reject, or both raise. *)
Definition verdicts_agree {S} (R' : S -> S -> Prop) (v1 v2 : Verdict S) : Prop :=
  match v1, v2 with
  | Accept a, Accept b => R' a b
  | Reject, Reject => True
  | Crash _, Crash _ => True
  | _, _ => False
  end.

(** Two completed waits on the same step, from logs of the same length
    and from states that [R] relates, took the same number of attempts
    and end in states that [R'] relates, whatever their attempt budgets. *)
Lemma wait_rel {S} (ledger : Ledger) (step : M S bool) (I : S -> Prop)
    (request : S -> Request) (verdict : ContractApiMessage -> S -> Verdict S)
    (R R' : S -> S -> Prop) n1 n2 log1 log2 s1 s2 log1' s1' log2' s2' :
  polls ledger step I request verdict ->
  (forall a b, R a b -> request a = request b) ->
  (forall msg a b, R a b -> verdicts_agree R' (verdict msg a) (verdict msg b)) ->
  List.length log1 = List.length log2 ->
  R s1 s2 -> I s1 -> I s2 ->
  wait_for_condition_with_sleep n1 step log1 s1 = Returned tt log1' s1' ->
  wait_for_condition_with_sleep n2 step log2 s2 = Returned tt log2' s2' ->
  List.length log1' = List.length log2' /\ R' s1' s2'.
Proof.
  intros Hpolls Hreq Hver Hlen HR HI1 HI2 H1 H2.
  destruct (wait_returned ledger step I request verdict Hpolls n1 log1 s1 log1' s1' HI1 H1)
    as (m1 & _ & Hl1 & Ha1 & Hr1).
  destruct (wait_returned ledger step I request verdict Hpolls n2 log2 s2 log2' s2' HI2 H2)
    as (m2 & _ & Hl2 & Ha2 & Hr2).
  rewrite <- (Hreq _ _ HR) in Ha2, Hr2. rewrite <- Hlen in Ha2, Hr2.
  assert (Hm : m1 = m2).
  { destruct (Nat.lt_trichotomy m1 m2) as [Hlt | [Heq | Hgt]]; [|exact Heq|].
    - pose proof (Hver (ledger (List.length log1 + m1)%nat (request s1)) _ _ HR) as Hag.
      rewrite Ha1, (Hr2 m1 Hlt) in Hag. contradiction.
    - pose proof (Hver (ledger (List.length log1 + m2)%nat (request s1)) _ _ HR) as Hag.
      rewrite Ha2, (Hr1 m2 Hgt) in Hag. contradiction. }
  subst m2. split.
  - rewrite Hl1, Hl2, !length_app, !repeat_length. simpl. lia.
  - pose proof (Hver (ledger (List.length log1 + m1)%nat (request s1)) _ _ HR) as Hag.
    rewrite Ha1, Ha2 in Hag. exact Hag.
Qed.

Lemma on_field_agree {S X} (R' : S -> S -> Prop) expected (key : Body -> option X)
    (k : X -> S -> Verdict S) msg a b :
  (forall x, verdicts_agree R' (k x a) (k x b)) ->
  verdicts_agree R' (on_field expected key k msg a) (on_field expected key k msg b).
Proof.
  intros Hk. unfold on_field.
  destruct (negb _); [exact Logic.I|].
  destruct (key (body msg)); [apply Hk | exact Logic.I].
Qed.

(** Split a returned [bind] into its two runs: the first ends in log [l]
    and state [s], by [H1]. *)
Ltac bind_inv H l s H1 :=
  let a := fresh "a" in
  apply bind_Returned in H; destruct H as (a & l & s & H1 & H);
  try match type of a with unit => destruct a end.

(** A returned [ret], [gets] or [modify]: replace the result, log and
    state it returned by what they are. *)
Ltac ret_inv H :=
  unfold ret, gets, modify in H;
  match type of H with
  | Returned ?a ?l ?s = Returned ?a' ?l' ?s' =>
      let Ea := fresh "Ea" in
      let El := fresh "El" in
      let Es := fresh "Es" in
      assert (Ea : a' = a) by congruence;
      assert (El : l' = l) by congruence;
      assert (Es : s' = s) by congruence;
      clear H;
      first [subst a' | clear Ea | idtac];
      first [subst l' | clear El | idtac];
      first [subst s' | clear Es | idtac]
  end.

(** ** Facts about bet_placement.py *)

Module BetPlacementFacts.

Import BetPlacementBehaviour.

Section Facts.

Variable ledger : Ledger.
Variable params : Params.
Variable synchronized_data : SynchronizedData.
Variable agent_address : string.
Variable ids : ContractIds.
Variable SAFE_GAS : Z.
Variable TX_HASH_LENGTH : nat.
Variable hash_payload_to_hex : string -> Z -> Z -> string -> bytes -> Z -> string.

Definition check_balance_verdict : ContractApiMessage -> State -> Verdict State :=
  on_field RAW_TRANSACTION body_balance (fun b s => Accept (set_balance b s)).

Definition approval_entry (data : string) : MultisendBatch :=
  MultisendBatch_new (collateral_token synchronized_data) (HexBytes_of data).

Definition buy_entry (data : string) : MultisendBatch :=
  MultisendBatch_new (market_maker_contract_address synchronized_data) (HexBytes_of data).

Definition approval_verdict : ContractApiMessage -> State -> Verdict State :=
  on_field STATE body_data
    (fun d s =>
       match HexBytes_error d with
       | Some exc => Crash exc
       | None => Accept (append_batch (approval_entry d) s)
       end).

Definition calc_buy_amount_verdict : ContractApiMessage -> State -> Verdict State :=
  on_field RAW_TRANSACTION body_amount (fun a s => Accept (set_buy_amount a s)).

Definition buy_verdict : ContractApiMessage -> State -> Verdict State :=
  on_field STATE body_data
    (fun d s =>
       match HexBytes_error d with
       | Some exc => Crash exc
       | None => Accept (append_batch (buy_entry d) s)
       end).

Definition multisend_verdict : ContractApiMessage -> State -> Verdict State :=
  on_field RAW_TRANSACTION body_data
    (fun d s =>
       match bytes_fromhex (drop2 d) with
       | None => Crash "ValueError"
       | Some decoded => Accept (set_multisend_data decoded s)
       end).

Definition safe_tx_hash_verdict : ContractApiMessage -> State -> Verdict State :=
  on_field STATE body_tx_hash
    (fun h s =>
       if negb (Nat.eqb (String.length h) TX_HASH_LENGTH) then Reject
       else Accept (set_safe_tx_hash (drop2 h) s)).

Definition always : State -> Prop := fun _ => True.

Ltac polls_tac :=
  intros log s _;
  unfold HexBytes_new, bind, gets, modify, ret, raise, get_contract_api_response, on_field;
  simpl;
  repeat match goal with
         | |- context [negb ?b] => destruct b; simpl
         | |- context [match ?o with Some _ => _ | None => _ end] => destruct o; simpl
         end;
  reflexivity.

Lemma _check_balance_polls :
  polls ledger (_check_balance ledger synchronized_data ids) always
    (fun _ => check_balance_request synchronized_data ids) check_balance_verdict.
Proof. unfold polls, _check_balance, check_balance_verdict. polls_tac. Qed.

Lemma _build_approval_tx_polls :
  polls ledger (_build_approval_tx ledger params synchronized_data ids) always
    (fun _ => build_approval_request params synchronized_data ids) approval_verdict.
Proof. unfold polls, _build_approval_tx, approval_verdict, approval_entry. polls_tac. Qed.

Lemma _calc_buy_amount_polls :
  polls ledger (_calc_buy_amount ledger params synchronized_data ids) always
    (fun _ => calc_buy_amount_request params synchronized_data ids)
    calc_buy_amount_verdict.
Proof. unfold polls, _calc_buy_amount, calc_buy_amount_verdict. polls_tac. Qed.

Lemma _build_buy_tx_polls :
  polls ledger (_build_buy_tx ledger params synchronized_data ids) always
    (get_buy_data_request params synchronized_data ids) buy_verdict.
Proof. unfold polls, _build_buy_tx, buy_verdict, buy_entry. polls_tac. Qed.

Lemma bet_build_multisend_data_polls :
  polls ledger (_build_multisend_data ledger params ids) always
    (get_tx_data_request params ids) multisend_verdict.
Proof. unfold polls, _build_multisend_data, multisend_verdict. polls_tac. Qed.

Lemma _build_safe_tx_hash_polls :
  polls ledger (_build_safe_tx_hash ledger params synchronized_data ids SAFE_GAS TX_HASH_LENGTH)
    always
    (get_raw_safe_transaction_hash_request params synchronized_data ids SAFE_GAS)
    safe_tx_hash_verdict.
Proof. unfold polls, _build_safe_tx_hash, safe_tx_hash_verdict. polls_tac. Qed.

Lemma check_balance_verdict_Accept msg s s' :
  check_balance_verdict msg s = Accept s' ->
  exists b,
    performative msg = RAW_TRANSACTION /\
    body_balance (body msg) = Some b /\
    s' = set_balance b s.
Proof.
  intros H. apply on_field_Accept in H. destruct H as (Hp & b & Hb & Hs).
  exists b. inversion Hs. auto.
Qed.

Lemma approval_verdict_Accept msg s s' :
  approval_verdict msg s = Accept s' ->
  exists d,
    performative msg = STATE /\
    body_data (body msg) = Some d /\
    s' = append_batch (approval_entry d) s.
Proof.
  intros H. apply on_field_Accept in H. destruct H as (Hp & d & Hd & Hs).
  destruct (HexBytes_error d); [discriminate Hs|].
  exists d. inversion Hs. auto.
Qed.

Lemma calc_buy_amount_verdict_Accept msg s s' :
  calc_buy_amount_verdict msg s = Accept s' ->
  exists a,
    performative msg = RAW_TRANSACTION /\
    body_amount (body msg) = Some a /\
    s' = set_buy_amount a s.
Proof.
  intros H. apply on_field_Accept in H. destruct H as (Hp & a & Ha & Hs).
  exists a. inversion Hs. auto.
Qed.

Lemma buy_verdict_Accept msg s s' :
  buy_verdict msg s = Accept s' ->
  exists d,
    performative msg = STATE /\
    body_data (body msg) = Some d /\
    s' = append_batch (buy_entry d) s.
Proof.
  intros H. apply on_field_Accept in H. destruct H as (Hp & d & Hd & Hs).
  destruct (HexBytes_error d); [discriminate Hs|].
  exists d. inversion Hs. auto.
Qed.

Lemma bet_multisend_verdict_Accept msg s s' :
  multisend_verdict msg s = Accept s' ->
  exists d decoded,
    performative msg = RAW_TRANSACTION /\
    body_data (body msg) = Some d /\
    bytes_fromhex (drop2 d) = Some decoded /\
    s' = set_multisend_data decoded s.
Proof.
  intros H. apply on_field_Accept in H. destruct H as (Hp & d & Hd & Hs).
  destruct (bytes_fromhex (drop2 d)) as [decoded|] eqn:Hx; [|discriminate].
  exists d, decoded. inversion Hs. auto.
Qed.

Lemma bet_safe_tx_hash_verdict_Accept msg s s' :
  safe_tx_hash_verdict msg s = Accept s' ->
  exists h,
    performative msg = STATE /\
    body_tx_hash (body msg) = Some h /\
    String.length h = TX_HASH_LENGTH /\
    s' = set_safe_tx_hash (drop2 h) s.
Proof.
  intros H. apply on_field_Accept in H. destruct H as (Hp & h & Hh & Hs).
  destruct (Nat.eqb (String.length h) TX_HASH_LENGTH) eqn:Hlen; simpl in Hs;
    [|discriminate].
  apply Nat.eqb_eq in Hlen. exists h. inversion Hs. auto.
Qed.

(** The hex handed to the settlement skill, from the stored hash and
    data. *)
Definition tx_hex (s : State) : string :=
  hash_payload_to_hex (safe_tx_hash s) _ETHER_VALUE SAFE_GAS (multisend_address params)
    (multisend_data s) (SafeOperation_value DELEGATE_CALL).

(** A completed [_prepare_safe_tx]: the five waits in order.  Each wait
    repeated one request until an answer was accepted; [a], [amount],
    [b], [d] and [h] are the accepted answers. *)
Definition bet_prepared (log : Trace) (s : State) (log' : Trace) (s' : State) : Prop :=
  exists m1 m2 m3 m4 m5 a amount b d decoded h,
    let r1 := build_approval_request params synchronized_data ids in
    let log1 := log ++ repeat r1 (Datatypes.S m1) in
    let s1 := append_batch (approval_entry a) s in
    let r2 := calc_buy_amount_request params synchronized_data ids in
    let log2 := log1 ++ repeat r2 (Datatypes.S m2) in
    let s2 := set_buy_amount amount s1 in
    let r3 := get_buy_data_request params synchronized_data ids s2 in
    let log3 := log2 ++ repeat r3 (Datatypes.S m3) in
    let s3 := append_batch (buy_entry b) s2 in
    let r4 := get_tx_data_request params ids s3 in
    let log4 := log3 ++ repeat r4 (Datatypes.S m4) in
    let s4 := set_multisend_data decoded s3 in
    let r5 := get_raw_safe_transaction_hash_request params synchronized_data ids SAFE_GAS s4 in
    log' = log4 ++ repeat r5 (Datatypes.S m5) /\
    s' = set_safe_tx_hash (drop2 h) s4 /\
    (performative (ledger (List.length log + m1)%nat r1) = STATE /\
     body_data (body (ledger (List.length log + m1)%nat r1)) = Some a) /\
    (performative (ledger (List.length log1 + m2)%nat r2) = RAW_TRANSACTION /\
     body_amount (body (ledger (List.length log1 + m2)%nat r2)) = Some amount) /\
    (performative (ledger (List.length log2 + m3)%nat r3) = STATE /\
     body_data (body (ledger (List.length log2 + m3)%nat r3)) = Some b) /\
    (performative (ledger (List.length log3 + m4)%nat r4) = RAW_TRANSACTION /\
     body_data (body (ledger (List.length log3 + m4)%nat r4)) = Some d /\
     bytes_fromhex (drop2 d) = Some decoded) /\
    (performative (ledger (List.length log4 + m5)%nat r5) = STATE /\
     body_tx_hash (body (ledger (List.length log4 + m5)%nat r5)) = Some h /\
     String.length h = TX_HASH_LENGTH).

Lemma bet_prepare_safe_tx_returned attempts log s hex log' s' :
  _prepare_safe_tx ledger params synchronized_data ids SAFE_GAS TX_HASH_LENGTH
    hash_payload_to_hex attempts log s = Returned hex log' s' ->
  bet_prepared log s log' s' /\ hex = tx_hex s'.
Proof.
  intros H. unfold _prepare_safe_tx in H.
  bind_inv H logw sw Rw. bind_inv H logx sx Rx. ret_inv Rx. ret_inv H.
  split; [|reflexivity].
  simpl in Rw.
  bind_inv Rw log1 s1 R1. bind_inv Rw log2 s2 R2. bind_inv Rw log3 s3 R3.
  bind_inv Rw log4 s4 R4. bind_inv Rw log5 s5 R5. ret_inv Rw.
  apply (wait_polled _ _ _ _ _ _ _ _ _ _ _build_approval_tx_polls I) in R1.
  apply (wait_polled _ _ _ _ _ _ _ _ _ _ _calc_buy_amount_polls I) in R2.
  apply (wait_polled _ _ _ _ _ _ _ _ _ _ _build_buy_tx_polls I) in R3.
  apply (wait_polled _ _ _ _ _ _ _ _ _ _ bet_build_multisend_data_polls I) in R4.
  apply (wait_polled _ _ _ _ _ _ _ _ _ _ _build_safe_tx_hash_polls I) in R5.
  destruct R1 as (m1 & L1 & A1 & _). destruct R2 as (m2 & L2 & A2 & _).
  destruct R3 as (m3 & L3 & A3 & _). destruct R4 as (m4 & L4 & A4 & _).
  destruct R5 as (m5 & L5 & A5 & _).
  apply approval_verdict_Accept in A1. destruct A1 as (a & P1 & D1 & S1).
  apply calc_buy_amount_verdict_Accept in A2. destruct A2 as (amount & P2 & D2 & S2).
  apply buy_verdict_Accept in A3. destruct A3 as (b & P3 & D3 & S3).
  apply bet_multisend_verdict_Accept in A4. destruct A4 as (d & decoded & P4 & D4 & X4 & S4).
  apply bet_safe_tx_hash_verdict_Accept in A5. destruct A5 as (h & P5 & D5 & Len5 & S5).
  exists m1, m2, m3, m4, m5, a, amount, b, d, decoded, h.
  subst s1 s2 s3 s4 log1 log2 log3 log4. simpl.
  refine (conj L5 (conj S5 (conj (conj P1 D1) (conj (conj P2 D2) (conj (conj P3 D3)
            (conj (conj P4 (conj D4 X4)) (conj P5 (conj D5 Len5)))))))).
Qed.

(** A returned [async_act]: the wait on the balance, then either the
    empty payload or the prepared transaction. *)
Lemma bet_async_act_returned attempts log s payload log' s' :
  async_act ledger params synchronized_data agent_address ids SAFE_GAS TX_HASH_LENGTH
    hash_payload_to_hex attempts log s = Returned payload log' s' ->
  exists m b,
    let r0 := check_balance_request synchronized_data ids in
    let log0 := log ++ repeat r0 (Datatypes.S m) in
    let s0 := set_balance b s in
    performative (ledger (List.length log + m)%nat r0) = RAW_TRANSACTION /\
    body_balance (body (ledger (List.length log + m)%nat r0)) = Some b /\
    ((b < investment_amount params synchronized_data)%Z /\
     log' = log0 /\ s' = s0 /\
     payload = MultisigTxPayload [Some agent_address; None]
     \/
     (investment_amount params synchronized_data <= b)%Z /\
     bet_prepared log0 s0 log' s' /\
     payload = MultisigTxPayload [Some agent_address; Some (tx_hex s')]).
Proof.
  intros H. unfold async_act in H.
  bind_inv H log0 s0 R0.
  apply (wait_polled _ _ _ _ _ _ _ _ _ _ _check_balance_polls I) in R0.
  destruct R0 as (m & L0 & A0 & _).
  apply check_balance_verdict_Accept in A0. destruct A0 as (b & P0 & D0 & S0).
  bind_inv H logx sx Rx. ret_inv Rx.
  exists m, b. simpl. split; [exact P0|]. split; [exact D0|].
  subst s0 log0. unfold sufficient_balance in H. simpl in H.
  destruct (investment_amount params synchronized_data <=? b)%Z eqn:Hle.
  - right. apply Z.leb_le in Hle. split; [exact Hle|].
    bind_inv H log1 s1 R1. bind_inv R1 log2 s2 R2. ret_inv R1. ret_inv H.
    apply bet_prepare_safe_tx_returned in R2. destruct R2 as [Hprep ->].
    split; [exact Hprep | reflexivity].
  - left. apply Z.leb_gt in Hle. split; [exact Hle|].
    bind_inv H log1 s1 R1. ret_inv R1. ret_inv H. auto.
Qed.

End Facts.

End BetPlacementFacts.

(** ** Facts about reedem.py *)

Module RedeemFacts.

Import RedeemBehaviour.

Section Facts.

Variable ledger : Ledger.
Variable params : Params.
Variable synchronized_data : SynchronizedData.
Variable agent_address : string.
Variable ids : ContractIds.
Variable SAFE_GAS : Z.
Variable TX_HASH_LENGTH : nat.
Variable hash_payload_to_hex : string -> Z -> Z -> string -> bytes -> Z -> string.
Variable RedeemRound_auto_round_id : string.
Variable int : string -> option Z.

Definition always : State -> Prop := fun _ => True.

(** The candidate being processed. *)
Definition has_current (c : RedeemInfo) : State -> Prop :=
  fun s => _current_redeem_info s = Some c.

Definition conditional_tokens_request (contract_callable : string)
    (kwargs : list (string * Value)) : Request :=
  {| req_performative := GET_RAW_TRANSACTION;
     req_contract_address := conditional_tokens_address params;
     req_contract_id := ConditionalTokensContract_contract_id ids;
     req_contract_callable := contract_callable;
     req_kwargs := kwargs |}.

Definition check_redeemed_request (s : State) : Request :=
  conditional_tokens_request "check_redeemed"
    (check_redeemed_kwargs synchronized_data (_redeem_info s)).

Definition check_redeemed_verdict : ContractApiMessage -> State -> Verdict State :=
  on_field RAW_TRANSACTION body_payouts (fun p s => Accept (set_payouts p s)).

Definition check_resolved_request (c : RedeemInfo) : Request :=
  conditional_tokens_request "check_resolved"
    [("condition_id", VHex (condition_id (condition (fpmm c))))].

Definition check_resolved_verdict : ContractApiMessage -> State -> Verdict State :=
  on_field RAW_TRANSACTION body_resolved (fun r s => Accept (set_already_resolved r s)).

Definition build_resolve_request (c : RedeemInfo) : Request :=
  {| req_performative := GET_RAW_TRANSACTION;
     req_contract_address := realitio_proxy_address params;
     req_contract_id := RealitioProxyContract_contract_id ids;
     req_contract_callable := "build_resolve_tx";
     req_kwargs := [("question_id", VStr (question_id (question (fpmm c))));
                    ("template_id", VInt (templateId (fpmm c)));
                    ("question", VStr (question_data (question (fpmm c))));
                    ("num_outcomes", VInt (outcomeSlotCount (condition (fpmm c))))] |}.

Definition resolve_entry (data : string) : MultisendBatch :=
  MultisendBatch_new (realitio_proxy_address params) (HexBytes_of data).

Definition claim_entry (data : string) : MultisendBatch :=
  MultisendBatch_new (realitio_address params) (HexBytes_of data).

Definition redeem_entry (data : string) : MultisendBatch :=
  MultisendBatch_new (conditional_tokens_address params) (HexBytes_of data).

(** A builder stores the answer in [built_data], which raises when the
    answer is not hexadecimal, and appends its entry. *)
Definition builder_verdict (entry : string -> MultisendBatch)
  : ContractApiMessage -> State -> Verdict State :=
  on_field RAW_TRANSACTION body_data
    (fun d s =>
       match HexBytes_error d with
       | Some exc => Crash exc
       | None => Accept (append_batch (entry d) (set_built_data_field (HexBytes_of d) s))
       end).

Definition build_claim_request (c : RedeemInfo) (s : State) : Request :=
  {| req_performative := GET_RAW_TRANSACTION;
     req_contract_address := realitio_address params;
     req_contract_id := RealitioContract_contract_id ids;
     req_contract_callable := "build_claim_winnings";
     req_kwargs := [("from_block", _from_block s);
                    ("question_id", VStr (question_id (question (fpmm c))))] |}.

Definition build_redeem_request (c : RedeemInfo) : Request :=
  conditional_tokens_request "build_redeem_positions_tx"
    [("collateral_token", VStr (collateralToken (fpmm c)));
     ("parent_collection_id", VBytes ZERO_BYTES);
     ("condition_id", VHex (condition_id (condition (fpmm c))));
     ("index_sets", VList (map VInt (index_sets (condition (fpmm c)))))].

Definition multisend_verdict : ContractApiMessage -> State -> Verdict State :=
  on_field RAW_TRANSACTION body_data
    (fun d s =>
       match bytes_fromhex (drop2 d) with
       | None => Crash "ValueError"
       | Some decoded => Accept (set_multisend_data decoded s)
       end).

Definition safe_tx_hash_verdict : ContractApiMessage -> State -> Verdict State :=
  on_field STATE body_tx_hash
    (fun h s =>
       if negb (Nat.eqb (String.length h) TX_HASH_LENGTH) then Reject
       else Accept (set_safe_tx_hash (drop2 h) s)).

Ltac polls_tac :=
  let HI := fresh "HI" in
  intros log s HI; unfold has_current, always in HI;
  destruct s; simpl in HI; try subst;
  unfold _conditional_tokens_interact, contract_interact, built_data, set_built_data,
    HexBytes_new, current_question_id, current_collateral_token, current_condition_id,
    current_index_sets, current_condition, current_fpmm, current_redeem_info,
    bind, gets, modify, ret, raise, get_contract_api_response, on_field;
  simpl;
  repeat match goal with
         | |- context [negb ?b] => destruct b; simpl
         | |- context [match ?o with Some _ => _ | None => _ end] => destruct o; simpl
         end;
  reflexivity.

Lemma _check_already_redeemed_polls :
  polls ledger (_check_already_redeemed ledger params synchronized_data ids) always
    check_redeemed_request check_redeemed_verdict.
Proof.
  unfold polls, _check_already_redeemed, check_redeemed_verdict, check_redeemed_request,
    conditional_tokens_request.
  polls_tac.
Qed.

Lemma _check_already_resolved_polls (c : RedeemInfo) :
  polls ledger (_check_already_resolved ledger params ids) (has_current c)
    (fun _ => check_resolved_request c) check_resolved_verdict.
Proof.
  unfold polls, _check_already_resolved, check_resolved_verdict, check_resolved_request,
    conditional_tokens_request.
  polls_tac.
Qed.

Lemma _build_resolve_data_polls (c : RedeemInfo) :
  polls ledger (_build_resolve_data ledger params ids) (has_current c)
    (fun _ => build_resolve_request c) (builder_verdict resolve_entry).
Proof.
  unfold polls, _build_resolve_data, builder_verdict, build_resolve_request, resolve_entry.
  polls_tac.
Qed.

Lemma _build_claim_data_polls (c : RedeemInfo) :
  polls ledger (_build_claim_data ledger params ids) (has_current c)
    (build_claim_request c) (builder_verdict claim_entry).
Proof.
  unfold polls, _build_claim_data, builder_verdict, build_claim_request, claim_entry.
  polls_tac.
Qed.

Lemma _build_redeem_data_polls (c : RedeemInfo) :
  polls ledger (_build_redeem_data ledger params ids) (has_current c)
    (fun _ => build_redeem_request c) (builder_verdict redeem_entry).
Proof.
  unfold polls, _build_redeem_data, builder_verdict, build_redeem_request, redeem_entry,
    conditional_tokens_request.
  polls_tac.
Qed.

Lemma _build_multisend_data_polls :
  polls ledger (_build_multisend_data ledger params ids) always
    (get_tx_data_request params ids) multisend_verdict.
Proof. unfold polls, _build_multisend_data, multisend_verdict. polls_tac. Qed.

Lemma _build_multisend_safe_tx_hash_polls :
  polls ledger
    (_build_multisend_safe_tx_hash ledger params synchronized_data ids SAFE_GAS
       TX_HASH_LENGTH)
    always
    (get_raw_safe_transaction_hash_request params synchronized_data ids SAFE_GAS)
    safe_tx_hash_verdict.
Proof. unfold polls, _build_multisend_safe_tx_hash, safe_tx_hash_verdict. polls_tac. Qed.

(** [grown seg s s']: from [s] to [s'] the batch grew by [seg], and the
    candidates, the expected winnings, the from-block, the payouts and
    the encoded data stayed as they were. *)
Definition grown (seg : list MultisendBatch) (s s' : State) : Prop :=
  multisend_batches s' = multisend_batches s ++ seg /\
  _redeem_info s' = _redeem_info s /\
  _expected_winnings s' = _expected_winnings s /\
  _from_block s' = _from_block s /\
  _payouts s' = _payouts s /\
  multisend_data s' = multisend_data s /\
  safe_tx_hash s' = safe_tx_hash s.

Lemma grown_trans seg1 seg2 s s1 s2 :
  grown seg1 s s1 -> grown seg2 s1 s2 -> grown (seg1 ++ seg2) s s2.
Proof.
  unfold grown. intros (B1 & R1 & W1 & F1 & P1 & D1 & H1)
    (B2 & R2 & W2 & F2 & P2 & D2 & H2).
  rewrite B2, B1, app_assoc. repeat split; congruence.
Qed.

Lemma builder_verdict_Accept entry msg s s' :
  builder_verdict entry msg s = Accept s' ->
  exists d,
    performative msg = RAW_TRANSACTION /\
    body_data (body msg) = Some d /\
    s' = append_batch (entry d) (set_built_data_field (HexBytes_of d) s).
Proof.
  intros H. apply on_field_Accept in H. destruct H as (Hp & d & Hd & Hs).
  destruct (HexBytes_error d); [discriminate Hs|].
  exists d. inversion Hs. auto.
Qed.

Lemma check_resolved_verdict_Accept msg s s' :
  check_resolved_verdict msg s = Accept s' ->
  exists r,
    performative msg = RAW_TRANSACTION /\
    body_resolved (body msg) = Some r /\
    s' = set_already_resolved r s.
Proof.
  intros H. apply on_field_Accept in H. destruct H as (Hp & r & Hr & Hs).
  exists r. inversion Hs. auto.
Qed.

(** A completed builder wait: the entry built from the accepted answer
    is appended, and only the builder's request was sent. *)
Lemma polled_builder entry request log s log' s' :
  polled ledger (builder_verdict entry) request log s log' s' ->
  exists d m,
    log' = log ++ repeat (request s) (Datatypes.S m) /\
    performative (ledger (List.length log + m)%nat (request s)) = RAW_TRANSACTION /\
    body_data (body (ledger (List.length log + m)%nat (request s))) = Some d /\
    s' = append_batch (entry d) (set_built_data_field (HexBytes_of d) s) /\
    grown [entry d] s s'.
Proof.
  intros (m & Hlog & Hacc & _).
  apply builder_verdict_Accept in Hacc. destruct Hacc as (d & Hp & Hd & Hs).
  exists d, m. subst s'. repeat split; assumption.
Qed.

Lemma polled_check_resolved c log s log' s' :
  polled ledger check_resolved_verdict (fun _ => check_resolved_request c) log s log' s' ->
  exists r m,
    log' = log ++ repeat (check_resolved_request c) (Datatypes.S m) /\
    performative (ledger (List.length log + m)%nat (check_resolved_request c))
      = RAW_TRANSACTION /\
    body_resolved (body (ledger (List.length log + m)%nat (check_resolved_request c)))
      = Some r /\
    s' = set_already_resolved r s /\
    grown [] s s'.
Proof.
  intros (m & Hlog & Hacc & _).
  apply check_resolved_verdict_Accept in Hacc. destruct Hacc as (r & Hp & Hr & Hs).
  exists r, m. subst s'. repeat split; try assumption.
  simpl. symmetry. apply app_nil_r.
Qed.

(** The calls of one candidate, in the order the batch receives them. *)
Definition candidate_calls (resolved : bool) (d1 d2 d3 : string) : list MultisendBatch :=
  (if resolved then [] else [resolve_entry d1]) ++ [claim_entry d2; redeem_entry d3].

(** A completed [_prepare_single_redeem] for candidate [c]: the wait on
    the resolution check, then the waits on the builders, the resolve
    builder only when the check answered "not resolved". *)
Definition single_redeem_done (c : RedeemInfo) (log : Trace) (s : State)
    (log' : Trace) (s' : State) : Prop :=
  exists log1 s1 log2 s2 log3 s3,
    polled ledger check_resolved_verdict (fun _ => check_resolved_request c)
      log s log1 s1 /\
    (if _already_resolved s1
     then log2 = log1 /\ s2 = s1
     else polled ledger (builder_verdict resolve_entry)
            (fun _ => build_resolve_request c) log1 s1 log2 s2) /\
    polled ledger (builder_verdict claim_entry) (build_claim_request c)
      log2 s2 log3 s3 /\
    polled ledger (builder_verdict redeem_entry) (fun _ => build_redeem_request c)
      log3 s3 log' s'.

Lemma polled_builder_current entry request c log s log' s' :
  polled ledger (builder_verdict entry) request log s log' s' ->
  has_current c s -> has_current c s'.
Proof.
  intros H Hc.
  destruct (polled_builder _ _ _ _ _ _ H) as (d & m & _ & _ & _ & -> & _).
  exact Hc.
Qed.

Lemma polled_check_resolved_current c c' log s log' s' :
  polled ledger check_resolved_verdict (fun _ => check_resolved_request c) log s log' s' ->
  has_current c' s -> has_current c' s'.
Proof.
  intros H Hc.
  destruct (polled_check_resolved _ _ _ _ _ H) as (r & m & _ & _ & _ & -> & _).
  exact Hc.
Qed.

Lemma _prepare_single_redeem_returned attempts c log s log' s' :
  has_current c s ->
  _prepare_single_redeem ledger params ids attempts log s = Returned tt log' s' ->
  single_redeem_done c log s log' s'.
Proof.
  intros Hc H. unfold _prepare_single_redeem in H.
  bind_inv H log1 s1 R1.
  apply (wait_polled _ _ _ _ _ _ _ _ _ _ (_check_already_resolved_polls c) Hc) in R1.
  assert (Hc1 : has_current c s1)
    by exact (polled_check_resolved_current _ _ _ _ _ _ R1 Hc).
  bind_inv H logx sx Rx. ret_inv Rx.
  unfold single_redeem_done.
  match type of H with context [_already_resolved ?st] =>
    destruct (_already_resolved st) eqn:Hres
  end; simpl in H.
  - bind_inv H log3 s3 R3.
    apply (wait_polled _ _ _ _ _ _ _ _ _ _ (_build_claim_data_polls c) Hc1) in R3.
    assert (Hc3 : has_current c s3)
      by exact (polled_builder_current _ _ _ _ _ _ _ R3 Hc1).
    bind_inv H log4 s4 R4. ret_inv H.
    apply (wait_polled _ _ _ _ _ _ _ _ _ _ (_build_redeem_data_polls c) Hc3) in R4.
    do 6 eexists. split; [exact R1|]. rewrite Hres.
    split; [split; reflexivity|]. split; [exact R3 | exact R4].
  - bind_inv H log2 s2 R2.
    apply (wait_polled _ _ _ _ _ _ _ _ _ _ (_build_resolve_data_polls c) Hc1) in R2.
    assert (Hc2 : has_current c s2)
      by exact (polled_builder_current _ _ _ _ _ _ _ R2 Hc1).
    bind_inv H log3 s3 R3.
    apply (wait_polled _ _ _ _ _ _ _ _ _ _ (_build_claim_data_polls c) Hc2) in R3.
    assert (Hc3 : has_current c s3)
      by exact (polled_builder_current _ _ _ _ _ _ _ R3 Hc2).
    bind_inv H log4 s4 R4. ret_inv H.
    apply (wait_polled _ _ _ _ _ _ _ _ _ _ (_build_redeem_data_polls c) Hc3) in R4.
    do 6 eexists. split; [exact R1|]. rewrite Hres.
    split; [exact R2|]. split; [exact R3 | exact R4].
Qed.

(** The effect of a completed [_prepare_single_redeem]: the batch grew by
    the candidate's calls, the resolve call present exactly when the
    accepted answer of the resolution check was "not resolved". *)
Lemma single_redeem_done_grown c log s log' s' :
  single_redeem_done c log s log' s' ->
  exists resolved d1 d2 d3 m ext,
    log' = log ++ repeat (check_resolved_request c) (Datatypes.S m) ++ ext /\
    performative (ledger (List.length log + m)%nat (check_resolved_request c))
      = RAW_TRANSACTION /\
    body_resolved (body (ledger (List.length log + m)%nat (check_resolved_request c)))
      = Some resolved /\
    _already_resolved s' = resolved /\
    _current_redeem_info s' = _current_redeem_info s /\
    grown (candidate_calls resolved d1 d2 d3) s s'.
Proof.
  intros (log1 & s1 & log2 & s2 & log3 & s3 & P1 & P2 & P3 & P4).
  destruct (polled_check_resolved _ _ _ _ _ P1) as (r & m & Hlog1 & Hp & Hr & Hs1 & G1).
  destruct (polled_builder _ _ _ _ _ _ P3) as (d2 & m3 & Hlog3 & _ & Hd2 & Hs3 & G3).
  destruct (polled_builder _ _ _ _ _ _ P4) as (d3 & m4 & Hlog4 & _ & Hd3 & Hs4 & G4).
  assert (Hres1 : _already_resolved s1 = r) by (subst s1; reflexivity).
  rewrite Hres1 in P2. destruct r.
  - destruct P2 as [-> ->].
    exists true, "", d2, d3, m. eexists.
    refine (conj _ (conj _ (conj _ (conj _ (conj _ _))))).
    + rewrite Hlog4, Hlog3, Hlog1, <- !app_assoc. reflexivity.
    + exact Hp.
    + exact Hr.
    + subst s' s3 s1. reflexivity.
    + subst s' s3 s1. reflexivity.
    + unfold candidate_calls. simpl.
      replace [claim_entry d2; redeem_entry d3]
        with (([] ++ [claim_entry d2]) ++ [redeem_entry d3]) by reflexivity.
      eapply grown_trans; [eapply grown_trans; [exact G1 | exact G3] | exact G4].
  - destruct (polled_builder _ _ _ _ _ _ P2) as (d1 & m2 & Hlog2 & _ & Hd1 & Hs2 & G2).
    exists false, d1, d2, d3, m. eexists.
    refine (conj _ (conj _ (conj _ (conj _ (conj _ _))))).
    + rewrite Hlog4, Hlog3, Hlog2, Hlog1, <- !app_assoc. reflexivity.
    + exact Hp.
    + exact Hr.
    + subst s' s3 s2 s1. reflexivity.
    + subst s' s3 s2 s1. reflexivity.
    + unfold candidate_calls. simpl.
      replace [resolve_entry d1; claim_entry d2; redeem_entry d3]
        with ((([] ++ [resolve_entry d1]) ++ [claim_entry d2]) ++ [redeem_entry d3])
        by reflexivity.
      eapply grown_trans;
        [eapply grown_trans; [eapply grown_trans; [exact G1 | exact G2] | exact G3]
        | exact G4].
Qed.

(** ** Candidates *)

(** A winning position that is not dust. *)
Definition eligible (c : RedeemInfo) : bool :=
  (outcomeIndex c =? current_answer_index (fpmm c))%Z &&
  negb (claimable_amount c <? dust_threshold params)%Z.

(** [advanced seg w s s']: the batch grew by [seg] and the expected
    winnings by [w]; candidates, from-block, payouts and encoded data
    stayed as they were. *)
Definition advanced (seg : list MultisendBatch) (w : Z) (s s' : State) : Prop :=
  multisend_batches s' = multisend_batches s ++ seg /\
  _expected_winnings s' = (_expected_winnings s + w)%Z /\
  _redeem_info s' = _redeem_info s /\
  _from_block s' = _from_block s /\
  _payouts s' = _payouts s /\
  multisend_data s' = multisend_data s /\
  safe_tx_hash s' = safe_tx_hash s.

Lemma advanced_refl s : advanced [] 0 s s.
Proof.
  unfold advanced. rewrite app_nil_r, Z.add_0_r.
  refine (conj _ (conj _ (conj _ (conj _ (conj _ (conj _ _)))))); reflexivity.
Qed.

Lemma advanced_trans seg1 seg2 w1 w2 s s1 s2 :
  advanced seg1 w1 s s1 -> advanced seg2 w2 s1 s2 ->
  advanced (seg1 ++ seg2) (w1 + w2) s s2.
Proof.
  unfold advanced. intros (B1 & W1 & R1 & F1 & P1 & D1 & H1)
    (B2 & W2 & R2 & F2 & P2 & D2 & H2).
  rewrite B2, B1, app_assoc, W2, W1.
  refine (conj _ (conj _ (conj _ (conj _ (conj _ (conj _ _)))))); try congruence.
  lia.
Qed.

(** A candidate that is not eligible is skipped before any request. *)
Lemma _process_candidate_skip attempts c log s :
  eligible c = false ->
  _process_candidate ledger params ids attempts c log s =
    Returned false log (set_current_redeem_info (Some c) s).
Proof.
  unfold eligible, _process_candidate, _is_winning_position, _is_dust,
    current_redeem_info, bind, modify, ret. simpl.
  intros H. destruct (outcomeIndex c =? current_answer_index (fpmm c))%Z; simpl in *.
  - apply negb_false_iff in H. rewrite H. reflexivity.
  - reflexivity.
Qed.

(** An eligible candidate goes on to [_prepare_single_redeem]. *)
Lemma _process_candidate_eligible attempts c log s :
  eligible c = true ->
  _process_candidate ledger params ids attempts c log s =
    (_prepare_single_redeem ledger params ids attempts ;;
     let* info := current_redeem_info in
     modify (fun s => set_expected_winnings (_expected_winnings s + claimable_amount info)%Z s) ;;
     ret true) log (set_current_redeem_info (Some c) s).
Proof.
  intros He. unfold eligible in He. apply andb_true_iff in He. destruct He as [Hw Hd].
  apply negb_true_iff in Hd.
  unfold _process_candidate, _is_winning_position, _is_dust, current_redeem_info,
    bind, modify, ret.
  simpl. rewrite Hw. simpl. rewrite Hd. reflexivity.
Qed.

(** An eligible candidate whose processing returns had its calls built. *)
Lemma _process_candidate_returned attempts c log s b log' s' :
  eligible c = true ->
  _process_candidate ledger params ids attempts c log s = Returned b log' s' ->
  b = true /\
  exists s1,
    single_redeem_done c log (set_current_redeem_info (Some c) s) log' s1 /\
    s' = set_expected_winnings (_expected_winnings s1 + claimable_amount c)%Z s1.
Proof.
  intros He H. rewrite (_process_candidate_eligible _ _ _ _ He) in H.
  bind_inv H log1 s1 R1.
  assert (Hc : has_current c (set_current_redeem_info (Some c) s)) by reflexivity.
  pose proof (_prepare_single_redeem_returned _ _ _ _ _ _ Hc R1) as Hdone.
  destruct (single_redeem_done_grown _ _ _ _ _ Hdone)
    as (r & d1 & d2 & d3 & m & ext & _ & _ & _ & _ & Hcur & _).
  simpl in Hcur.
  unfold bind, current_redeem_info, modify, ret in H. rewrite Hcur in H.
  inversion H; subst. split; [reflexivity|].
  eexists. split; [exact Hdone | reflexivity].
Qed.

Lemma _process_candidate_advanced attempts c log s b log' s' :
  eligible c = true ->
  _process_candidate ledger params ids attempts c log s = Returned b log' s' ->
  b = true /\
  exists resolved d1 d2 d3 m ext,
    log' = log ++ repeat (check_resolved_request c) (Datatypes.S m) ++ ext /\
    performative (ledger (List.length log + m)%nat (check_resolved_request c))
      = RAW_TRANSACTION /\
    body_resolved (body (ledger (List.length log + m)%nat (check_resolved_request c)))
      = Some resolved /\
    _already_resolved s' = resolved /\
    advanced (candidate_calls resolved d1 d2 d3) (claimable_amount c) s s'.
Proof.
  intros He H.
  destruct (_process_candidate_returned _ _ _ _ _ _ _ He H) as (-> & s1 & Hdone & ->).
  split; [reflexivity|].
  destruct (single_redeem_done_grown _ _ _ _ _ Hdone)
    as (r & d1 & d2 & d3 & m & ext & Hlog & Hp & Hr & Hres & _ & G).
  exists r, d1, d2, d3, m, ext.
  refine (conj Hlog (conj Hp (conj Hr (conj _ _)))); [exact Hres|].
  destruct G as (B & R & W & F & P & D & Hh). simpl in *.
  unfold advanced. simpl.
  refine (conj B (conj _ (conj R (conj F (conj P (conj D Hh)))))).
  rewrite W. reflexivity.
Qed.

(** [sum] of the claimable amounts. *)
Definition total_claimable (cs : list RedeemInfo) : Z :=
  fold_right (fun c acc => claimable_amount c + acc)%Z 0%Z cs.

(** The group of calls of some candidate. *)
Definition is_candidate_calls (seg : list MultisendBatch) : Prop :=
  exists resolved d1 d2 d3, seg = candidate_calls resolved d1 d2 d3.

Lemma set_current_advanced c s : advanced [] 0 s (set_current_redeem_info c s).
Proof.
  unfold advanced. simpl. rewrite app_nil_r, Z.add_0_r.
  refine (conj _ (conj _ (conj _ (conj _ (conj _ (conj _ _)))))); reflexivity.
Qed.

(** What a returned candidate loop did: it went through the first [n]
    candidates, appended the calls of the eligible ones among them in
    order, and stopped early only on a batch of exactly the configured
    size. *)
Lemma _prepare_safe_tx_loop_returned attempts cands :
  forall found log s found' log' s',
  _prepare_safe_tx_loop ledger params ids attempts cands found log s
    = Returned found' log' s' ->
  exists n segs ext,
    (n <= List.length cands)%nat /\
    Forall2 (fun (_ : RedeemInfo) seg => is_candidate_calls seg)
      (List.filter eligible (firstn n cands)) segs /\
    advanced (concat segs) (total_claimable (List.filter eligible (firstn n cands))) s s' /\
    found' = (found || existsb eligible (firstn n cands))%bool /\
    log' = log ++ ext /\
    (existsb eligible (firstn n cands) = false -> ext = []) /\
    (n = List.length cands \/
     List.length (multisend_batches s') = redeeming_batch_size params).
Proof.
  induction cands as [|c rest IH]; intros found log s found' log' s' H; simpl in H.
  - ret_inv H. exists 0%nat, [], []. simpl.
    rewrite app_nil_r, orb_false_r.
    refine (conj _ (conj _ (conj _ (conj _ (conj _ (conj _ _))))));
      auto using advanced_refl.
  - destruct (eligible c) eqn:He.
    + bind_inv H log1 s1 R1.
      destruct (_process_candidate_advanced _ _ _ _ _ _ _ He R1)
        as (-> & r & d1 & d2 & d3 & m & ext1 & Hlog1 & _ & _ & _ & A1).
      simpl in H. bind_inv H logx sx Rx. ret_inv Rx.
      match type of H with context [Nat.eqb ?a ?b] => destruct (Nat.eqb a b) eqn:Hsize end.
      * ret_inv H. apply Nat.eqb_eq in Hsize.
        exists 1%nat, [candidate_calls r d1 d2 d3]. eexists.
        simpl. rewrite He. simpl. rewrite app_nil_r, Z.add_0_r, orb_true_r.
        refine (conj _ (conj _ (conj _ (conj _ (conj _ (conj _ _)))))).
        -- lia.
        -- constructor; [|constructor]. exists r, d1, d2, d3. reflexivity.
        -- exact A1.
        -- reflexivity.
        -- exact Hlog1.
        -- discriminate.
        -- right. exact Hsize.
      * apply IH in H.
        destruct H as (n & segs & ext & Hn & Hsegs & A & Hfound & Hlog & _ & Hstop).
        exists (Datatypes.S n), (candidate_calls r d1 d2 d3 :: segs). eexists.
        simpl. rewrite He. simpl.
        refine (conj _ (conj _ (conj _ (conj _ (conj _ (conj _ _)))))).
        -- lia.
        -- constructor; [|exact Hsegs]. exists r, d1, d2, d3. reflexivity.
        -- exact (advanced_trans _ _ _ _ _ _ _ A1 A).
        -- rewrite Hfound. rewrite orb_true_r. reflexivity.
        -- rewrite Hlog, Hlog1, <- !app_assoc. reflexivity.
        -- discriminate.
        -- destruct Hstop as [-> | Hstop]; [left; reflexivity | right; exact Hstop].
    + unfold bind at 1 in H. rewrite (_process_candidate_skip _ _ _ _ He) in H.
      simpl in H. apply IH in H.
      destruct H as (n & segs & ext & Hn & Hsegs & A & Hfound & Hlog & Hext & Hstop).
      exists (Datatypes.S n), segs, ext.
      simpl. rewrite He. simpl.
      refine (conj _ (conj _ (conj _ (conj _ (conj _ (conj _ _)))))).
      * lia.
      * exact Hsegs.
      * exact (advanced_trans [] _ 0 _ _ _ _ (set_current_advanced _ _) A).
      * exact Hfound.
      * exact Hlog.
      * exact Hext.
      * destruct Hstop as [-> | Hstop]; [left; reflexivity | right; exact Hstop].
Qed.

(** ** Discovery and the idempotency filter *)

(** [discovered s s']: discovery touched nothing but the candidate list,
    the fetch status and the pages the source still holds. *)
Definition discovered (s s' : State) : Prop :=
  multisend_batches s' = multisend_batches s /\
  _expected_winnings s' = _expected_winnings s /\
  _from_block s' = _from_block s /\
  _payouts s' = _payouts s /\
  multisend_data s' = multisend_data s /\
  safe_tx_hash s' = safe_tx_hash s.

Lemma discovered_refl s : discovered s s.
Proof. unfold discovered. auto 10. Qed.

Lemma discovered_trans s s1 s2 : discovered s s1 -> discovered s1 s2 -> discovered s s2.
Proof.
  unfold discovered. intros (A1 & B1 & C1 & D1 & E1 & F1) (A2 & B2 & C2 & D2 & E2 & F2).
  repeat split; congruence.
Qed.

(** The discovery loop reaches its [break] and sends no contract request. *)
Lemma _get_redeem_info_loop_returns rounds :
  forall log s, (List.length (pending_pages s) < rounds)%nat ->
  exists s', _get_redeem_info_loop rounds log s = Returned tt log s' /\ discovered s s'.
Proof.
  induction rounds as [|n IH]; intros log s Hlen; [lia|].
  simpl. unfold bind at 1. unfold _prepare_fetching.
  destruct (pending_pages s) as [|page rest] eqn:Hpages.
  - exists s. split; [|apply discovered_refl].
    destruct (_fetch_status s); reflexivity.
  - destruct (FetchStatus_eqb (_fetch_status s) FAIL) eqn:Hfail.
    + apply FetchStatus_eqb_eq in Hfail. rewrite Hfail. simpl.
      exists s. split; [reflexivity | apply discovered_refl].
    + assert (Hgo : match _fetch_status s with
                    | FAIL => Returned false log s
                    | _ => Returned true log s
                    end = Returned true log s).
      { destruct (_fetch_status s); try reflexivity. discriminate. }
      rewrite Hgo. simpl. unfold bind at 1. unfold bind at 1.
      unfold _fetch_redeem_info. rewrite Hpages.
      set (s1 := set_fetch_status (page_status page) (set_pending_pages rest s)).
      destruct (page_chunk page) as [updates|].
      * unfold modify.
        set (s2 := set_redeem_info (_redeem_info s1 ++ updates) s1).
        destruct (IH log s2) as (s' & Hrun & Hd).
        { simpl in Hlen. simpl. lia. }
        exists s'. split; [exact Hrun|].
        eapply discovered_trans; [|exact Hd]. unfold discovered. simpl. auto 10.
      * unfold ret.
        destruct (IH log s1) as (s' & Hrun & Hd).
        { simpl in Hlen. simpl. lia. }
        exists s'. split; [exact Hrun|].
        eapply discovered_trans; [|exact Hd]. unfold discovered. simpl. auto 10.
Qed.

(** Discovery always returns, without a contract request; when it does
    not end with status SUCCESS the candidate list is empty. *)
Lemma _get_redeem_info_returns log s :
  exists s',
    _get_redeem_info log s = Returned tt log s' /\
    discovered s s' /\
    (_fetch_status s' <> SUCCESS -> _redeem_info s' = []).
Proof.
  unfold _get_redeem_info. unfold bind at 1. unfold gets at 1.
  destruct (_get_redeem_info_loop_returns (Datatypes.S (List.length (pending_pages s)))
              log s) as (s1 & Hrun & Hd); [lia|].
  unfold bind at 1. rewrite Hrun. unfold bind, gets.
  destruct (FetchStatus_eqb (_fetch_status s1) SUCCESS) eqn:Hst; simpl.
  - exists s1. repeat split; try apply Hd.
    apply FetchStatus_eqb_eq in Hst. intros Hne. contradiction.
  - exists (set_redeem_info [] s1). repeat split; try apply Hd.
Qed.

Lemma check_redeemed_verdict_Accept msg s s' :
  check_redeemed_verdict msg s = Accept s' ->
  exists p,
    performative msg = RAW_TRANSACTION /\
    body_payouts (body msg) = Some p /\
    s' = set_payouts p s.
Proof.
  intros H. apply on_field_Accept in H. destruct H as (Hp & p & Hr & Hs).
  exists p. inversion Hs. auto.
Qed.

(** The filter of [_clean_redeem_info], as a function of the candidates
    and the payout map. *)
Definition cleaned (candidates : list RedeemInfo) (payouts : gmap string Z)
  : list RedeemInfo :=
  if (0 <? sum_values payouts)%Z
  then List.filter (fun info => negb (in_keys (transactionHash info) payouts)) candidates
  else candidates.

(** A returned [_clean_redeem_info]: the payout map is the accepted
    answer of the batched lookup and the candidates are filtered by it;
    only lookups were sent. *)
Lemma _clean_redeem_info_returned attempts log s log' s' :
  _clean_redeem_info ledger params synchronized_data ids attempts log s
    = Returned tt log' s' ->
  exists m p,
    log' = log ++ repeat (check_redeemed_request s) (Datatypes.S m) /\
    performative (ledger (List.length log + m)%nat (check_redeemed_request s))
      = RAW_TRANSACTION /\
    body_payouts (body (ledger (List.length log + m)%nat (check_redeemed_request s)))
      = Some p /\
    _payouts s' = p /\
    _redeem_info s' = cleaned (_redeem_info s) p /\
    multisend_batches s' = multisend_batches s /\
    _expected_winnings s' = _expected_winnings s /\
    _from_block s' = _from_block s.
Proof.
  intros H. unfold _clean_redeem_info in H.
  bind_inv H log1 s1 R1.
  apply (wait_polled _ _ _ _ _ _ _ _ _ _ _check_already_redeemed_polls I) in R1.
  destruct R1 as (m & Hlog & Hacc & _).
  apply check_redeemed_verdict_Accept in Hacc. destruct Hacc as (p & Hp & Hpay & Hs1).
  bind_inv H logx sx Rx. ret_inv Rx.
  exists m, p. unfold cleaned. subst s1. simpl in H.
  destruct (0 <? sum_values p)%Z; ret_inv H; simpl; auto 10.
Qed.

(** ** Encoding and hashing the batch *)

Lemma multisend_verdict_Accept msg s s' :
  multisend_verdict msg s = Accept s' ->
  exists d decoded,
    performative msg = RAW_TRANSACTION /\
    body_data (body msg) = Some d /\
    bytes_fromhex (drop2 d) = Some decoded /\
    s' = set_multisend_data decoded s.
Proof.
  intros H. apply on_field_Accept in H. destruct H as (Hp & d & Hd & Hs).
  destruct (bytes_fromhex (drop2 d)) as [decoded|] eqn:Hx; [|discriminate].
  exists d, decoded. inversion Hs. auto.
Qed.

Lemma safe_tx_hash_verdict_Accept msg s s' :
  safe_tx_hash_verdict msg s = Accept s' ->
  exists h,
    performative msg = STATE /\
    body_tx_hash (body msg) = Some h /\
    String.length h = TX_HASH_LENGTH /\
    s' = set_safe_tx_hash (drop2 h) s.
Proof.
  intros H. apply on_field_Accept in H. destruct H as (Hp & h & Hh & Hs).
  destruct (Nat.eqb (String.length h) TX_HASH_LENGTH) eqn:Hlen; simpl in Hs;
    [|discriminate].
  apply Nat.eqb_eq in Hlen. exists h. inversion Hs. auto.
Qed.

(** A completed encode-then-hash: the multisend service was asked to
    encode the batch as it stood, its accepted answer was decoded after
    dropping two characters, the safe service was asked for the hash of
    that data, and its accepted answer was stored after dropping two
    characters. *)
Definition encoded_and_hashed (log : Trace) (s : State) (log' : Trace) (s' : State)
  : Prop :=
  exists m1 m2 d decoded h,
    let r1 := get_tx_data_request params ids s in
    let log1 := log ++ repeat r1 (Datatypes.S m1) in
    let s1 := set_multisend_data decoded s in
    let r2 := get_raw_safe_transaction_hash_request params synchronized_data ids SAFE_GAS s1 in
    log' = log1 ++ repeat r2 (Datatypes.S m2) /\
    performative (ledger (List.length log + m1)%nat r1) = RAW_TRANSACTION /\
    body_data (body (ledger (List.length log + m1)%nat r1)) = Some d /\
    bytes_fromhex (drop2 d) = Some decoded /\
    performative (ledger (List.length log1 + m2)%nat r2) = STATE /\
    body_tx_hash (body (ledger (List.length log1 + m2)%nat r2)) = Some h /\
    String.length h = TX_HASH_LENGTH /\
    s' = set_safe_tx_hash (drop2 h) s1.

Lemma encode_and_hash_returned attempts log s log' s' :
  wait_for_each attempts
    [_build_multisend_data ledger params ids;
     _build_multisend_safe_tx_hash ledger params synchronized_data ids SAFE_GAS
       TX_HASH_LENGTH] log s = Returned tt log' s' ->
  encoded_and_hashed log s log' s'.
Proof.
  intros H. simpl in H.
  bind_inv H log1 s1 R1. bind_inv H log2 s2 R2. ret_inv H.
  apply (wait_polled _ _ _ _ _ _ _ _ _ _ _build_multisend_data_polls I) in R1.
  apply (wait_polled _ _ _ _ _ _ _ _ _ _ _build_multisend_safe_tx_hash_polls I) in R2.
  destruct R1 as (m1 & Hlog1 & Hacc1 & _). destruct R2 as (m2 & Hlog2 & Hacc2 & _).
  apply multisend_verdict_Accept in Hacc1.
  destruct Hacc1 as (d & decoded & Hp1 & Hd & Hx & Hs1).
  apply safe_tx_hash_verdict_Accept in Hacc2.
  destruct Hacc2 as (h & Hp2 & Hh & Hlen & Hs2).
  exists m1, m2, d, decoded, h. subst s1 log1. simpl.
  refine (conj Hlog2 (conj Hp1 (conj Hd (conj Hx (conj Hp2 (conj Hh (conj Hlen Hs2))))))).
Qed.

(** A returned [_prepare_safe_tx]: without winnings nothing is encoded
    or hashed and the result is None; with winnings the batch is encoded
    and hashed and the result is the hex built from the stored hash and
    data. *)
Lemma _prepare_safe_tx_returned attempts log s r log' s' :
  _prepare_safe_tx ledger params synchronized_data ids SAFE_GAS TX_HASH_LENGTH
    hash_payload_to_hex attempts log s = Returned r log' s' ->
  exists found logL sL,
    _prepare_safe_tx_loop ledger params ids attempts (_redeem_info s) false log s
      = Returned found logL sL /\
    (found = false -> r = None /\ log' = logL /\ s' = sL) /\
    (found = true ->
       encoded_and_hashed logL sL log' s' /\
       r = Some (tx_hex params SAFE_GAS hash_payload_to_hex s')).
Proof.
  intros H. unfold _prepare_safe_tx in H.
  bind_inv H logx sx Rx. ret_inv Rx.
  bind_inv H logL sL RL.
  exists a, logL, sL. split; [exact RL|].
  destruct a; simpl in H.
  - split; [discriminate|]. intros _.
    bind_inv H log2 s2 R2. bind_inv H logy sy Ry. ret_inv Ry. ret_inv H.
    split; [exact (encode_and_hash_returned _ _ _ _ _ R2) | reflexivity].
  - split; [|discriminate]. intros _. ret_inv H. auto.
Qed.


(** ** Runs that return on a responsive ledger *)

Lemma answers_well_data hl msg req :
  answered_key (req_contract_callable req) = KData ->
  answers_well hl msg req -> is_Some (body_data (body msg)).
Proof. intros Hkey (_ & H). rewrite Hkey in H. exact H. Qed.

Lemma answers_well_resolved hl msg req :
  answered_key (req_contract_callable req) = KResolved ->
  answers_well hl msg req -> is_Some (body_resolved (body msg)).
Proof. intros Hkey (_ & H). rewrite Hkey in H. exact H. Qed.

Lemma answers_well_payouts hl msg req :
  answered_key (req_contract_callable req) = KPayouts ->
  answers_well hl msg req -> is_Some (body_payouts (body msg)).
Proof. intros Hkey (_ & H). rewrite Hkey in H. exact H. Qed.

Section Responsive.

Variables hl k attempts : nat.
Hypothesis ledger_responsive : responsive hl ledger k.
Hypothesis ledger_in_hex : answers_in_hex ledger.
Hypothesis enough_attempts : (k <= attempts)%nat.

Lemma wait_check_resolved_returns c log s :
  has_current c s ->
  exists log' r,
    wait_for_condition_with_sleep attempts (_check_already_resolved ledger params ids) log s
      = Returned tt log' (set_already_resolved r s).
Proof using ledger_responsive k hl enough_attempts.
  intros Hc.
  destruct (wait_accepting ledger _ _ _ _ _ _ hl k attempts log s
              (_check_already_resolved_polls c) ledger_responsive enough_attempts Hc
              eq_refl
              (fun msg => answers_well_resolved hl msg (check_resolved_request c) eq_refl))
    as (m & r & _ & _ & _ & Hrun).
  eauto.
Qed.

(** A builder gets through: the data of a good answer is there, and no
    answer makes the setter of [built_data] raise. *)
Lemma wait_builder_returns step entry request c log s :
  polls ledger step (has_current c) request (builder_verdict entry) ->
  req_performative (request s) = GET_RAW_TRANSACTION ->
  answered_key (req_contract_callable (request s)) = KData ->
  String.eqb (req_contract_callable (request s)) "get_tx_data" = false ->
  has_current c s ->
  exists log' s',
    wait_for_condition_with_sleep attempts step log s = Returned tt log' s' /\
    has_current c s' /\
    _already_resolved s' = _already_resolved s.
Proof using ledger_responsive ledger_in_hex k hl enough_attempts.
  intros Hpolls Hreq Hkey Hcall Hc.
  assert (Hhex : forall n d,
            performative (ledger n (request s)) = RAW_TRANSACTION ->
            body_data (body (ledger n (request s))) = Some d ->
            HexBytes_error d = None).
  { intros n d Hp Hd. pose proof (ledger_in_hex n (request s) d) as H.
    rewrite Hreq, Hcall in H. exact (H Hp Hd). }
  destruct (wait_responsive ledger step _ request _ Hpolls hl k attempts log s
              ledger_responsive enough_attempts Hc) as (m & s' & _ & Hacc & Hrun).
  - intros n Hwell.
    destruct (answers_well_data _ _ _ Hkey Hwell) as [d Hd].
    destruct Hwell as (Hp & _). rewrite Hreq in Hp. simpl in Hp.
    eexists. unfold builder_verdict.
    rewrite (on_field_good _ _ _ _ _ d Hp Hd), (Hhex n d Hp Hd). reflexivity.
  - intros n e. unfold builder_verdict, on_field.
    destruct (Performative_eqb _ _) eqn:Hp; simpl; [|discriminate].
    apply Performative_eqb_eq in Hp.
    destruct (body_data _) as [d|] eqn:Hd; [|discriminate].
    rewrite (Hhex n d Hp Hd). discriminate.
  - apply builder_verdict_Accept in Hacc. destruct Hacc as (d & _ & _ & ->).
    eexists. eexists. split; [exact Hrun|]. split; [exact Hc | reflexivity].
Qed.

Lemma _prepare_single_redeem_returns c log s :
  has_current c s ->
  exists log' s', _prepare_single_redeem ledger params ids attempts log s
                    = Returned tt log' s'.
Proof using ledger_responsive ledger_in_hex k hl enough_attempts.
  intros Hc. unfold _prepare_single_redeem.
  destruct (wait_check_resolved_returns c log s Hc) as (log1 & r & R1).
  rewrite (bind_eq _ _ _ _ _ _ _ R1). unfold bind at 1. unfold gets at 1. simpl.
  assert (Hc1 : has_current c (set_already_resolved r s)) by exact Hc.
  destruct r; simpl.
  - destruct (wait_builder_returns _ _ _ c log1 _ (_build_claim_data_polls c)
                eq_refl eq_refl eq_refl Hc1) as (log3 & s3 & R3 & Hc3 & _).
    rewrite (bind_eq _ _ _ _ _ _ _ R3).
    destruct (wait_builder_returns _ _ _ c log3 _ (_build_redeem_data_polls c)
                eq_refl eq_refl eq_refl Hc3) as (log4 & s4 & R4 & _).
    rewrite (bind_eq _ _ _ _ _ _ _ R4). eauto.
  - destruct (wait_builder_returns _ _ _ c log1 _ (_build_resolve_data_polls c)
                eq_refl eq_refl eq_refl Hc1) as (log2 & s2 & R2 & Hc2 & _).
    rewrite (bind_eq _ _ _ _ _ _ _ R2).
    destruct (wait_builder_returns _ _ _ c log2 _ (_build_claim_data_polls c)
                eq_refl eq_refl eq_refl Hc2) as (log3 & s3 & R3 & Hc3 & _).
    rewrite (bind_eq _ _ _ _ _ _ _ R3).
    destruct (wait_builder_returns _ _ _ c log3 _ (_build_redeem_data_polls c)
                eq_refl eq_refl eq_refl Hc3) as (log4 & s4 & R4 & _).
    rewrite (bind_eq _ _ _ _ _ _ _ R4). eauto.
Qed.

Lemma _process_candidate_returns c log s :
  eligible c = true ->
  exists log' s', _process_candidate ledger params ids attempts c log s
                    = Returned true log' s'.
Proof using ledger_responsive ledger_in_hex k hl enough_attempts.
  intros He. rewrite (_process_candidate_eligible _ _ _ _ He).
  assert (Hc : has_current c (set_current_redeem_info (Some c) s)) by reflexivity.
  destruct (_prepare_single_redeem_returns c log _ Hc) as (log1 & s1 & R1).
  rewrite (bind_eq _ _ _ _ _ _ _ R1).
  pose proof (_prepare_single_redeem_returned _ _ _ _ _ _ Hc R1) as Hdone.
  destruct (single_redeem_done_grown _ _ _ _ _ Hdone)
    as (r & d1 & d2 & d3 & m & ext & _ & _ & _ & _ & Hcur & _).
  simpl in Hcur. unfold bind, current_redeem_info, modify, ret. rewrite Hcur. eauto.
Qed.

Lemma _clean_redeem_info_returns log s :
  exists log' s', _clean_redeem_info ledger params synchronized_data ids attempts log s
                    = Returned tt log' s'.
Proof using ledger_responsive k hl enough_attempts.
  unfold _clean_redeem_info.
  destruct (wait_accepting ledger _ _ _ _ _ _ hl k attempts log s
              _check_already_redeemed_polls ledger_responsive enough_attempts I
              eq_refl
              (fun msg => answers_well_payouts hl msg (check_redeemed_request s) eq_refl))
    as (m & p & _ & _ & _ & Hrun).
  rewrite (bind_eq _ _ _ _ _ _ _ Hrun). unfold bind, gets, modify, ret. simpl.
  destruct (0 <? sum_values p)%Z; eauto.
Qed.

End Responsive.

(** ** The block-index lookup *)

(** [same_but_lookup s s']: only the fetch status and the answers the
    lookup still holds may differ. *)
Definition same_but_lookup (s s' : State) : Prop :=
  _from_block s' = _from_block s /\
  _current_redeem_info s' = _current_redeem_info s /\
  multisend_batches s' = multisend_batches s /\
  _redeem_info s' = _redeem_info s.

Lemma _get_block_number_loop_returned attempts timestamp :
  forall log s block log' s',
  _get_block_number_loop attempts timestamp log s = Returned block log' s' ->
  log' = log /\ same_but_lookup s s' /\ _fetch_status s' = block_status block.
Proof.
  induction attempts as [|n IH]; intros log s block log' s' H; simpl in H; [discriminate|].
  unfold bind at 1 in H. unfold _fetch_block_number in H.
  destruct (pending_blocks s) as [|answer rest] eqn:Hpending; [discriminate|].
  unfold bind at 1 in H. unfold gets at 1 in H. simpl in H.
  destruct (FetchStatus_eqb (block_status answer) IN_PROGRESS) eqn:Hst; simpl in H.
  - apply IH in H. destruct H as (Hlog & (F & C & B & R) & Hs).
    split; [exact Hlog|]. split; [|exact Hs].
    unfold same_but_lookup. simpl in *. auto.
  - ret_inv H. split; [reflexivity|]. split; [|reflexivity].
    unfold same_but_lookup. simpl. auto.
Qed.

(** [_get_block_number] returns true whenever it returns, whatever the
    status the lookup ended with; unless that status is SUCCESS the
    from-block is the one it found. *)
Lemma _get_block_number_returned attempts log s b log' s' :
  _get_block_number int attempts log s = Returned b log' s' ->
  b = true /\
  log' = log /\
  multisend_batches s' = multisend_batches s /\
  (_fetch_status s' <> SUCCESS -> _from_block s' = _from_block s).
Proof.
  intros H. unfold _get_block_number in H.
  bind_inv H log0 s0 R0.
  unfold current_redeem_info in R0.
  destruct (_current_redeem_info s) as [c|]; [|discriminate]. ret_inv R0.
  bind_inv H log1 s1 R1.
  destruct (_get_block_number_loop_returned _ _ _ _ _ _ _ R1) as (-> & (F & C & B & R) & Hst).
  bind_inv H logx sx Rx. ret_inv Rx.
  bind_inv H log2 s2 R2. ret_inv H.
  destruct (FetchStatus_eqb (_fetch_status s1) SUCCESS) eqn:Hs.
  - unfold modify in R2. ret_inv R2.
    apply FetchStatus_eqb_eq in Hs.
    repeat split.
    + unfold set_from_block. destruct (int _); simpl; exact B.
    + intros Hne. exfalso. apply Hne.
      unfold set_from_block. destruct (int _); simpl; exact Hs.
  - ret_inv R2. repeat split; [exact B | intros _; exact F].
Qed.

(** ** The whole redeeming act *)

Lemma async_act_returned attempts log s payload log' s' :
  async_act ledger params synchronized_data agent_address ids SAFE_GAS TX_HASH_LENGTH
    hash_payload_to_hex RedeemRound_auto_round_id attempts log s
    = Returned payload log' s' ->
  exists s0 log1 s1 r,
    _get_redeem_info log s = Returned tt log s0 /\
    _clean_redeem_info ledger params synchronized_data ids attempts log s0
      = Returned tt log1 s1 /\
    _prepare_safe_tx ledger params synchronized_data ids SAFE_GAS TX_HASH_LENGTH
      hash_payload_to_hex attempts log1 s1 = Returned r log' s' /\
    payload = MultisigTxPayload
                [Some agent_address;
                 match r with
                 | Some _ => Some RedeemRound_auto_round_id
                 | None => None
                 end;
                 r].
Proof.
  intros H. unfold async_act in H.
  bind_inv H log0 s0 R0.
  destruct (_get_redeem_info_returns log s) as (s0' & Hrun & _).
  rewrite Hrun in R0. ret_inv R0.
  bind_inv H log1 s1 R1. bind_inv H log2 s2 R2. ret_inv H.
  exists s0', log1, s1, a. auto.
Qed.

(** A run of candidates that are all skipped returns at once, without a
    request and without touching the batch. *)
Lemma _prepare_safe_tx_loop_skips attempts cands :
  forall found log s,
  Forall (fun c => eligible c = false) cands ->
  exists s',
    _prepare_safe_tx_loop ledger params ids attempts cands found log s
      = Returned found log s' /\
    advanced [] 0 s s'.
Proof.
  induction cands as [|c rest IH]; intros found log s Hall; simpl.
  - exists s. split; [reflexivity | apply advanced_refl].
  - apply Forall_cons_1 in Hall. destruct Hall as [Hc Hrest].
    unfold bind at 1. rewrite (_process_candidate_skip _ _ _ _ Hc). simpl.
    destruct (IH found log (set_current_redeem_info (Some c) s) Hrest) as (s' & Hrun & A).
    exists s'. split; [exact Hrun|].
    exact (advanced_trans [] [] 0 0 _ _ _ (set_current_advanced _ _) A).
Qed.

(** ** Two runs of the redeeming workflow *)

(** The fields a run of [_prepare_safe_tx] reads before it writes them. *)
Definition same_core (s1 s2 : State) : Prop :=
  _redeem_info s1 = _redeem_info s2 /\
  multisend_batches s1 = multisend_batches s2 /\
  _from_block s1 = _from_block s2.

Definition same_candidate (c : RedeemInfo) (s1 s2 : State) : Prop :=
  same_core s1 s2 /\ has_current c s1 /\ has_current c s2.

Definition same_resolved (c : RedeemInfo) (s1 s2 : State) : Prop :=
  same_candidate c s1 s2 /\ _already_resolved s1 = _already_resolved s2.

Definition same_data (s1 s2 : State) : Prop :=
  same_core s1 s2 /\ multisend_data s1 = multisend_data s2.

Definition same_hash (s1 s2 : State) : Prop :=
  same_data s1 s2 /\ safe_tx_hash s1 = safe_tx_hash s2.

Ltac same_tac :=
  unfold same_hash, same_data, same_resolved, same_candidate, same_core, has_current in *;
  simpl in *;
  repeat match goal with
         | H : _ /\ _ |- _ => destruct H
         end;
  repeat split; congruence.

Lemma wait_check_resolved_rel c n1 n2 log1 log2 s1 s2 log1' s1' log2' s2' :
  List.length log1 = List.length log2 ->
  same_candidate c s1 s2 ->
  wait_for_condition_with_sleep n1 (_check_already_resolved ledger params ids) log1 s1
    = Returned tt log1' s1' ->
  wait_for_condition_with_sleep n2 (_check_already_resolved ledger params ids) log2 s2
    = Returned tt log2' s2' ->
  List.length log1' = List.length log2' /\ same_resolved c s1' s2'.
Proof.
  intros Hlen HR H1 H2.
  refine (wait_rel ledger _ (has_current c) (fun _ => check_resolved_request c)
            check_resolved_verdict (same_candidate c) (same_resolved c)
            n1 n2 log1 log2 s1 s2 log1' s1' log2' s2'
            (_check_already_resolved_polls c) _ _ Hlen HR _ _ H1 H2).
  - reflexivity.
  - intros msg a b Hab. apply on_field_agree. intros r. simpl. same_tac.
  - same_tac.
  - same_tac.
Qed.

Lemma wait_builder_rel step entry request c n1 n2 log1 log2 s1 s2 log1' s1' log2' s2' :
  polls ledger step (has_current c) request (builder_verdict entry) ->
  (forall a b, same_resolved c a b -> request a = request b) ->
  List.length log1 = List.length log2 ->
  same_resolved c s1 s2 ->
  wait_for_condition_with_sleep n1 step log1 s1 = Returned tt log1' s1' ->
  wait_for_condition_with_sleep n2 step log2 s2 = Returned tt log2' s2' ->
  List.length log1' = List.length log2' /\ same_resolved c s1' s2'.
Proof.
  intros Hpolls Hreq Hlen HR H1 H2.
  refine (wait_rel ledger step (has_current c) request (builder_verdict entry)
            (same_resolved c) (same_resolved c)
            n1 n2 log1 log2 s1 s2 log1' s1' log2' s2'
            Hpolls Hreq _ Hlen HR _ _ H1 H2).
  - intros msg a b Hab. apply on_field_agree. intros d.
    destruct (HexBytes_error d); [exact Logic.I|]. simpl. same_tac.
  - same_tac.
  - same_tac.
Qed.

Lemma build_claim_request_same c a b :
  same_resolved c a b -> build_claim_request c a = build_claim_request c b.
Proof. intros H. unfold build_claim_request. f_equal. f_equal. same_tac. Qed.

Lemma _prepare_single_redeem_rel c n1 n2 log1 log2 s1 s2 log1' s1' log2' s2' :
  List.length log1 = List.length log2 ->
  same_candidate c s1 s2 ->
  _prepare_single_redeem ledger params ids n1 log1 s1 = Returned tt log1' s1' ->
  _prepare_single_redeem ledger params ids n2 log2 s2 = Returned tt log2' s2' ->
  List.length log1' = List.length log2' /\ same_resolved c s1' s2'.
Proof.
  intros Hlen HR H1 H2. unfold _prepare_single_redeem in H1, H2.
  bind_inv H1 la sa Ra. bind_inv H2 lb sb Rb.
  destruct (wait_check_resolved_rel c _ _ _ _ _ _ _ _ _ _ Hlen HR Ra Rb) as [Hlen1 HR1].
  bind_inv H1 lax sax Rax. ret_inv Rax. bind_inv H2 lbx sbx Rbx. ret_inv Rbx.
  assert (Hres : _already_resolved sa = _already_resolved sb) by same_tac.
  rewrite <- Hres in H2.
  destruct (_already_resolved sa); simpl in H1, H2.
  - bind_inv H1 la3 sa3 Ra3. bind_inv H2 lb3 sb3 Rb3.
    destruct (wait_builder_rel _ _ _ c _ _ _ _ _ _ _ _ _ _ (_build_claim_data_polls c)
                (build_claim_request_same c) Hlen1 HR1 Ra3 Rb3) as [Hlen3 HR3].
    bind_inv H1 la4 sa4 Ra4. bind_inv H2 lb4 sb4 Rb4. ret_inv H1. ret_inv H2.
    exact (wait_builder_rel _ _ _ c _ _ _ _ _ _ _ _ _ _ (_build_redeem_data_polls c)
             (fun _ _ _ => eq_refl) Hlen3 HR3 Ra4 Rb4).
  - bind_inv H1 la2 sa2 Ra2. bind_inv H2 lb2 sb2 Rb2.
    destruct (wait_builder_rel _ _ _ c _ _ _ _ _ _ _ _ _ _ (_build_resolve_data_polls c)
                (fun _ _ _ => eq_refl) Hlen1 HR1 Ra2 Rb2) as [Hlen2 HR2].
    bind_inv H1 la3 sa3 Ra3. bind_inv H2 lb3 sb3 Rb3.
    destruct (wait_builder_rel _ _ _ c _ _ _ _ _ _ _ _ _ _ (_build_claim_data_polls c)
                (build_claim_request_same c) Hlen2 HR2 Ra3 Rb3) as [Hlen3 HR3].
    bind_inv H1 la4 sa4 Ra4. bind_inv H2 lb4 sb4 Rb4. ret_inv H1. ret_inv H2.
    exact (wait_builder_rel _ _ _ c _ _ _ _ _ _ _ _ _ _ (_build_redeem_data_polls c)
             (fun _ _ _ => eq_refl) Hlen3 HR3 Ra4 Rb4).
Qed.

Lemma _process_candidate_rel c n1 n2 log1 log2 s1 s2 b1 log1' s1' b2 log2' s2' :
  List.length log1 = List.length log2 ->
  same_core s1 s2 ->
  _process_candidate ledger params ids n1 c log1 s1 = Returned b1 log1' s1' ->
  _process_candidate ledger params ids n2 c log2 s2 = Returned b2 log2' s2' ->
  b1 = b2 /\ List.length log1' = List.length log2' /\ same_core s1' s2'.
Proof.
  intros Hlen HR H1 H2. destruct (eligible c) eqn:He.
  - rewrite (_process_candidate_eligible _ _ _ _ He) in H1.
    rewrite (_process_candidate_eligible _ _ _ _ He) in H2.
    bind_inv H1 la sa Ra. bind_inv H2 lb sb Rb.
    assert (HR0 : same_candidate c (set_current_redeem_info (Some c) s1)
                    (set_current_redeem_info (Some c) s2)) by same_tac.
    destruct (_prepare_single_redeem_rel c _ _ _ _ _ _ _ _ _ _ Hlen HR0 Ra Rb)
      as [Hlen1 HR1].
    assert (Ca : _current_redeem_info sa = Some c) by same_tac.
    assert (Cb : _current_redeem_info sb = Some c) by same_tac.
    unfold bind, current_redeem_info, modify, ret in H1, H2.
    rewrite Ca in H1. rewrite Cb in H2.
    inversion H1; subst. inversion H2; subst.
    split; [reflexivity|]. split; [exact Hlen1|]. same_tac.
  - rewrite (_process_candidate_skip _ _ _ _ He) in H1.
    rewrite (_process_candidate_skip _ _ _ _ He) in H2.
    inversion H1; subst. inversion H2; subst.
    split; [reflexivity|]. split; [exact Hlen|]. same_tac.
Qed.

Lemma _prepare_safe_tx_loop_rel n1 n2 cands :
  forall found log1 log2 s1 s2 f1 log1' s1' f2 log2' s2',
  List.length log1 = List.length log2 ->
  same_core s1 s2 ->
  _prepare_safe_tx_loop ledger params ids n1 cands found log1 s1 = Returned f1 log1' s1' ->
  _prepare_safe_tx_loop ledger params ids n2 cands found log2 s2 = Returned f2 log2' s2' ->
  f1 = f2 /\ List.length log1' = List.length log2' /\ same_core s1' s2'.
Proof.
  induction cands as [|c rest IH];
    intros found log1 log2 s1 s2 f1 log1' s1' f2 log2' s2' Hlen HR H1 H2;
    simpl in H1, H2.
  - ret_inv H1. ret_inv H2. auto.
  - bind_inv H1 la sa Ra. bind_inv H2 lb sb Rb.
    destruct (_process_candidate_rel c _ _ _ _ _ _ _ _ _ _ _ _ Hlen HR Ra Rb)
      as (Hb & Hlen1 & HR1).
    subst a0. destruct a; simpl in H1, H2.
    + bind_inv H1 lax sax Rax. ret_inv Rax. bind_inv H2 lbx sbx Rbx. ret_inv Rbx.
      assert (Hsize : List.length (multisend_batches sa) = List.length (multisend_batches sb))
        by (f_equal; same_tac).
      rewrite <- Hsize in H2.
      destruct (Nat.eqb (List.length (multisend_batches sa)) (redeeming_batch_size params)).
      * ret_inv H1. ret_inv H2. auto.
      * exact (IH _ _ _ _ _ _ _ _ _ _ _ Hlen1 HR1 H1 H2).
    + exact (IH _ _ _ _ _ _ _ _ _ _ _ Hlen1 HR1 H1 H2).
Qed.

Lemma get_tx_data_request_same a b :
  same_core a b -> get_tx_data_request params ids a = get_tx_data_request params ids b.
Proof.
  intros H. unfold get_tx_data_request, multi_send_txs. do 5 f_equal. same_tac.
Qed.

Lemma get_raw_safe_transaction_hash_request_same a b :
  same_data a b ->
  get_raw_safe_transaction_hash_request params synchronized_data ids SAFE_GAS a =
  get_raw_safe_transaction_hash_request params synchronized_data ids SAFE_GAS b.
Proof.
  intros H. unfold get_raw_safe_transaction_hash_request.
  replace (multisend_data b) with (multisend_data a) by same_tac. reflexivity.
Qed.

Lemma encode_and_hash_rel n1 n2 log1 log2 s1 s2 log1' s1' log2' s2' :
  List.length log1 = List.length log2 ->
  same_core s1 s2 ->
  wait_for_each n1
    [_build_multisend_data ledger params ids;
     _build_multisend_safe_tx_hash ledger params synchronized_data ids SAFE_GAS
       TX_HASH_LENGTH] log1 s1 = Returned tt log1' s1' ->
  wait_for_each n2
    [_build_multisend_data ledger params ids;
     _build_multisend_safe_tx_hash ledger params synchronized_data ids SAFE_GAS
       TX_HASH_LENGTH] log2 s2 = Returned tt log2' s2' ->
  List.length log1' = List.length log2' /\ same_hash s1' s2'.
Proof.
  intros Hlen HR H1 H2. simpl in H1, H2.
  bind_inv H1 la sa Ra. bind_inv H2 lb sb Rb.
  bind_inv H1 la2 sa2 Ra2. bind_inv H2 lb2 sb2 Rb2.
  assert (Hdata : List.length la = List.length lb /\ same_data sa sb).
  { refine (wait_rel ledger _ always (get_tx_data_request params ids) multisend_verdict
              same_core same_data n1 n2 log1 log2 s1 s2 la sa lb sb
              _build_multisend_data_polls get_tx_data_request_same _ Hlen HR
              Logic.I Logic.I Ra Rb).
    intros msg a b Hab. apply on_field_agree. intros d.
    destruct (bytes_fromhex (drop2 d)); simpl; [same_tac | exact Logic.I]. }
  destruct Hdata as [Hlen1 HR1].
  assert (Hhash : List.length la2 = List.length lb2 /\ same_hash sa2 sb2).
  { refine (wait_rel ledger _ always
              (get_raw_safe_transaction_hash_request params synchronized_data ids SAFE_GAS)
              safe_tx_hash_verdict same_data same_hash n1 n2 la lb sa sb la2 sa2 lb2 sb2
              _build_multisend_safe_tx_hash_polls
              get_raw_safe_transaction_hash_request_same _ Hlen1 HR1
              Logic.I Logic.I Ra2 Rb2).
    intros msg a b Hab. apply on_field_agree. intros h.
    destruct (negb _); simpl; [exact Logic.I | same_tac]. }
  ret_inv H1. ret_inv H2. exact Hhash.
Qed.

Lemma tx_hex_same a b :
  same_hash a b ->
  tx_hex params SAFE_GAS hash_payload_to_hex a = tx_hex params SAFE_GAS hash_payload_to_hex b.
Proof.
  intros H. unfold tx_hex.
  replace (multisend_data b) with (multisend_data a) by same_tac.
  replace (safe_tx_hash b) with (safe_tx_hash a) by same_tac. reflexivity.
Qed.

(** Two returned runs of [_prepare_safe_tx] from the same candidates,
    batch and from-block, against the same ledger at the same point,
    agree on the result and on the batch, whatever else their instance
    fields held and however long each was followed. *)
Lemma _prepare_safe_tx_rel n1 n2 log1 log2 s1 s2 r1 log1' s1' r2 log2' s2' :
  List.length log1 = List.length log2 ->
  same_core s1 s2 ->
  _prepare_safe_tx ledger params synchronized_data ids SAFE_GAS TX_HASH_LENGTH
    hash_payload_to_hex n1 log1 s1 = Returned r1 log1' s1' ->
  _prepare_safe_tx ledger params synchronized_data ids SAFE_GAS TX_HASH_LENGTH
    hash_payload_to_hex n2 log2 s2 = Returned r2 log2' s2' ->
  r1 = r2 /\ List.length log1' = List.length log2' /\ same_core s1' s2'.
Proof.
  intros Hlen HR H1 H2. unfold _prepare_safe_tx in H1, H2.
  bind_inv H1 lax sax Rax. ret_inv Rax. bind_inv H2 lbx sbx Rbx. ret_inv Rbx.
  replace (_redeem_info s2) with (_redeem_info s1) in H2 by same_tac.
  bind_inv H1 la sa Ra. bind_inv H2 lb sb Rb.
  destruct (_prepare_safe_tx_loop_rel _ _ _ _ _ _ _ _ _ _ _ _ _ _ Hlen HR Ra Rb)
    as (Hf & Hlen1 & HR1).
  subst a0. destruct a; simpl in H1, H2.
  - bind_inv H1 la2 sa2 Ra2. bind_inv H2 lb2 sb2 Rb2.
    destruct (encode_and_hash_rel _ _ _ _ _ _ _ _ _ _ Hlen1 HR1 Ra2 Rb2) as [Hlen2 HR2].
    bind_inv H1 lay say Ray. ret_inv Ray. bind_inv H2 lby sby Rby. ret_inv Rby.
    ret_inv H1. ret_inv H2.
    split; [f_equal; exact (tx_hex_same _ _ HR2)|]. split; [exact Hlen2 | same_tac].
  - ret_inv H1. ret_inv H2. auto.
Qed.

(** What discovery reads besides: the fetch status and the pages that the
    trade-history source holds. *)
Definition same_source (s1 s2 : State) : Prop :=
  same_core s1 s2 /\
  _fetch_status s1 = _fetch_status s2 /\
  pending_pages s1 = pending_pages s2.

Definition same_payouts (s1 s2 : State) : Prop :=
  same_core s1 s2 /\ _payouts s1 = _payouts s2.

Lemma _get_redeem_info_loop_rel rounds :
  forall log1 log2 s1 s2 log1' s1' log2' s2',
  same_source s1 s2 ->
  _get_redeem_info_loop rounds log1 s1 = Returned tt log1' s1' ->
  _get_redeem_info_loop rounds log2 s2 = Returned tt log2' s2' ->
  log1' = log1 /\ log2' = log2 /\ same_source s1' s2'.
Proof.
  induction rounds as [|n IH]; intros log1 log2 s1 s2 log1' s1' log2' s2' HR H1 H2;
    simpl in H1, H2; [discriminate|].
  destruct HR as (Hcore & Hst & Hpages).
  unfold bind at 1 in H1. unfold bind at 1 in H2. unfold _prepare_fetching in H1, H2.
  rewrite <- Hst, <- Hpages in H2.
  destruct (pending_pages s1) as [|page rest] eqn:Hp1.
  - assert (E1 : Returned tt log1 s1 = Returned tt log1' s1')
      by (destruct (_fetch_status s1); exact H1).
    assert (E2 : Returned tt log2 s2 = Returned tt log2' s2')
      by (destruct (_fetch_status s1); exact H2).
    inversion E1; subst. inversion E2; subst.
    split; [reflexivity|]. split; [reflexivity|].
    unfold same_source. rewrite Hp1. auto.
  - destruct (FetchStatus_eqb (_fetch_status s1) FAIL) eqn:Hfail.
    + apply FetchStatus_eqb_eq in Hfail. rewrite Hfail in H1, H2. simpl in H1, H2.
      ret_inv H1. ret_inv H2.
      split; [reflexivity|]. split; [reflexivity|].
      unfold same_source. rewrite Hp1. auto.
    + assert (G1 : forall (log : Trace) (s : State),
                match _fetch_status s1 with
                | FAIL => Returned false log s
                | _ => Returned true log s
                end = Returned true log s).
      { intros log s. destruct (_fetch_status s1); try reflexivity. discriminate. }
      rewrite G1 in H1, H2. simpl in H1, H2.
      unfold bind at 1 in H1. unfold bind at 1 in H1.
      unfold bind at 1 in H2. unfold bind at 1 in H2.
      unfold _fetch_redeem_info in H1, H2. rewrite Hp1 in H1. rewrite <- Hpages in H2.
      destruct (page_chunk page) as [updates|].
      * unfold modify in H1, H2.
        refine (IH _ _ _ _ _ _ _ _ _ H1 H2).
        unfold same_source. same_tac.
      * unfold ret in H1, H2.
        refine (IH _ _ _ _ _ _ _ _ _ H1 H2).
        unfold same_source. same_tac.
Qed.

Lemma _get_redeem_info_rel log1 log2 s1 s2 log1' s1' log2' s2' :
  same_source s1 s2 ->
  _get_redeem_info log1 s1 = Returned tt log1' s1' ->
  _get_redeem_info log2 s2 = Returned tt log2' s2' ->
  log1' = log1 /\ log2' = log2 /\ same_core s1' s2'.
Proof.
  intros HR H1 H2. unfold _get_redeem_info in H1, H2.
  bind_inv H1 lax sax Rax. ret_inv Rax. bind_inv H2 lbx sbx Rbx. ret_inv Rbx.
  replace (pending_pages s2) with (pending_pages s1) in H2 by (destruct HR as (_ & _ & E); exact E).
  bind_inv H1 la sa Ra. bind_inv H2 lb sb Rb.
  destruct (_get_redeem_info_loop_rel _ _ _ _ _ _ _ _ _ HR Ra Rb) as (-> & -> & HR1).
  bind_inv H1 lay say Ray. ret_inv Ray. bind_inv H2 lby sby Rby. ret_inv Rby.
  replace (_fetch_status sb) with (_fetch_status sa) in H2
    by (destruct HR1 as (_ & E & _); exact E).
  destruct (negb (FetchStatus_eqb (_fetch_status sa) SUCCESS)).
  - unfold modify in H1, H2. ret_inv H1. ret_inv H2.
    split; [reflexivity|]. split; [reflexivity|]. destruct HR1 as (Hc & _). same_tac.
  - ret_inv H1. ret_inv H2.
    split; [reflexivity|]. split; [reflexivity|]. destruct HR1 as (Hc & _). exact Hc.
Qed.

Lemma check_redeemed_request_same a b :
  same_core a b -> check_redeemed_request a = check_redeemed_request b.
Proof.
  intros H. unfold check_redeemed_request.
  replace (_redeem_info b) with (_redeem_info a) by same_tac. reflexivity.
Qed.

Lemma _clean_redeem_info_rel n1 n2 log1 log2 s1 s2 log1' s1' log2' s2' :
  List.length log1 = List.length log2 ->
  same_core s1 s2 ->
  _clean_redeem_info ledger params synchronized_data ids n1 log1 s1 = Returned tt log1' s1' ->
  _clean_redeem_info ledger params synchronized_data ids n2 log2 s2 = Returned tt log2' s2' ->
  List.length log1' = List.length log2' /\ same_payouts s1' s2'.
Proof.
  intros Hlen HR H1 H2. unfold _clean_redeem_info in H1, H2.
  bind_inv H1 la sa Ra. bind_inv H2 lb sb Rb.
  assert (Hp : List.length la = List.length lb /\ same_payouts sa sb).
  { refine (wait_rel ledger _ always check_redeemed_request check_redeemed_verdict
              same_core same_payouts n1 n2 log1 log2 s1 s2 la sa lb sb
              _check_already_redeemed_polls check_redeemed_request_same _ Hlen HR
              Logic.I Logic.I Ra Rb).
    intros msg a b Hab. apply on_field_agree. intros p. simpl.
    unfold same_payouts. same_tac. }
  destruct Hp as [Hlen1 HR1].
  bind_inv H1 lax sax Rax. ret_inv Rax. bind_inv H2 lbx sbx Rbx. ret_inv Rbx.
  replace (_payouts sb) with (_payouts sa) in H2 by (destruct HR1 as [_ E]; exact E).
  destruct (0 <? sum_values (_payouts sa))%Z.
  - unfold modify in H1, H2. ret_inv H1. ret_inv H2. split; [exact Hlen1|].
    unfold same_payouts in *. same_tac.
  - ret_inv H1. ret_inv H2. auto.
Qed.

(** Two returned runs of the whole act, from instances that agree on
    the candidates, the batch, the from-block and the state of the
    trade-history source, against the same ledger at the same point,
    hand over the same payload and end with the same batch. *)
Lemma async_act_rel n1 n2 log1 log2 s1 s2 p1 log1' s1' p2 log2' s2' :
  List.length log1 = List.length log2 ->
  same_source s1 s2 ->
  async_act ledger params synchronized_data agent_address ids SAFE_GAS TX_HASH_LENGTH
    hash_payload_to_hex RedeemRound_auto_round_id n1 log1 s1 = Returned p1 log1' s1' ->
  async_act ledger params synchronized_data agent_address ids SAFE_GAS TX_HASH_LENGTH
    hash_payload_to_hex RedeemRound_auto_round_id n2 log2 s2 = Returned p2 log2' s2' ->
  p1 = p2 /\ multisend_batches s1' = multisend_batches s2'.
Proof.
  intros Hlen HR H1 H2.
  apply async_act_returned in H1. destruct H1 as (sa0 & la1 & sa1 & ra & Ga & Ca & Pa & ->).
  apply async_act_returned in H2. destruct H2 as (sb0 & lb1 & sb1 & rb & Gb & Cb & Pb & ->).
  destruct (_get_redeem_info_rel _ _ _ _ _ _ _ _ HR Ga Gb) as (_ & _ & HR0).
  destruct (_clean_redeem_info_rel _ _ _ _ _ _ _ _ _ _ Hlen HR0 Ca Cb) as [Hlen1 [HR1 _]].
  destruct (_prepare_safe_tx_rel _ _ _ _ _ _ _ _ _ _ _ _ Hlen1 HR1 Pa Pb)
    as (-> & _ & HR2).
  split; [reflexivity | same_tac].
Qed.

End Facts.

End RedeemFacts.

(** * A concrete deployment

    Addresses, a ledger and candidates on which the behaviours are run
    in the examples below. *)

Module Demo.

Definition params (batch_size : nat) : Params :=
  {| multisend_address := "0xA238CBeb142c10Ef7Ad8442C6D1f9E89e07e7761";
     conditional_tokens_address := "0xCeAfDD6bc0bEF976fdCd1112955828E00543c0Ce";
     realitio_proxy_address := "0xAB16D643bA051C11962DA645f74632d3130c81E2";
     realitio_address := "0x79e32aE03fb27B07C89c0c568F80287C01ca2E57";
     dust_threshold := 10;
     redeeming_batch_size := batch_size;
     get_bet_amount := fun _ => 150 |}.

Definition synchronized_data : SynchronizedData :=
  {| safe_contract_address := "0x5e1D1eb61E1164D5a50b28C575dA73A29595dFf7";
     sampled_bet_collateralToken := "0xe91D153E0b41518A2Ce8Dd3D7944Fa863463a97d";
     sampled_bet_id := "0x0d1b1b2c3d4e5f60718293a4b5c6d7e8f9001122";
     confidence := 1;
     vote := 0 |}.

Definition agent_address : string := "agent_0".

Definition ids : ContractIds :=
  {| ERC20_contract_id := "valory/erc20";
     GnosisSafeContract_contract_id := "valory/gnosis_safe";
     FixedProductMarketMakerContract_contract_id := "valory/market_maker";
     MultiSendContract_contract_id := "valory/multisend";
     ConditionalTokensContract_contract_id := "valory/conditional_tokens";
     RealitioContract_contract_id := "valory/realitio";
     RealitioProxyContract_contract_id := "valory/realitio_proxy" |}.

Definition SAFE_GAS : Z := 0.

Definition TX_HASH_LENGTH : nat := 66.

(** A stand-in for the serialiser of the settlement skill: the fields
    one after the other. *)
Definition hash_payload_to_hex (safe_tx_hash : string) (ether_value safe_tx_gas : Z)
    (to_address : string) (data : bytes) (operation : Z) : string :=
  String.append safe_tx_hash to_address.

Definition RedeemRound_auto_round_id : string := "redeem_round".

(** A stand-in for Python's [int]: it reads the block numbers used below. *)
Definition int (s : string) : option Z :=
  if String.eqb s "17" then Some 17 else None.

Definition tx_hash : string :=
  "0x1111111111111111111111111111111111111111111111111111111111111111".

(** An answer of the expected kind with every field present. *)
Definition answer (balance : Z) (payouts : gmap string Z) (resolved : bool)
    (req : Request) : ContractApiMessage :=
  {| performative := expected_performative (req_performative req);
     body := {| body_balance := Some balance;
                body_amount := Some 7;
                body_data := Some "0xabcd";
                body_tx_hash := Some tx_hash;
                body_payouts := Some payouts;
                body_resolved := Some resolved |} |}.

Definition error_answer : ContractApiMessage :=
  {| performative := ERROR;
     body := {| body_balance := None;
                body_amount := None;
                body_data := None;
                body_tx_hash := None;
                body_payouts := None;
                body_resolved := None |} |}.

(** A ledger that answers every request well. *)
Definition ledger (balance : Z) (payouts : gmap string Z) (resolved : bool) : Ledger :=
  fun _ req => answer balance payouts resolved req.

(** A ledger that fails every other request. *)
Definition flaky_ledger (balance : Z) (payouts : gmap string Z) (resolved : bool) : Ledger :=
  fun n req => if Nat.even n then error_answer else answer balance payouts resolved req.

(** A trade on a two-outcome market whose current answer is outcome 1. *)
Definition trade (hash : string) (outcome : Z) (claimable : Z) : RedeemInfo :=
  {| fpmm := {| collateralToken := "0xe91D153E0b41518A2Ce8Dd3D7944Fa863463a97d";
                condition := {| condition_id := HexBytes_of "0xc0";
                                outcomeSlotCount := 2;
                                index_sets := [1; 2]%Z |};
                question := {| question_id := "0x51"; question_data := "will it rain" |};
                templateId := 2;
                current_answer_index := 1;
                creationTimestamp := 1700000000 |};
     outcomeIndex := outcome;
     transactionHash := hash;
     claimable_amount := claimable |}.

Definition winner_a : RedeemInfo := trade "0xa" 1 100.
Definition winner_b : RedeemInfo := trade "0xb" 1 200.
Definition loser : RedeemInfo := trade "0xc" 0 100.
Definition dust : RedeemInfo := trade "0xd" 1 3.

(** A fresh redeeming behaviour that already holds [candidates]. *)
Definition redeeming (candidates : list RedeemInfo) : RedeemBehaviour.State :=
  RedeemBehaviour.set_redeem_info candidates (RedeemBehaviour.__init__ [] []).

(** The behaviours on this deployment. *)
Abbreviation bet_act ledger attempts :=
  (BetPlacementBehaviour.async_act ledger (params 2) synchronized_data agent_address ids
     SAFE_GAS TX_HASH_LENGTH hash_payload_to_hex attempts).

Abbreviation bet_prepare ledger attempts :=
  (BetPlacementBehaviour._prepare_safe_tx ledger (params 2) synchronized_data ids
     SAFE_GAS TX_HASH_LENGTH hash_payload_to_hex attempts).

Abbreviation redeem_act ledger attempts :=
  (RedeemBehaviour.async_act ledger (params 2) synchronized_data agent_address ids
     SAFE_GAS TX_HASH_LENGTH hash_payload_to_hex RedeemRound_auto_round_id attempts).

Abbreviation redeem_prepare ledger attempts :=
  (RedeemBehaviour._prepare_safe_tx ledger (params 2) synchronized_data ids
     SAFE_GAS TX_HASH_LENGTH hash_payload_to_hex attempts).

Abbreviation clean ledger attempts :=
  (RedeemBehaviour._clean_redeem_info ledger (params 2) synchronized_data ids attempts).

Abbreviation process ledger attempts c :=
  (RedeemBehaviour._process_candidate ledger (params 2) ids attempts c).

End Demo.

(** * Properties of the composer *)

(** A sum of strictly positive payouts, one of them present, is strictly
    positive. *)
Lemma foldr_add_pos (l : list Z) (y : Z) :
  (forall x, In x l -> (0 < x)%Z) -> In y l -> (0 < foldr Z.add 0%Z l)%Z.
Proof.
  intros Hpos Hy.
  assert (Hnn : forall l', (forall x, In x l' -> (0 < x)%Z) -> (0 <= foldr Z.add 0%Z l')%Z).
  { induction l' as [|a l' IH]; simpl; intros H; [lia|].
    assert (0 < a)%Z by (apply H; left; reflexivity).
    assert (0 <= foldr Z.add 0%Z l')%Z by (apply IH; intros x Hx; apply H; right; exact Hx).
    lia. }
  destruct l as [|a l]; [contradiction|]. simpl.
  assert (0 < a)%Z by (apply Hpos; left; reflexivity).
  assert (0 <= foldr Z.add 0%Z l)%Z by (apply Hnn; intros x Hx; apply Hpos; right; exact Hx).
  lia.
Qed.

Lemma sum_values_pos (payouts : gmap string Z) (h : string) (v : Z) :
  (forall h' v', payouts !! h' = Some v' -> (0 < v')%Z) ->
  payouts !! h = Some v ->
  (0 < RedeemBehaviour.sum_values payouts)%Z.
Proof.
  intros Hall Hh. unfold RedeemBehaviour.sum_values.
  apply (foldr_add_pos _ v).
  - intros x Hx. apply in_map_iff in Hx. destruct Hx as ([h' v'] & <- & Hin).
    apply list_elem_of_In, elem_of_map_to_list in Hin. exact (Hall _ _ Hin).
  - apply in_map_iff. exists (h, v). split; [reflexivity|].
    apply list_elem_of_In, elem_of_map_to_list. exact Hh.
Qed.

Lemma in_keys_false (payouts : gmap string Z) (h : string) :
  RedeemBehaviour.in_keys h payouts = false <-> payouts !! h = None.
Proof.
  unfold RedeemBehaviour.in_keys. destruct (payouts !! h); split; intros H;
    try reflexivity; discriminate.
Qed.

(** Membership in the filtered candidates. *)
Lemma In_cleaned (candidates : list RedeemInfo) (payouts : gmap string Z) (c : RedeemInfo) :
  In c (RedeemFacts.cleaned candidates payouts) <->
  In c candidates /\
  ((0 < RedeemBehaviour.sum_values payouts)%Z -> payouts !! transactionHash c = None).
Proof.
  unfold RedeemFacts.cleaned.
  destruct (0 <? RedeemBehaviour.sum_values payouts)%Z eqn:Hsum.
  - apply Z.ltb_lt in Hsum. rewrite filter_In, negb_true_iff, in_keys_false. tauto.
  - apply Z.ltb_ge in Hsum. split; [intros H; split; [exact H | lia] | tauto].
Qed.

(** The candidate's transaction hash has a strictly positive recorded
    payout. *)
Definition positive_payout (payouts : gmap string Z) (c : RedeemInfo) : Prop :=
  exists v, payouts !! transactionHash c = Some v /\ (0 < v)%Z.

Section Claims.

Variable ledger : Ledger.
Variable params : Params.
Variable synchronized_data : SynchronizedData.
Variable agent_address : string.
Variable ids : ContractIds.
Variable SAFE_GAS : Z.
Variable TX_HASH_LENGTH : nat.
Variable hash_payload_to_hex : string -> Z -> Z -> string -> bytes -> Z -> string.
Variable RedeemRound_auto_round_id : string.
Variable int : string -> option Z.

(** C1 (as amended).  When [_clean_redeem_info] returns, with [P] the
    payout map of the batched lookup: a candidate is kept exactly when it
    was a candidate before and, if the recorded payouts sum to more than
    zero, its transaction hash is not a key of [P].  So when every payout
    recorded in [P] is strictly positive, the candidates removed are
    exactly those with [P[c.txHash] > 0], and every other one is kept. *)
Theorem clean_redeem_info_filter attempts log s log' s' :
  RedeemBehaviour._clean_redeem_info ledger params synchronized_data ids attempts log s
    = Returned tt log' s' ->
  let P := RedeemBehaviour._payouts s' in
  (forall c,
     In c (RedeemBehaviour._redeem_info s') <->
     In c (RedeemBehaviour._redeem_info s) /\
     ((0 < RedeemBehaviour.sum_values P)%Z -> P !! transactionHash c = None)) /\
  ((forall h v, P !! h = Some v -> (0 < v)%Z) ->
   forall c,
     In c (RedeemBehaviour._redeem_info s') <->
     In c (RedeemBehaviour._redeem_info s) /\ ~ positive_payout P c).
Proof.
  intros H P.
  destruct (RedeemFacts._clean_redeem_info_returned _ _ _ _ _ _ _ _ _ H)
    as (m & p & _ & _ & _ & Hp & Hclean & _).
  subst P. rewrite Hp, Hclean. split.
  - intros c. apply In_cleaned.
  - intros Hall c. unfold positive_payout. rewrite In_cleaned.
    split; intros [Hin Hkey]; split; try exact Hin.
    + intros (v & Hv & Hpos). pose proof (sum_values_pos p _ _ Hall Hv) as Hsum.
      rewrite (Hkey Hsum) in Hv. discriminate.
    + intros _. destruct (p !! transactionHash c) as [v|] eqn:Hv; [|reflexivity].
      exfalso. apply Hkey. exists v. split; [reflexivity | exact (Hall _ _ Hv)].
Qed.

(** Not a winning position, or dust. *)
Definition skipped (c : RedeemInfo) : Prop :=
  outcomeIndex c <> current_answer_index (fpmm c) \/
  (claimable_amount c < dust_threshold params)%Z.

Lemma eligible_false_iff c : RedeemFacts.eligible params c = false <-> skipped c.
Proof.
  unfold RedeemFacts.eligible, skipped.
  rewrite andb_false_iff, negb_false_iff, Z.eqb_neq, Z.ltb_lt. reflexivity.
Qed.



Lemma Forall_skipped_eligible (cs : list RedeemInfo) :
  Forall skipped cs -> Forall (fun c => RedeemFacts.eligible params c = false) cs.
Proof.
  intros H. eapply Forall_impl; [exact H|]. intros c. apply eligible_false_iff.
Qed.

(** Without an eligible candidate [_prepare_safe_tx] returns None at
    once. *)
Lemma _prepare_safe_tx_nothing attempts log s :
  Forall skipped (RedeemBehaviour._redeem_info s) ->
  exists s',
    RedeemBehaviour._prepare_safe_tx ledger params synchronized_data ids SAFE_GAS
      TX_HASH_LENGTH hash_payload_to_hex attempts log s = Returned None log s' /\
    RedeemFacts.advanced [] 0 s s'.
Proof.
  intros Hall. apply Forall_skipped_eligible in Hall.
  destruct (RedeemFacts._prepare_safe_tx_loop_skips ledger params ids attempts _ false log s
              Hall) as (s' & Hrun & A).
  exists s'. split; [|exact A].
  unfold RedeemBehaviour._prepare_safe_tx. unfold bind at 1. unfold gets at 1.
  unfold bind at 1. rewrite Hrun. reflexivity.
Qed.

(** [_prepare_safe_tx] does not change the candidates. *)
Lemma _prepare_safe_tx_candidates attempts log s r log' s' :
  RedeemBehaviour._prepare_safe_tx ledger params synchronized_data ids SAFE_GAS
    TX_HASH_LENGTH hash_payload_to_hex attempts log s = Returned r log' s' ->
  RedeemBehaviour._redeem_info s' = RedeemBehaviour._redeem_info s.
Proof.
  intros H. apply RedeemFacts._prepare_safe_tx_returned in H.
  destruct H as (found & logL & sL & Hloop & Hnone & Hsome).
  apply RedeemFacts._prepare_safe_tx_loop_returned in Hloop.
  destruct Hloop as (n & segs & ext & _ & _ & (_ & _ & R & _) & _).
  destruct found.
  - destruct (Hsome eq_refl) as [(m1 & m2 & d & decoded & h & E) _].
    simpl in E. destruct E as (_ & _ & _ & _ & _ & _ & _ & ->). simpl. exact R.
  - destruct (Hnone eq_refl) as (_ & _ & ->). exact R.
Qed.

(** C4.  A run that produces no eligible call emits a payload without a
    hash and never asks for the multisend encoding or the safe
    transaction hash.  Bet placement: when the fetched balance is below
    the investment amount, the payload is (agent, None), the only
    requests sent are balance checks, and batch, encoded data and hash
    are untouched.  Redeeming: when every candidate is skipped,
    [_prepare_safe_tx] returns None without sending any request and
    without touching batch, encoded data or hash; and the act's payload
    is (agent, None, None), its only requests being the payout lookups. *)
Theorem no_eligible_call_no_hash attempts :
  (forall log s payload log' s',
     BetPlacementBehaviour.async_act ledger params synchronized_data agent_address ids
       SAFE_GAS TX_HASH_LENGTH hash_payload_to_hex attempts log s
       = Returned payload log' s' ->
     (BetPlacementBehaviour.balance s' <
        BetPlacementBehaviour.investment_amount params synchronized_data)%Z ->
     payload = MultisigTxPayload [Some agent_address; None] /\
     (exists m,
        log' = log ++ repeat (BetPlacementBehaviour.check_balance_request
                                synchronized_data ids) (S m)) /\
     BetPlacementBehaviour.multisend_batches s' = BetPlacementBehaviour.multisend_batches s /\
     BetPlacementBehaviour.multisend_data s' = BetPlacementBehaviour.multisend_data s /\
     BetPlacementBehaviour.safe_tx_hash s' = BetPlacementBehaviour.safe_tx_hash s) /\
  (forall log s,
     Forall skipped (RedeemBehaviour._redeem_info s) ->
     exists s',
       RedeemBehaviour._prepare_safe_tx ledger params synchronized_data ids SAFE_GAS
         TX_HASH_LENGTH hash_payload_to_hex attempts log s = Returned None log s' /\
       RedeemBehaviour.multisend_batches s' = RedeemBehaviour.multisend_batches s /\
       RedeemBehaviour.multisend_data s' = RedeemBehaviour.multisend_data s /\
       RedeemBehaviour.safe_tx_hash s' = RedeemBehaviour.safe_tx_hash s) /\
  (forall log s payload log' s',
     RedeemBehaviour.async_act ledger params synchronized_data agent_address ids
       SAFE_GAS TX_HASH_LENGTH hash_payload_to_hex RedeemRound_auto_round_id attempts log s
       = Returned payload log' s' ->
     Forall skipped (RedeemBehaviour._redeem_info s') ->
     payload = MultisigTxPayload [Some agent_address; None; None] /\
     (exists m request, log' = log ++ repeat request (S m) /\
        req_contract_callable request = "check_redeemed") /\
     RedeemBehaviour.multisend_batches s' = RedeemBehaviour.multisend_batches s /\
     RedeemBehaviour.multisend_data s' = RedeemBehaviour.multisend_data s /\
     RedeemBehaviour.safe_tx_hash s' = RedeemBehaviour.safe_tx_hash s).
Proof.
  split; [|split].
  - intros log s payload log' s' H Hlow.
    apply BetPlacementFacts.bet_async_act_returned in H.
    destruct H as (m & b & _ & _ & [(Hb & -> & -> & ->) | (Hb & Hprep & _)]).
    + repeat split. exists m. reflexivity.
    + exfalso.
      destruct Hprep as (m1 & m2 & m3 & m4 & m5 & a & amount & b' & d & decoded & h & E).
      simpl in E. destruct E as (_ & -> & _). simpl in Hlow. lia.
  - intros log s Hall.
    destruct (_prepare_safe_tx_nothing attempts log s Hall)
      as (s' & Hrun & (B & _ & _ & _ & _ & D & Hh)).
    exists s'. rewrite app_nil_r in B. auto.
  - intros log s payload log' s' H Hall.
    apply RedeemFacts.async_act_returned in H.
    destruct H as (s0 & log1 & s1 & r & Hget & Hclean & Hprep & ->).
    rewrite (_prepare_safe_tx_candidates _ _ _ _ _ _ Hprep) in Hall.
    destruct (_prepare_safe_tx_nothing attempts log1 s1 Hall)
      as (s1' & Hrun & (B & _ & _ & _ & _ & D & Hh)).
    rewrite Hrun in Hprep. inversion Hprep; subst.
    destruct (RedeemFacts._clean_redeem_info_returned _ _ _ _ _ _ _ _ _ Hclean)
      as (m & p & Hlog & _ & _ & _ & _ & B1 & _).
    destruct (RedeemFacts._get_redeem_info_returns log s) as (s0' & Hget' & Hd & _).
    rewrite Hget' in Hget. inversion Hget; subst s0'.
    destruct Hd as (B0 & _ & _ & _ & D0 & H0).
    rewrite app_nil_r in B.
    split; [reflexivity|]. split; [exists m; eexists; split; [exact Hlog | reflexivity]|].
    split; [congruence|].
    (* the lookup wait and the filter leave the encoded data and the hash alone *)
    assert (Hkeep : RedeemBehaviour.multisend_data s1 = RedeemBehaviour.multisend_data s0 /\
                    RedeemBehaviour.safe_tx_hash s1 = RedeemBehaviour.safe_tx_hash s0).
    { clear - Hclean. unfold RedeemBehaviour._clean_redeem_info in Hclean.
      bind_inv Hclean la sa Ra.
      apply (wait_polled _ _ _ _ _ _ _ _ _ _
               (RedeemFacts._check_already_redeemed_polls ledger params synchronized_data ids)
               Logic.I) in Ra.
      destruct Ra as (m & _ & Hacc & _).
      apply RedeemFacts.check_redeemed_verdict_Accept in Hacc.
      destruct Hacc as (p & _ & _ & ->).
      bind_inv Hclean lx sx Rx. ret_inv Rx. simpl in Hclean.
      destruct (0 <? RedeemBehaviour.sum_values p)%Z; ret_inv Hclean; simpl; auto. }
    destruct Hkeep as [K1 K2]. split; congruence.
Qed.

Lemma cleaned_nil (payouts : gmap string Z) : RedeemFacts.cleaned [] payouts = [].
Proof. unfold RedeemFacts.cleaned. destruct (0 <? _)%Z; reflexivity. Qed.

(** C8.  When discovery does not end with status SUCCESS the candidate
    set is empty; every returned run of the act then hands over
    (agent, None, None), still has no candidates, leaves the batch as it
    was and has sent nothing but payout lookups; and on a responsive
    ledger the act does return. *)
Theorem failed_discovery_redeems_nothing log s s0 :
  RedeemBehaviour._get_redeem_info log s = Returned tt log s0 ->
  RedeemBehaviour._fetch_status s0 <> SUCCESS ->
  RedeemBehaviour._redeem_info s0 = [] /\
  (forall attempts payload log' s',
     RedeemBehaviour.async_act ledger params synchronized_data agent_address ids
       SAFE_GAS TX_HASH_LENGTH hash_payload_to_hex RedeemRound_auto_round_id attempts log s
       = Returned payload log' s' ->
     payload = MultisigTxPayload [Some agent_address; None; None] /\
     RedeemBehaviour._redeem_info s' = [] /\
     RedeemBehaviour.multisend_batches s' = RedeemBehaviour.multisend_batches s /\
     (exists m request, log' = log ++ repeat request (S m) /\
        req_contract_callable request = "check_redeemed")) /\
  (forall hl k attempts, responsive hl ledger k -> (k <= attempts)%nat ->
     exists payload log' s',
       RedeemBehaviour.async_act ledger params synchronized_data agent_address ids
         SAFE_GAS TX_HASH_LENGTH hash_payload_to_hex RedeemRound_auto_round_id attempts log s
         = Returned payload log' s').
Proof.
  intros Hget Hfail.
  destruct (RedeemFacts._get_redeem_info_returns log s) as (s0' & Hget' & Hd & Hempty).
  rewrite Hget' in Hget. inversion Hget; subst s0'. clear Hget.
  specialize (Hempty Hfail). split; [exact Hempty|]. split.
  - intros attempts payload log' s' H.
    apply RedeemFacts.async_act_returned in H.
    destruct H as (s0' & log1 & s1 & r & Hget & Hclean & Hprep & ->).
    rewrite Hget' in Hget. inversion Hget; subst s0'. clear Hget.
    destruct (RedeemFacts._clean_redeem_info_returned _ _ _ _ _ _ _ _ _ Hclean)
      as (m & p & Hlog & _ & _ & _ & Hcands & B1 & _).
    rewrite Hempty, cleaned_nil in Hcands.
    assert (Hall : Forall skipped (RedeemBehaviour._redeem_info s1))
      by (rewrite Hcands; constructor).
    destruct (_prepare_safe_tx_nothing attempts log1 s1 Hall)
      as (s1' & Hrun & (B & _ & R & _)).
    rewrite Hrun in Hprep. injection Hprep as <- <- <-.
    rewrite app_nil_r in B. destruct Hd as (B0 & _).
    split; [reflexivity|]. split; [congruence|]. split; [congruence|].
    exists m. eexists. split; [exact Hlog | reflexivity].
  - intros hl k attempts Hresp Hk.
    destruct (RedeemFacts._clean_redeem_info_returns ledger params synchronized_data ids
                hl k attempts Hresp Hk log s0) as (log1 & s1 & Hclean).
    destruct (RedeemFacts._clean_redeem_info_returned _ _ _ _ _ _ _ _ _ Hclean)
      as (m & p & _ & _ & _ & _ & Hcands & _).
    rewrite Hempty, cleaned_nil in Hcands.
    assert (Hall : Forall skipped (RedeemBehaviour._redeem_info s1))
      by (rewrite Hcands; constructor).
    destruct (_prepare_safe_tx_nothing attempts log1 s1 Hall) as (s1' & Hrun & _).
    unfold RedeemBehaviour.async_act.
    rewrite (bind_eq _ _ _ _ _ _ _ Hget'), (bind_eq _ _ _ _ _ _ _ Hclean),
      (bind_eq _ _ _ _ _ _ _ Hrun).
    unfold ret. eauto.
Qed.

Lemma repeat_S_snoc {A} (x : A) (n : nat) : repeat x (S n) = repeat x n ++ [x].
Proof. simpl. symmetry. apply repeat_snoc. Qed.

(** C5.  Bet placement: a prepared batch is the batch before, then the
    approval entry, then the buy entry, built from the accepted answers
    of the approval request and of the later buy request.  Redeeming: a
    processed candidate's entries are appended as resolve, claim, redeem
    when the accepted answer of its resolution check was "not resolved",
    and as claim, redeem, with no resolve entry, when it was "resolved";
    and the whole batch is the batch before followed by such groups, one
    after the other. *)
Theorem batch_entries_in_order attempts :
  (forall log s hex log' s',
     BetPlacementBehaviour._prepare_safe_tx ledger params synchronized_data ids SAFE_GAS
       TX_HASH_LENGTH hash_payload_to_hex attempts log s = Returned hex log' s' ->
     exists a b pre mid post buy_request,
       let approval_request :=
         BetPlacementBehaviour.build_approval_request params synchronized_data ids in
       log' = pre ++ [approval_request] ++ mid ++ [buy_request] ++ post /\
       req_contract_callable buy_request = "get_buy_data" /\
       body_data (body (ledger (List.length pre) approval_request)) = Some a /\
       body_data (body (ledger (List.length (pre ++ [approval_request] ++ mid))
                          buy_request)) = Some b /\
       BetPlacementBehaviour.multisend_batches s' =
         BetPlacementBehaviour.multisend_batches s ++
         [BetPlacementFacts.approval_entry synchronized_data a;
          BetPlacementFacts.buy_entry synchronized_data b]) /\
  (forall c log s log' s',
     RedeemBehaviour._process_candidate ledger params ids attempts c log s
       = Returned true log' s' ->
     exists resolved d1 d2 d3 pre post,
       let check := RedeemFacts.check_resolved_request params ids c in
       log' = pre ++ [check] ++ post /\
       performative (ledger (List.length pre) check) = RAW_TRANSACTION /\
       body_resolved (body (ledger (List.length pre) check)) = Some resolved /\
       RedeemBehaviour.multisend_batches s' =
         RedeemBehaviour.multisend_batches s ++
         (if resolved
          then [RedeemFacts.claim_entry params d2; RedeemFacts.redeem_entry params d3]
          else [RedeemFacts.resolve_entry params d1; RedeemFacts.claim_entry params d2;
                RedeemFacts.redeem_entry params d3])) /\
  (forall log s r log' s',
     RedeemBehaviour._prepare_safe_tx ledger params synchronized_data ids SAFE_GAS
       TX_HASH_LENGTH hash_payload_to_hex attempts log s = Returned r log' s' ->
     exists groups,
       RedeemBehaviour.multisend_batches s' =
         RedeemBehaviour.multisend_batches s ++ concat groups /\
       Forall (RedeemFacts.is_candidate_calls params) groups).
Proof.
  split; [|split].
  - intros log s hex log' s' H.
    apply BetPlacementFacts.bet_prepare_safe_tx_returned in H. destruct H as [Hprep _].
    destruct Hprep as (m1 & m2 & m3 & m4 & m5 & a & amount & b & d & decoded & h & E).
    cbv zeta in E.
    destruct E as (Hlog & Hs & (_ & Ha) & _ & (_ & Hb) & _).
    set (r1 := BetPlacementBehaviour.build_approval_request params synchronized_data ids)
      in *.
    set (r2 := BetPlacementBehaviour.calc_buy_amount_request params synchronized_data ids)
      in *.
    match type of Hb with
    | body_data (body (ledger _ ?r)) = _ => set (r3 := r) in *
    end.
    exists a, b, (log ++ repeat r1 m1), (repeat r2 (S m2) ++ repeat r3 m3).
    eexists. exists r3. cbv zeta.
    refine (conj _ (conj _ (conj _ (conj _ _)))).
    + rewrite Hlog. rewrite (repeat_S_snoc r1 m1), (repeat_S_snoc r3 m3).
      rewrite <- !app_assoc. reflexivity.
    + reflexivity.
    + rewrite length_app, repeat_length. exact Ha.
    + replace (List.length ((log ++ repeat r1 m1) ++ [r1] ++ repeat r2 (S m2) ++ repeat r3 m3))
        with (List.length ((log ++ repeat r1 (S m1)) ++ repeat r2 (S m2)) + m3)%nat.
      * exact Hb.
      * rewrite !length_app, !repeat_length. simpl List.length. lia.
    + rewrite Hs. simpl. rewrite <- app_assoc. reflexivity.
  - intros c log s log' s' H.
    destruct (RedeemFacts.eligible params c) eqn:He.
    + destruct (RedeemFacts._process_candidate_advanced _ _ _ _ _ _ _ _ _ _ He H)
        as (_ & r & d1 & d2 & d3 & m & ext & Hlog & Hp & Hr & _ & (B & _)).
      set (check := RedeemFacts.check_resolved_request params ids c) in *.
      exists r, d1, d2, d3, (log ++ repeat check m), ext. cbv zeta.
      refine (conj _ (conj _ (conj _ _))).
      * rewrite Hlog, (repeat_S_snoc check m), <- !app_assoc. reflexivity.
      * rewrite length_app, repeat_length. exact Hp.
      * rewrite length_app, repeat_length. exact Hr.
      * rewrite B. unfold RedeemFacts.candidate_calls. destruct r; reflexivity.
    + rewrite (RedeemFacts._process_candidate_skip _ _ _ _ _ _ _ He) in H. discriminate.
  - intros log s r log' s' H.
    apply RedeemFacts._prepare_safe_tx_returned in H.
    destruct H as (found & logL & sL & Hloop & Hnone & Hsome).
    apply RedeemFacts._prepare_safe_tx_loop_returned in Hloop.
    destruct Hloop as (n & segs & ext & _ & Hsegs & (B & _) & _).
    exists segs. split.
    + destruct found.
      * destruct (Hsome eq_refl) as [(m1 & m2 & d & decoded & h & E) _].
        simpl in E. destruct E as (_ & _ & _ & _ & _ & _ & _ & ->). simpl. exact B.
      * destruct (Hnone eq_refl) as (_ & _ & ->). exact B.
    + clear - Hsegs. induction Hsegs; constructor; assumption.
Qed.

(** The batch [batch] was encoded and hashed with the fixed parameters,
    and [hex] built from the outcome: the log ends with the request for
    the safe transaction hash, sent to the safe for the decoded multisend
    data with target the multisend contract, value zero, gas [SAFE_GAS]
    and the delegate-call operation; the data is the accepted answer to
    the earlier encoding request for [batch], decoded after dropping its
    first two characters; and [hex] is [hash_payload_to_hex] of the
    accepted hash without its first two characters, zero, [SAFE_GAS], the
    multisend address, the decoded data and the delegate-call
    operation. *)
Definition hashed_with_fixed_parameters (log' : Trace) (batch : list MultisendBatch)
    (hex : string) : Prop :=
  exists pre mid d decoded h,
    let encode_request :=
      {| req_performative := GET_RAW_TRANSACTION;
         req_contract_address := multisend_address params;
         req_contract_id := MultiSendContract_contract_id ids;
         req_contract_callable := "get_tx_data";
         req_kwargs := [("multi_send_txs", VList (map asdict batch))] |} in
    let hash_request :=
      {| req_performative := GET_STATE;
         req_contract_address := safe_contract_address synchronized_data;
         req_contract_id := GnosisSafeContract_contract_id ids;
         req_contract_callable := "get_raw_safe_transaction_hash";
         req_kwargs := [("to_address", VStr (multisend_address params));
                        ("value", VInt 0);
                        ("data", VBytes decoded);
                        ("safe_tx_gas", VInt SAFE_GAS);
                        ("operation", VInt (SafeOperation_value DELEGATE_CALL))] |} in
    log' = pre ++ [encode_request] ++ mid ++ [hash_request] /\
    body_data (body (ledger (List.length pre) encode_request)) = Some d /\
    bytes_fromhex (drop2 d) = Some decoded /\
    body_tx_hash (body (ledger (List.length (pre ++ [encode_request] ++ mid)) hash_request))
      = Some h /\
    String.length h = TX_HASH_LENGTH /\
    hex = hash_payload_to_hex (drop2 h) 0 SAFE_GAS (multisend_address params) decoded
            (SafeOperation_value DELEGATE_CALL).

Lemma drop2_0x (x : string) : drop2 (String.append "0x" x) = x.
Proof. reflexivity. Qed.

(** C6.  Every bet-placement run that returns a hex, and every redeeming
    run that returns one, has hashed the encoded batch with the fixed
    parameters and built the hex from (hash, value, gas, target, data,
    operation); the hash and the multisend data are embedded without
    their first two characters, which strips a "0x" prefix. *)
Theorem safe_tx_hash_fixed_parameters attempts :
  (forall log s hex log' s',
     BetPlacementBehaviour._prepare_safe_tx ledger params synchronized_data ids SAFE_GAS
       TX_HASH_LENGTH hash_payload_to_hex attempts log s = Returned hex log' s' ->
     hashed_with_fixed_parameters log' (BetPlacementBehaviour.multisend_batches s') hex) /\
  (forall log s hex log' s',
     RedeemBehaviour._prepare_safe_tx ledger params synchronized_data ids SAFE_GAS
       TX_HASH_LENGTH hash_payload_to_hex attempts log s = Returned (Some hex) log' s' ->
     hashed_with_fixed_parameters log' (RedeemBehaviour.multisend_batches s') hex) /\
  (forall x, drop2 (String.append "0x" x) = x).
Proof.
  split; [|split; [|exact drop2_0x]].
  - intros log s hex log' s' H.
    apply BetPlacementFacts.bet_prepare_safe_tx_returned in H. destruct H as [Hprep ->].
    destruct Hprep as (m1 & m2 & m3 & m4 & m5 & a & amount & b & d & decoded & h & E).
    cbv zeta in E.
    destruct E as (Hlog & Hs & _ & _ & _ & (_ & Hd & Hx) & (_ & Hh & Hlen)).
    match type of Hd with
    | body_data (body (ledger (List.length ?l + _)%nat ?r)) = _ =>
        set (log3 := l) in *; set (r4 := r) in *
    end.
    match type of Hh with
    | body_tx_hash (body (ledger _ ?r)) = _ => set (r5 := r) in *
    end.
    exists (log3 ++ repeat r4 m4), (repeat r5 m5), d, decoded, h. cbv zeta.
    assert (Hbatch : BetPlacementBehaviour.multisend_batches s' =
              BetPlacementBehaviour.multisend_batches
                (BetPlacementBehaviour.append_batch
                   (BetPlacementFacts.buy_entry synchronized_data b)
                   (BetPlacementBehaviour.set_buy_amount amount
                      (BetPlacementBehaviour.append_batch
                         (BetPlacementFacts.approval_entry synchronized_data a) s))))
      by (rewrite Hs; reflexivity).
    rewrite Hbatch.
    refine (conj _ (conj _ (conj Hx (conj _ (conj Hlen _))))).
    + rewrite Hlog, (repeat_S_snoc r4 m4), (repeat_S_snoc r5 m5), <- !app_assoc.
      reflexivity.
    + rewrite length_app, repeat_length. exact Hd.
    + change (body_tx_hash
                (body (ledger (List.length ((log3 ++ repeat r4 m4) ++ [r4] ++ repeat r5 m5))
                         r5)) = Some h).
      replace (List.length ((log3 ++ repeat r4 m4) ++ [r4] ++ repeat r5 m5))
        with (List.length (log3 ++ repeat r4 (S m4)) + m5)%nat.
      * exact Hh.
      * rewrite !length_app, !repeat_length. simpl List.length. lia.
    + rewrite Hs. reflexivity.
  - intros log s hex log' s' H.
    apply RedeemFacts._prepare_safe_tx_returned in H.
    destruct H as (found & logL & sL & _ & Hnone & Hsome).
    destruct found; [|destruct (Hnone eq_refl) as (Hr & _); discriminate].
    destruct (Hsome eq_refl) as [(m1 & m2 & d & decoded & h & E) Hhex].
    injection Hhex as ->. cbv zeta in E.
    destruct E as (Hlog & _ & Hd & Hx & _ & Hh & Hlen & Hs).
    match type of Hd with
    | body_data (body (ledger _ ?r)) = _ => set (r4 := r) in *
    end.
    match type of Hh with
    | body_tx_hash (body (ledger _ ?r)) = _ => set (r5 := r) in *
    end.
    exists (logL ++ repeat r4 m1), (repeat r5 m2), d, decoded, h. cbv zeta.
    assert (Hbatch : RedeemBehaviour.multisend_batches s' =
                     RedeemBehaviour.multisend_batches sL) by (rewrite Hs; reflexivity).
    rewrite Hbatch.
    refine (conj _ (conj _ (conj Hx (conj _ (conj Hlen _))))).
    + rewrite Hlog, (repeat_S_snoc r4 m1), (repeat_S_snoc r5 m2), <- !app_assoc.
      reflexivity.
    + rewrite length_app, repeat_length. exact Hd.
    + change (body_tx_hash
                (body (ledger (List.length ((logL ++ repeat r4 m1) ++ [r4] ++ repeat r5 m2))
                         r5)) = Some h).
      replace (List.length ((logL ++ repeat r4 m1) ++ [r4] ++ repeat r5 m2))
        with (List.length (logL ++ repeat r4 (S m1)) + m2)%nat.
      * exact Hh.
      * rewrite !length_app, !repeat_length. simpl List.length. lia.
    + rewrite Hs. reflexivity.
Qed.

(** C10.  Both behaviours call [MultisigTxPayload] positionally.  Bet
    placement passes two arguments, the agent address and the payload
    hex (None without sufficient balance), and no submitter; redeeming
    passes three, the agent address, the submitter and the payload hex,
    the submitter being set exactly when the hex is.  The second
    position thus holds the hex in one call and the submitter in the
    other. *)
Theorem payload_positional_arguments attempts :
  (forall log s payload log' s',
     BetPlacementBehaviour.async_act ledger params synchronized_data agent_address ids
       SAFE_GAS TX_HASH_LENGTH hash_payload_to_hex attempts log s
       = Returned payload log' s' ->
     payload_class payload = "MultisigTxPayload" /\
     exists betting_tx_hex,
       payload_args payload = [Some agent_address; betting_tx_hex] /\
       (betting_tx_hex = None \/
        betting_tx_hex =
          Some (BetPlacementFacts.tx_hex params SAFE_GAS hash_payload_to_hex s'))) /\
  (forall log s payload log' s',
     RedeemBehaviour.async_act ledger params synchronized_data agent_address ids
       SAFE_GAS TX_HASH_LENGTH hash_payload_to_hex RedeemRound_auto_round_id attempts log s
       = Returned payload log' s' ->
     payload_class payload = "MultisigTxPayload" /\
     exists tx_submitter redeem_tx_hex,
       payload_args payload = [Some agent_address; tx_submitter; redeem_tx_hex] /\
       (tx_submitter <> None <-> redeem_tx_hex <> None) /\
       (tx_submitter = None \/ tx_submitter = Some RedeemRound_auto_round_id) /\
       (redeem_tx_hex = None \/
        redeem_tx_hex =
          Some (RedeemBehaviour.tx_hex params SAFE_GAS hash_payload_to_hex s'))).
Proof.
  split.
  - intros log s payload log' s' H.
    apply BetPlacementFacts.bet_async_act_returned in H.
    destruct H as (m & b & _ & _ & [(_ & _ & _ & ->) | (_ & _ & ->)]);
      (split; [reflexivity|]); eexists; (split; [reflexivity|]); auto.
  - intros log s payload log' s' H.
    apply RedeemFacts.async_act_returned in H.
    destruct H as (s0 & log1 & s1 & r & _ & _ & Hprep & ->).
    split; [reflexivity|].
    apply RedeemFacts._prepare_safe_tx_returned in Hprep.
    destruct Hprep as (found & logL & sL & _ & Hnone & Hsome).
    eexists. eexists. split; [reflexivity|].
    destruct found.
    + destruct (Hsome eq_refl) as [_ ->].
      split; [split; intros _; discriminate|]. auto.
    + destruct (Hnone eq_refl) as (-> & _).
      split; [split; intros Hn; exact Hn|]. auto.
Qed.

(** [retried_on_failure step I request key]: from a state in [I], when
    the answer to the step's request is of the wrong kind or lacks the
    field [key], the step returns false with the instance fields
    untouched, and the controller invokes it again. *)
Definition retried_on_failure {S X} (step : M S bool) (I : S -> Prop)
    (request : S -> Request) (key : Body -> option X) : Prop :=
  forall log s, I s ->
    failed_answer (expected_performative (req_performative (request s))) key
      (ledger (List.length log) (request s)) ->
    step log s = Returned false (log ++ [request s]) s /\
    forall attempts,
      wait_for_condition_with_sleep (Datatypes.S attempts) step log s =
      wait_for_condition_with_sleep attempts step (log ++ [request s]) s.

Lemma polls_retried {S X} (step : M S bool) (I : S -> Prop) (request : S -> Request)
    (expected : Performative) (key : Body -> option X) (k : X -> S -> Verdict S) :
  polls ledger step I request (on_field expected key k) ->
  (forall s, expected_performative (req_performative (request s)) = expected) ->
  retried_on_failure step I request key.
Proof.
  intros Hpolls Hexp log s HI Hfail. rewrite Hexp in Hfail.
  assert (Hstep : step log s = Returned false (log ++ [request s]) s).
  { rewrite (Hpolls log s HI), (on_field_failed _ _ _ _ _ Hfail). reflexivity. }
  split; [exact Hstep|].
  intros attempts. simpl. unfold bind. rewrite Hstep. reflexivity.
Qed.

(** C3 (as amended).  Every contract-call step of the two workflows
    returns false, with the instance fields untouched, when its answer
    is of the wrong kind or lacks the expected field, and is then
    invoked again by the controller.  The block-index lookup step is
    different: [_get_block_number] returns true whenever it returns, and
    when the lookup did not end with SUCCESS it leaves the from-block as
    it was. *)
Theorem contract_steps_retried_block_lookup_not :
  (retried_on_failure (BetPlacementBehaviour._check_balance ledger synchronized_data ids)
     BetPlacementFacts.always
     (fun _ => BetPlacementBehaviour.check_balance_request synchronized_data ids)
     body_balance /\
   retried_on_failure
     (BetPlacementBehaviour._build_approval_tx ledger params synchronized_data ids)
     BetPlacementFacts.always
     (fun _ => BetPlacementBehaviour.build_approval_request params synchronized_data ids)
     body_data /\
   retried_on_failure
     (BetPlacementBehaviour._calc_buy_amount ledger params synchronized_data ids)
     BetPlacementFacts.always
     (fun _ => BetPlacementBehaviour.calc_buy_amount_request params synchronized_data ids)
     body_amount /\
   retried_on_failure
     (BetPlacementBehaviour._build_buy_tx ledger params synchronized_data ids)
     BetPlacementFacts.always
     (BetPlacementBehaviour.get_buy_data_request params synchronized_data ids)
     body_data /\
   retried_on_failure (BetPlacementBehaviour._build_multisend_data ledger params ids)
     BetPlacementFacts.always
     (BetPlacementBehaviour.get_tx_data_request params ids)
     body_data /\
   retried_on_failure
     (BetPlacementBehaviour._build_safe_tx_hash ledger params synchronized_data ids
        SAFE_GAS TX_HASH_LENGTH)
     BetPlacementFacts.always
     (BetPlacementBehaviour.get_raw_safe_transaction_hash_request params synchronized_data
        ids SAFE_GAS)
     body_tx_hash) /\
  (retried_on_failure
     (RedeemBehaviour._check_already_redeemed ledger params synchronized_data ids)
     RedeemFacts.always
     (RedeemFacts.check_redeemed_request params synchronized_data ids)
     body_payouts /\
   retried_on_failure (RedeemBehaviour._build_multisend_data ledger params ids)
     RedeemFacts.always
     (RedeemBehaviour.get_tx_data_request params ids)
     body_data /\
   retried_on_failure
     (RedeemBehaviour._build_multisend_safe_tx_hash ledger params synchronized_data ids
        SAFE_GAS TX_HASH_LENGTH)
     RedeemFacts.always
     (RedeemBehaviour.get_raw_safe_transaction_hash_request params synchronized_data
        ids SAFE_GAS)
     body_tx_hash /\
   forall c,
     retried_on_failure (RedeemBehaviour._check_already_resolved ledger params ids)
       (RedeemFacts.has_current c)
       (fun _ => RedeemFacts.check_resolved_request params ids c)
       body_resolved /\
     retried_on_failure (RedeemBehaviour._build_resolve_data ledger params ids)
       (RedeemFacts.has_current c)
       (fun _ => RedeemFacts.build_resolve_request params ids c)
       body_data /\
     retried_on_failure (RedeemBehaviour._build_claim_data ledger params ids)
       (RedeemFacts.has_current c)
       (RedeemFacts.build_claim_request params ids c)
       body_data /\
     retried_on_failure (RedeemBehaviour._build_redeem_data ledger params ids)
       (RedeemFacts.has_current c)
       (fun _ => RedeemFacts.build_redeem_request params ids c)
       body_data) /\
  (forall attempts log s b log' s',
     RedeemBehaviour._get_block_number int attempts log s = Returned b log' s' ->
     b = true /\
     (RedeemBehaviour._fetch_status s' <> SUCCESS ->
      RedeemBehaviour._from_block s' = RedeemBehaviour._from_block s)).
Proof.
  split; [|split].
  - repeat match goal with |- _ /\ _ => split end.
    + exact (polls_retried _ _ _ _ _ _
               (BetPlacementFacts._check_balance_polls ledger synchronized_data ids)
               (fun _ => eq_refl)).
    + exact (polls_retried _ _ _ _ _ _
               (BetPlacementFacts._build_approval_tx_polls ledger params synchronized_data ids)
               (fun _ => eq_refl)).
    + exact (polls_retried _ _ _ _ _ _
               (BetPlacementFacts._calc_buy_amount_polls ledger params synchronized_data ids)
               (fun _ => eq_refl)).
    + exact (polls_retried _ _ _ _ _ _
               (BetPlacementFacts._build_buy_tx_polls ledger params synchronized_data ids)
               (fun _ => eq_refl)).
    + exact (polls_retried _ _ _ _ _ _
               (BetPlacementFacts.bet_build_multisend_data_polls ledger params ids)
               (fun _ => eq_refl)).
    + exact (polls_retried _ _ _ _ _ _
               (BetPlacementFacts._build_safe_tx_hash_polls ledger params synchronized_data
                  ids SAFE_GAS TX_HASH_LENGTH)
               (fun _ => eq_refl)).
  - split; [|split; [|split]].
    + exact (polls_retried _ _ _ _ _ _
               (RedeemFacts._check_already_redeemed_polls ledger params synchronized_data ids)
               (fun _ => eq_refl)).
    + exact (polls_retried _ _ _ _ _ _
               (RedeemFacts._build_multisend_data_polls ledger params ids)
               (fun _ => eq_refl)).
    + exact (polls_retried _ _ _ _ _ _
               (RedeemFacts._build_multisend_safe_tx_hash_polls ledger params
                  synchronized_data ids SAFE_GAS TX_HASH_LENGTH)
               (fun _ => eq_refl)).
    + intros c. repeat match goal with |- _ /\ _ => split end.
      * exact (polls_retried _ _ _ _ _ _
                 (RedeemFacts._check_already_resolved_polls ledger params ids c)
                 (fun _ => eq_refl)).
      * exact (polls_retried _ _ _ _ _ _
                 (RedeemFacts._build_resolve_data_polls ledger params ids c)
                 (fun _ => eq_refl)).
      * exact (polls_retried _ _ _ _ _ _
                 (RedeemFacts._build_claim_data_polls ledger params ids c)
                 (fun _ => eq_refl)).
      * exact (polls_retried _ _ _ _ _ _
                 (RedeemFacts._build_redeem_data_polls ledger params ids c)
                 (fun _ => eq_refl)).
  - intros attempts log s b log' s' H.
    destruct (RedeemFacts._get_block_number_returned _ _ _ _ _ _ _ H) as (Hb & _ & _ & Hfrom).
    split; assumption.
Qed.

(** C9.  Two returned runs of [_prepare_safe_tx] on the same candidates,
    the same batch so far and the same from-block, against the same
    ledger from the same point, return the same hex (or both None) and
    end with the same batch, whatever else the instance fields held and
    however many attempts each run was allowed.  The same holds for two
    runs of the whole act that also agree on the state of the
    trade-history source: they hand over the same payload. *)
Theorem redeem_rerun_same_batch_and_hash :
  (forall n1 n2 log1 log2 s1 s2 r1 log1' s1' r2 log2' s2',
     List.length log1 = List.length log2 ->
     RedeemBehaviour._redeem_info s1 = RedeemBehaviour._redeem_info s2 ->
     RedeemBehaviour.multisend_batches s1 = RedeemBehaviour.multisend_batches s2 ->
     RedeemBehaviour._from_block s1 = RedeemBehaviour._from_block s2 ->
     RedeemBehaviour._prepare_safe_tx ledger params synchronized_data ids SAFE_GAS
       TX_HASH_LENGTH hash_payload_to_hex n1 log1 s1 = Returned r1 log1' s1' ->
     RedeemBehaviour._prepare_safe_tx ledger params synchronized_data ids SAFE_GAS
       TX_HASH_LENGTH hash_payload_to_hex n2 log2 s2 = Returned r2 log2' s2' ->
     r1 = r2 /\
     RedeemBehaviour.multisend_batches s1' = RedeemBehaviour.multisend_batches s2') /\
  (forall n1 n2 log1 log2 s1 s2 p1 log1' s1' p2 log2' s2',
     List.length log1 = List.length log2 ->
     RedeemBehaviour._redeem_info s1 = RedeemBehaviour._redeem_info s2 ->
     RedeemBehaviour.multisend_batches s1 = RedeemBehaviour.multisend_batches s2 ->
     RedeemBehaviour._from_block s1 = RedeemBehaviour._from_block s2 ->
     RedeemBehaviour._fetch_status s1 = RedeemBehaviour._fetch_status s2 ->
     RedeemBehaviour.pending_pages s1 = RedeemBehaviour.pending_pages s2 ->
     RedeemBehaviour.async_act ledger params synchronized_data agent_address ids SAFE_GAS
       TX_HASH_LENGTH hash_payload_to_hex RedeemRound_auto_round_id n1 log1 s1
       = Returned p1 log1' s1' ->
     RedeemBehaviour.async_act ledger params synchronized_data agent_address ids SAFE_GAS
       TX_HASH_LENGTH hash_payload_to_hex RedeemRound_auto_round_id n2 log2 s2
       = Returned p2 log2' s2' ->
     p1 = p2 /\
     RedeemBehaviour.multisend_batches s1' = RedeemBehaviour.multisend_batches s2').
Proof.
  split.
  - intros n1 n2 log1 log2 s1 s2 r1 log1' s1' r2 log2' s2' Hlen Hc Hb Hf H1 H2.
    destruct (RedeemFacts._prepare_safe_tx_rel _ _ _ _ _ _ _ _ _ _ _ _ _ _ _ _ _ _ _
                Hlen (conj Hc (conj Hb Hf)) H1 H2) as (Hr & _ & (_ & Hb' & _)).
    split; assumption.
  - intros n1 n2 log1 log2 s1 s2 p1 log1' s1' p2 log2' s2' Hlen Hc Hb Hf Hst Hp H1 H2.
    exact (RedeemFacts.async_act_rel _ _ _ _ _ _ _ _ _ _ _ _ _ _ _ _ _ _ _ _ _
             Hlen (conj (conj Hc (conj Hb Hf)) (conj Hst Hp)) H1 H2).
Qed.

End Claims.

(** * The composer on the concrete deployment *)

Lemma flaky_ledger_responsive balance payouts resolved :
  responsive Demo.TX_HASH_LENGTH (Demo.flaky_ledger balance payouts resolved) 2.
Proof.
  intros n.
  assert (Hgood : forall m, Nat.even m = false ->
            forall req, answers_well Demo.TX_HASH_LENGTH
                          (Demo.flaky_ledger balance payouts resolved m req) req).
  { intros m Hm req. unfold answers_well, Demo.flaky_ledger, Demo.answer. rewrite Hm.
    split; [reflexivity|].
    destruct (answered_key (req_contract_callable req)); simpl; eauto. }
  destruct (Nat.even n) eqn:Hn.
  - exists 1%nat. split; [lia|]. apply Hgood.
    rewrite Nat.add_1_r, Nat.even_succ, <- Nat.negb_even, Hn. reflexivity.
  - exists 0%nat. split; [lia|]. apply Hgood. rewrite Nat.add_0_r. exact Hn.
Qed.

Lemma flaky_ledger_in_hex balance payouts resolved :
  answers_in_hex (Demo.flaky_ledger balance payouts resolved).
Proof.
  intros n req d _ Hd. unfold Demo.flaky_ledger in Hd.
  destruct (Nat.even n); simpl in Hd; [discriminate Hd|].
  injection Hd as <-. destruct (String.eqb _ _); [eexists|]; reflexivity.
Qed.

(** C2, on the code: with a cap of two entries and two eligible
    candidates whose markets are not resolved, the batch holds three
    entries after the first candidate; three is not two, so the loop goes
    on, and the run ends with six entries. *)
Theorem batch_cap_stepped_over :
  exists hex log' s',
    Demo.redeem_prepare (Demo.ledger 0 ∅ false) 1 []
      (Demo.redeeming [Demo.winner_a; Demo.winner_b]) = Returned (Some hex) log' s' /\
    redeeming_batch_size (Demo.params 2) = 2%nat /\
    List.length (RedeemBehaviour.multisend_batches s') = 6%nat.
Proof.
  do 3 eexists. split; [vm_compute; reflexivity|]. split; reflexivity.
Qed.

(** C1, as stated, fails when a payout of zero is recorded: the trade
    "0xb" has no strictly positive payout, and the filter removes it. *)
Lemma zero_payout_candidate_removed :
  let P : gmap string Z := <["0xa" := 5%Z]> (<["0xb" := 0%Z]> ∅) in
  let s := Demo.redeeming [Demo.winner_a; Demo.winner_b] in
  let s' := RedeemBehaviour.set_redeem_info [] (RedeemBehaviour.set_payouts P s) in
  Demo.clean (Demo.ledger 0 P false) 1 [] s
    = Returned tt [RedeemFacts.check_redeemed_request (Demo.params 2)
                     Demo.synchronized_data Demo.ids s] s' /\
  ~ (forall c,
       In c (RedeemBehaviour._redeem_info s') <->
       In c (RedeemBehaviour._redeem_info s) /\
       ~ positive_payout (RedeemBehaviour._payouts s') c).
Proof.
  intros P s s'. split; [vm_compute; reflexivity|].
  intros H. destruct (H Demo.winner_b) as [_ Hkeep].
  apply Hkeep. split; [right; left; reflexivity|].
  intros (v & Hv & Hpos). vm_compute in Hv. injection Hv as <-. lia.
Qed.

(** C3, as stated, fails on the block-index lookup: the lookup ends with
    status FAIL, and [_get_block_number] returns true with the default
    from-block in place. *)
Lemma block_lookup_failure_reported_as_success :
  let s := RedeemBehaviour.set_current_redeem_info (Some Demo.winner_a)
             (RedeemBehaviour.__init__ [] [mkBlockAnswer None FAIL]) in
  exists s',
    RedeemBehaviour._get_block_number Demo.int 1 [] s = Returned true [] s' /\
    RedeemBehaviour._fetch_status s' = FAIL /\
    RedeemBehaviour._from_block s' = VStr DEFAULT_FROM_BLOCK.
Proof.
  intros s. eexists. split; [vm_compute; reflexivity|]. split; reflexivity.
Qed.

(** ** The theorems at concrete runs *)

(** The filter on a ledger that fails the first lookup: the lookup is
    retried, and the trade "0xa", paid out already, is removed. *)
Lemma clean_redeem_info_filter_witness :
  let P : gmap string Z := {["0xa" := 5%Z]} in
  let s := Demo.redeeming [Demo.winner_a; Demo.winner_b] in
  exists log' s',
    Demo.clean (Demo.flaky_ledger 0 P false) 2 [] s = Returned tt log' s' /\
    RedeemBehaviour._redeem_info s' = [Demo.winner_b] /\
    (forall h v, RedeemBehaviour._payouts s' !! h = Some v -> (0 < v)%Z) /\
    (forall c,
       In c (RedeemBehaviour._redeem_info s') <->
       In c (RedeemBehaviour._redeem_info s) /\
       ~ positive_payout (RedeemBehaviour._payouts s') c).
Proof.
  intros P s.
  exists [RedeemFacts.check_redeemed_request (Demo.params 2) Demo.synchronized_data Demo.ids s;
          RedeemFacts.check_redeemed_request (Demo.params 2) Demo.synchronized_data Demo.ids s].
  exists (RedeemBehaviour.set_redeem_info [Demo.winner_b] (RedeemBehaviour.set_payouts P s)).
  assert (Hrun : Demo.clean (Demo.flaky_ledger 0 P false) 2 [] s =
                 Returned tt
                   [RedeemFacts.check_redeemed_request (Demo.params 2)
                      Demo.synchronized_data Demo.ids s;
                    RedeemFacts.check_redeemed_request (Demo.params 2)
                      Demo.synchronized_data Demo.ids s]
                   (RedeemBehaviour.set_redeem_info [Demo.winner_b]
                      (RedeemBehaviour.set_payouts P s)))
    by (vm_compute; reflexivity).
  assert (Hall : forall h v, P !! h = Some v -> (0 < v)%Z).
  { intros h v Hv. apply lookup_singleton_Some in Hv. destruct Hv as [_ <-]. lia. }
  split; [exact Hrun|]. split; [reflexivity|]. split; [exact Hall|].
  exact (proj2 (clean_redeem_info_filter _ _ _ _ _ _ _ _ _ Hrun) Hall).
Defined.


(** Balance 100, investment 150: nothing is built. *)
Lemma no_eligible_call_no_hash_witness :
  exists payload log' s',
    Demo.bet_act (Demo.ledger 100 ∅ false) 1 [] BetPlacementBehaviour.__init__
      = Returned payload log' s' /\
    (BetPlacementBehaviour.balance s' <
       BetPlacementBehaviour.investment_amount (Demo.params 2) Demo.synchronized_data)%Z /\
    payload = MultisigTxPayload [Some Demo.agent_address; None] /\
    BetPlacementBehaviour.multisend_batches s' = [].
Proof.
  do 3 eexists.
  assert (Hrun : Demo.bet_act (Demo.ledger 100 ∅ false) 1 [] BetPlacementBehaviour.__init__
                 = Returned (MultisigTxPayload [Some Demo.agent_address; None])
                     [BetPlacementBehaviour.check_balance_request Demo.synchronized_data
                        Demo.ids]
                     (BetPlacementBehaviour.set_balance 100 BetPlacementBehaviour.__init__))
    by (vm_compute; reflexivity).
  assert (Hlow : (BetPlacementBehaviour.balance
                    (BetPlacementBehaviour.set_balance 100 BetPlacementBehaviour.__init__) <
                  BetPlacementBehaviour.investment_amount (Demo.params 2)
                    Demo.synchronized_data)%Z)
    by (vm_compute; reflexivity).
  split; [exact Hrun|]. split; [exact Hlow|].
  destruct (proj1 (no_eligible_call_no_hash (Demo.ledger 100 ∅ false) (Demo.params 2)
                     Demo.synchronized_data Demo.agent_address Demo.ids Demo.SAFE_GAS
                     Demo.TX_HASH_LENGTH Demo.hash_payload_to_hex
                     Demo.RedeemRound_auto_round_id 1)
              _ _ _ _ _ Hrun Hlow) as (Hp & _ & Hb & _).
  split; [exact Hp | exact Hb].
Defined.

(** Discovery that ends with FAIL: nothing is redeemed. *)
Lemma failed_discovery_redeems_nothing_witness :
  let s := RedeemBehaviour.__init__ [mkPage (Some [Demo.winner_a]) FAIL] [] in
  exists s0,
    RedeemBehaviour._get_redeem_info [] s = Returned tt [] s0 /\
    RedeemBehaviour._fetch_status s0 <> SUCCESS /\
    RedeemBehaviour._redeem_info s0 = [] /\
    (exists payload log' s',
       Demo.redeem_act (Demo.flaky_ledger 0 ∅ false) 2 [] s = Returned payload log' s').
Proof.
  intros s. eexists.
  assert (Hget : RedeemBehaviour._get_redeem_info [] s =
                 Returned tt []
                   (RedeemBehaviour.set_redeem_info []
                      (RedeemBehaviour.set_redeem_info [Demo.winner_a]
                         (RedeemBehaviour.set_fetch_status FAIL
                            (RedeemBehaviour.set_pending_pages [] s)))))
    by (vm_compute; reflexivity).
  assert (Hfail : RedeemBehaviour._fetch_status
                    (RedeemBehaviour.set_redeem_info []
                       (RedeemBehaviour.set_redeem_info [Demo.winner_a]
                          (RedeemBehaviour.set_fetch_status FAIL
                             (RedeemBehaviour.set_pending_pages [] s)))) <> SUCCESS)
    by discriminate.
  destruct (failed_discovery_redeems_nothing (Demo.flaky_ledger 0 ∅ false) (Demo.params 2)
              Demo.synchronized_data Demo.agent_address Demo.ids Demo.SAFE_GAS
              Demo.TX_HASH_LENGTH Demo.hash_payload_to_hex Demo.RedeemRound_auto_round_id
              [] s _ Hget Hfail) as (Hempty & _ & Hreturns).
  split; [exact Hget|]. split; [exact Hfail|]. split; [exact Hempty|].
  exact (Hreturns Demo.TX_HASH_LENGTH 2%nat 2%nat (flaky_ledger_responsive 0 ∅ false)
           (le_n 2)).
Defined.

(** Balance 200, investment 150: approve, then buy. *)
Lemma batch_entries_in_order_witness :
  exists hex log' s',
    Demo.bet_prepare (Demo.ledger 200 ∅ false) 1 [] BetPlacementBehaviour.__init__
      = Returned hex log' s' /\
    exists a b,
      BetPlacementBehaviour.multisend_batches s' =
        BetPlacementBehaviour.multisend_batches BetPlacementBehaviour.__init__ ++
        [BetPlacementFacts.approval_entry Demo.synchronized_data a;
         BetPlacementFacts.buy_entry Demo.synchronized_data b].
Proof.
  destruct (Demo.bet_prepare (Demo.ledger 200 ∅ false) 1 [] BetPlacementBehaviour.__init__)
    as [hex log' s'| |e] eqn:Hrun.
  - exists hex, log', s'. split; [reflexivity|].
    destruct (proj1 (batch_entries_in_order (Demo.ledger 200 ∅ false) (Demo.params 2)
                       Demo.synchronized_data Demo.ids Demo.SAFE_GAS Demo.TX_HASH_LENGTH
                       Demo.hash_payload_to_hex 1) _ _ _ _ _ Hrun)
      as (a & b & pre & mid & post & buy_request & _ & _ & _ & _ & Hbatch).
    exists a, b. exact Hbatch.
  - vm_compute in Hrun. discriminate Hrun.
  - vm_compute in Hrun. discriminate Hrun.
Defined.

(** The bet-placement hash is taken with the fixed parameters. *)
Lemma safe_tx_hash_fixed_parameters_witness :
  exists hex log' s',
    Demo.bet_prepare (Demo.flaky_ledger 200 ∅ false) 2 [] BetPlacementBehaviour.__init__
      = Returned hex log' s' /\
    hashed_with_fixed_parameters (Demo.flaky_ledger 200 ∅ false) (Demo.params 2)
      Demo.synchronized_data Demo.ids Demo.SAFE_GAS Demo.TX_HASH_LENGTH
      Demo.hash_payload_to_hex log' (BetPlacementBehaviour.multisend_batches s') hex.
Proof.
  destruct (Demo.bet_prepare (Demo.flaky_ledger 200 ∅ false) 2 []
              BetPlacementBehaviour.__init__) as [hex log' s'| |e] eqn:Hrun.
  - exists hex, log', s'. split; [reflexivity|].
    exact (proj1 (safe_tx_hash_fixed_parameters (Demo.flaky_ledger 200 ∅ false)
                    (Demo.params 2) Demo.synchronized_data Demo.ids Demo.SAFE_GAS
                    Demo.TX_HASH_LENGTH Demo.hash_payload_to_hex 2) _ _ _ _ _ Hrun).
  - vm_compute in Hrun. discriminate Hrun.
  - vm_compute in Hrun. discriminate Hrun.
Defined.

(** The redeeming act with one winning trade: three arguments, submitter
    and hex both set. *)
Lemma payload_positional_arguments_witness :
  exists payload log' s',
    Demo.redeem_act (Demo.ledger 0 ∅ true) 1 []
      (RedeemBehaviour.__init__ [mkPage (Some [Demo.winner_a]) SUCCESS] [])
      = Returned payload log' s' /\
    exists tx_submitter redeem_tx_hex,
      payload_args payload = [Some Demo.agent_address; tx_submitter; redeem_tx_hex] /\
      (tx_submitter <> None <-> redeem_tx_hex <> None).
Proof.
  destruct (Demo.redeem_act (Demo.ledger 0 ∅ true) 1 []
              (RedeemBehaviour.__init__ [mkPage (Some [Demo.winner_a]) SUCCESS] []))
    as [payload log' s'| |e] eqn:Hrun.
  - exists payload, log', s'. split; [reflexivity|].
    destruct (proj2 (payload_positional_arguments (Demo.ledger 0 ∅ true) (Demo.params 2)
                       Demo.synchronized_data Demo.agent_address Demo.ids Demo.SAFE_GAS
                       Demo.TX_HASH_LENGTH Demo.hash_payload_to_hex
                       Demo.RedeemRound_auto_round_id 1) _ _ _ _ _ Hrun)
      as (_ & sub & hex & Hargs & Hiff & _).
    exists sub, hex. split; [exact Hargs | exact Hiff].
  - vm_compute in Hrun. discriminate Hrun.
  - vm_compute in Hrun. discriminate Hrun.
Defined.

(** A balance check that is answered with an error returns false and is
    retried; the block lookup that ends with FAIL returns true. *)
Lemma contract_steps_retried_block_lookup_not_witness :
  let request := BetPlacementBehaviour.check_balance_request Demo.synchronized_data Demo.ids in
  let s := RedeemBehaviour.set_current_redeem_info (Some Demo.winner_a)
             (RedeemBehaviour.__init__ [] [mkBlockAnswer None FAIL]) in
  failed_answer (expected_performative (req_performative request)) body_balance
    (Demo.flaky_ledger 200 ∅ false 0%nat request) /\
  BetPlacementBehaviour._check_balance (Demo.flaky_ledger 200 ∅ false)
    Demo.synchronized_data Demo.ids [] BetPlacementBehaviour.__init__
    = Returned false [request] BetPlacementBehaviour.__init__ /\
  exists b s',
    RedeemBehaviour._get_block_number Demo.int 1 [] s = Returned b [] s' /\
    RedeemBehaviour._fetch_status s' <> SUCCESS /\
    b = true /\
    RedeemBehaviour._from_block s' = RedeemBehaviour._from_block s.
Proof.
  intros request s.
  pose proof (contract_steps_retried_block_lookup_not (Demo.flaky_ledger 200 ∅ false)
                (Demo.params 2) Demo.synchronized_data Demo.ids Demo.SAFE_GAS
                Demo.TX_HASH_LENGTH Demo.int) as ((Hbalance & _) & _ & Hblock).
  assert (Hfail : failed_answer (expected_performative (req_performative request))
                    body_balance (Demo.flaky_ledger 200 ∅ false 0%nat request))
    by (left; discriminate).
  split; [exact Hfail|]. split.
  - exact (proj1 (Hbalance [] BetPlacementBehaviour.__init__ Logic.I Hfail)).
  - destruct (RedeemBehaviour._get_block_number Demo.int 1 [] s) as [b log' s'| |e] eqn:Hrun.
    + assert (Hlog : log' = []) by (vm_compute in Hrun; congruence).
      subst log'. exists b, s'. split; [reflexivity|].
      assert (Hst : RedeemBehaviour._fetch_status s' <> SUCCESS)
        by (vm_compute in Hrun; injection Hrun as _ <-; discriminate).
      split; [exact Hst|].
      destruct (Hblock _ _ _ _ _ _ Hrun) as (Hb & Hfrom).
      split; [exact Hb | exact (Hfrom Hst)].
    + vm_compute in Hrun. discriminate Hrun.
    + vm_compute in Hrun. discriminate Hrun.
Defined.

(** Two runs on the same two winning trades: one fresh and followed for
    three attempts on the flaky ledger, one with left-over values in its
    scratch fields and followed for nine.  Same hex, same batch. *)
Lemma redeem_rerun_same_batch_and_hash_witness :
  let s1 := Demo.redeeming [Demo.winner_a; Demo.dust; Demo.winner_b] in
  let s2 := RedeemBehaviour.set_expected_winnings 99
              (RedeemBehaviour.set_already_resolved true
                 (RedeemBehaviour.set_safe_tx_hash "stale"
                    (RedeemBehaviour.set_current_redeem_info (Some Demo.loser) s1))) in
  exists r1 log1' s1' r2 log2' s2',
    Demo.redeem_prepare (Demo.flaky_ledger 0 ∅ false) 3 [] s1 = Returned r1 log1' s1' /\
    Demo.redeem_prepare (Demo.flaky_ledger 0 ∅ false) 9 [] s2 = Returned r2 log2' s2' /\
    r1 = r2 /\
    RedeemBehaviour.multisend_batches s1' = RedeemBehaviour.multisend_batches s2'.
Proof.
  intros s1 s2.
  eassert (Hrun1 : Demo.redeem_prepare (Demo.flaky_ledger 0 ∅ false) 3 [] s1
                   = Returned _ _ _) by (vm_compute; reflexivity).
  eassert (Hrun2 : Demo.redeem_prepare (Demo.flaky_ledger 0 ∅ false) 9 [] s2
                   = Returned _ _ _) by (vm_compute; reflexivity).
  do 6 eexists. split; [exact Hrun1|]. split; [exact Hrun2|].
  exact (proj1 (redeem_rerun_same_batch_and_hash (Demo.flaky_ledger 0 ∅ false)
                  (Demo.params 2) Demo.synchronized_data Demo.agent_address Demo.ids
                  Demo.SAFE_GAS Demo.TX_HASH_LENGTH Demo.hash_payload_to_hex
                  Demo.RedeemRound_auto_round_id)
           3%nat 9%nat [] [] s1 s2 _ _ _ _ _ _
           eq_refl eq_refl eq_refl eq_refl Hrun1 Hrun2).
Defined.

(** * Further properties of the two behaviours *)

(** A group of calls of one candidate has two or three entries. *)
Lemma candidate_calls_length params (seg : list MultisendBatch) :
  RedeemFacts.is_candidate_calls params seg ->
  (2 <= List.length seg <= 3)%nat.
Proof.
  intros (resolved & d1 & d2 & d3 & ->). unfold RedeemFacts.candidate_calls.
  destruct resolved; simpl; lia.
Qed.

Lemma groups_length params (cs : list RedeemInfo) (segs : list (list MultisendBatch)) :
  Forall2 (fun (_ : RedeemInfo) seg => RedeemFacts.is_candidate_calls params seg) cs segs ->
  (2 * List.length cs <= List.length (concat segs) <= 3 * List.length cs)%nat.
Proof.
  induction 1 as [|c seg cs segs Hseg _ IH]; simpl; [lia|].
  apply candidate_calls_length in Hseg. rewrite length_app. lia.
Qed.

Lemma existsb_filter_nil {A} (f : A -> bool) (l : list A) :
  existsb f l = false <-> List.filter f l = [].
Proof.
  induction l as [|a l IH]; simpl; [split; reflexivity|].
  destruct (f a); simpl; [split; discriminate | exact IH].
Qed.

Section More.

Variable ledger : Ledger.
Variable params : Params.
Variable synchronized_data : SynchronizedData.
Variable agent_address : string.
Variable ids : ContractIds.
Variable SAFE_GAS : Z.
Variable TX_HASH_LENGTH : nat.
Variable hash_payload_to_hex : string -> Z -> Z -> string -> bytes -> Z -> string.
Variable RedeemRound_auto_round_id : string.
Variable int : string -> option Z.

(** ** The candidate loop of [_prepare_safe_tx] *)

(** The eligible ones among the first [n] candidates. *)
Definition processed (n : nat) (s : RedeemBehaviour.State) : list RedeemInfo :=
  List.filter (RedeemFacts.eligible params) (firstn n (RedeemBehaviour._redeem_info s)).

(** A loop that reports no winnings met no eligible candidate: the test
    on the batch size is only reached after an eligible one. *)
Lemma _prepare_safe_tx_loop_no_winnings attempts cands :
  forall log s log' s',
  RedeemBehaviour._prepare_safe_tx_loop ledger params ids attempts cands false log s
    = Returned false log' s' ->
  Forall (fun c => RedeemFacts.eligible params c = false) cands.
Proof.
  induction cands as [|c rest IH]; intros log s log' s' H; [constructor|].
  simpl in H. destruct (RedeemFacts.eligible params c) eqn:He.
  - exfalso. bind_inv H log1 s1 R1.
    destruct (RedeemFacts._process_candidate_advanced _ _ _ _ _ _ _ _ _ _ He R1) as (-> & _).
    simpl in H. bind_inv H logx sx Rx. ret_inv Rx.
    match type of H with context [Nat.eqb ?a ?b] => destruct (Nat.eqb a b) end.
    + unfold ret in H. discriminate H.
    + apply RedeemFacts._prepare_safe_tx_loop_returned in H.
      destruct H as (n & segs & ext & _ & _ & _ & Hfound & _). discriminate Hfound.
  - unfold bind at 1 in H. rewrite (RedeemFacts._process_candidate_skip _ _ _ _ _ _ _ He) in H.
    simpl in H. constructor; [exact He | exact (IH _ _ _ _ H)].
Qed.

(** What a returned [_prepare_safe_tx] did to the candidates: it went
    through the first [n] of them. *)
Lemma _prepare_safe_tx_processed attempts log s r log' s' :
  RedeemBehaviour._prepare_safe_tx ledger params synchronized_data ids SAFE_GAS
    TX_HASH_LENGTH hash_payload_to_hex attempts log s = Returned r log' s' ->
  exists n segs,
    (n <= List.length (RedeemBehaviour._redeem_info s))%nat /\
    Forall2 (fun (_ : RedeemInfo) seg => RedeemFacts.is_candidate_calls params seg)
      (processed n s) segs /\
    RedeemBehaviour.multisend_batches s' = RedeemBehaviour.multisend_batches s ++ concat segs /\
    RedeemBehaviour._expected_winnings s' =
      (RedeemBehaviour._expected_winnings s + RedeemFacts.total_claimable (processed n s))%Z /\
    (r = None <-> processed n s = []) /\
    (n = List.length (RedeemBehaviour._redeem_info s) \/
     List.length (RedeemBehaviour.multisend_batches s') = redeeming_batch_size params).
Proof.
  intros H. apply RedeemFacts._prepare_safe_tx_returned in H.
  destruct H as (found & logL & sL & Hloop & Hnone & Hsome).
  apply RedeemFacts._prepare_safe_tx_loop_returned in Hloop.
  destruct Hloop as (n & segs & ext & Hn & Hsegs & (B & W & _) & Hfound & _ & _ & Hstop).
  simpl in Hfound.
  assert (Hsame : RedeemBehaviour.multisend_batches s' = RedeemBehaviour.multisend_batches sL /\
                  RedeemBehaviour._expected_winnings s' = RedeemBehaviour._expected_winnings sL /\
                  (r = None <-> found = false)).
  { destruct found.
    - destruct (Hsome eq_refl) as [(m1 & m2 & d & decoded & h & E) ->].
      cbv zeta in E. destruct E as (_ & _ & _ & _ & _ & _ & _ & ->). simpl.
      split; [reflexivity|]. split; [reflexivity|]. split; discriminate.
    - destruct (Hnone eq_refl) as (-> & _ & ->). repeat split; reflexivity. }
  destruct Hsame as (SB & SW & Hr).
  exists n, segs. unfold processed.
  refine (conj Hn (conj Hsegs (conj _ (conj _ (conj _ _))))).
  - rewrite SB. exact B.
  - rewrite SW. exact W.
  - rewrite Hr, Hfound. apply existsb_filter_nil.
  - rewrite SB. exact Hstop.
Qed.

(** A returned [_prepare_safe_tx] yields None exactly when every
    candidate is skipped. *)
Lemma _prepare_safe_tx_none_iff attempts log s r log' s' :
  RedeemBehaviour._prepare_safe_tx ledger params synchronized_data ids SAFE_GAS
    TX_HASH_LENGTH hash_payload_to_hex attempts log s = Returned r log' s' ->
  (r = None <-> Forall (skipped params) (RedeemBehaviour._redeem_info s)).
Proof.
  intros H. split.
  - intros ->. apply RedeemFacts._prepare_safe_tx_returned in H.
    destruct H as (found & logL & sL & Hloop & _ & Hsome).
    destruct found; [destruct (Hsome eq_refl) as [_ Hr]; discriminate Hr|].
    apply _prepare_safe_tx_loop_no_winnings in Hloop.
    eapply Forall_impl; [exact Hloop|]. intros c. apply eligible_false_iff.
  - intros Hall.
    destruct (_prepare_safe_tx_nothing ledger params synchronized_data ids SAFE_GAS
                TX_HASH_LENGTH hash_payload_to_hex attempts log s Hall) as (s1 & Hrun & _).
    congruence.
Qed.

(** X1.  A returned [_prepare_safe_tx] yields None exactly when every
    candidate is skipped (not winning, or dust), and a returned act hands
    over a payload without hash and submitter exactly when every
    candidate that the filter left is skipped: no eligible candidate is
    dropped silently, and one eligible candidate is enough for a hash. *)
Theorem no_hash_iff_all_skipped attempts :
  (forall log s r log' s',
     RedeemBehaviour._prepare_safe_tx ledger params synchronized_data ids SAFE_GAS
       TX_HASH_LENGTH hash_payload_to_hex attempts log s = Returned r log' s' ->
     (r = None <-> Forall (skipped params) (RedeemBehaviour._redeem_info s))) /\
  (forall log s payload log' s',
     RedeemBehaviour.async_act ledger params synchronized_data agent_address ids
       SAFE_GAS TX_HASH_LENGTH hash_payload_to_hex RedeemRound_auto_round_id attempts log s
       = Returned payload log' s' ->
     (payload = MultisigTxPayload [Some agent_address; None; None] <->
      Forall (skipped params) (RedeemBehaviour._redeem_info s'))).
Proof.
  split; [exact (_prepare_safe_tx_none_iff attempts)|].
  intros log s payload log' s' H.
  apply RedeemFacts.async_act_returned in H.
  destruct H as (s0 & log1 & s1 & r & _ & _ & Hprep & ->).
  rewrite (_prepare_safe_tx_candidates _ _ _ _ _ _ _ _ _ _ _ _ _ Hprep).
  rewrite <- (_prepare_safe_tx_none_iff _ _ _ _ _ _ Hprep).
  split; [|intros ->; reflexivity].
  intros Hp. destruct r; [discriminate Hp | reflexivity].
Qed.

(** X2.  The accounts of a returned [_prepare_safe_tx]: it went through
    the first [n] candidates, for some [n]; each eligible one among them
    added two or three entries to the batch and its claimable amount,
    which is at least the dust threshold, to the expected winnings; and
    the candidates after the [n]th were left out only because the batch
    then held exactly [redeeming_batch_size] entries. *)
Theorem prepare_safe_tx_accounting attempts log s r log' s' :
  RedeemBehaviour._prepare_safe_tx ledger params synchronized_data ids SAFE_GAS
    TX_HASH_LENGTH hash_payload_to_hex attempts log s = Returned r log' s' ->
  exists n,
    (n <= List.length (RedeemBehaviour._redeem_info s))%nat /\
    (List.length (RedeemBehaviour.multisend_batches s) + 2 * List.length (processed n s)
       <= List.length (RedeemBehaviour.multisend_batches s')
       <= List.length (RedeemBehaviour.multisend_batches s) + 3 * List.length (processed n s))%nat /\
    RedeemBehaviour._expected_winnings s' =
      (RedeemBehaviour._expected_winnings s + RedeemFacts.total_claimable (processed n s))%Z /\
    Forall (fun c => (dust_threshold params <= claimable_amount c)%Z) (processed n s) /\
    (n = List.length (RedeemBehaviour._redeem_info s) \/
     List.length (RedeemBehaviour.multisend_batches s') = redeeming_batch_size params).
Proof.
  intros H. apply _prepare_safe_tx_processed in H.
  destruct H as (n & segs & Hn & Hsegs & B & W & _ & Hstop).
  exists n. apply groups_length in Hsegs.
  refine (conj Hn (conj _ (conj W (conj _ Hstop)))).
  - rewrite B, length_app. lia.
  - apply List.Forall_forall. intros c Hc. unfold processed in Hc.
    apply filter_In in Hc. destruct Hc as [_ He].
    unfold RedeemFacts.eligible in He. apply andb_true_iff in He. destruct He as [_ Hd].
    apply negb_true_iff, Z.ltb_ge in Hd. exact Hd.
Qed.

(** X3.  When the configured batch size cannot be reached, because it
    exceeds the entries already in the batch plus three for every
    candidate, a returned [_prepare_safe_tx] has processed every eligible
    candidate: the expected winnings grew by their whole claimable
    amount. *)
Theorem unreachable_cap_processes_every_candidate attempts log s r log' s' :
  (List.length (RedeemBehaviour.multisend_batches s) +
     3 * List.length (RedeemBehaviour._redeem_info s)
   < redeeming_batch_size params)%nat ->
  RedeemBehaviour._prepare_safe_tx ledger params synchronized_data ids SAFE_GAS
    TX_HASH_LENGTH hash_payload_to_hex attempts log s = Returned r log' s' ->
  let winners := List.filter (RedeemFacts.eligible params) (RedeemBehaviour._redeem_info s) in
  RedeemBehaviour._expected_winnings s' =
    (RedeemBehaviour._expected_winnings s + RedeemFacts.total_claimable winners)%Z /\
  (List.length (RedeemBehaviour.multisend_batches s) + 2 * List.length winners
     <= List.length (RedeemBehaviour.multisend_batches s'))%nat.
Proof.
  intros Hcap H winners. apply _prepare_safe_tx_processed in H.
  destruct H as (n & segs & Hn & Hsegs & B & W & _ & Hstop).
  pose proof (groups_length _ _ _ Hsegs) as Hlen.
  assert (Hdone : (List.length (processed n s) <= List.length (RedeemBehaviour._redeem_info s))%nat).
  { unfold processed. etransitivity; [apply List.filter_length_le|].
    rewrite length_firstn. lia. }
  assert (Hall : n = List.length (RedeemBehaviour._redeem_info s)).
  { destruct Hstop as [Hall | Hsize]; [exact Hall|].
    rewrite B, length_app in Hsize. lia. }
  assert (Hw : processed n s = winners).
  { unfold processed, winners. rewrite Hall, firstn_all. reflexivity. }
  rewrite Hw in *. split; [exact W|]. rewrite B, length_app. lia.
Qed.

(** ** Runs on a ledger that answers *)

(** Steps that each get through from any state get through one after the
    other. *)
Lemma wait_for_each_returns {St} (attempts : nat) (steps : list (M St bool)) :
  Forall (fun step => forall log s, exists log' s',
            wait_for_condition_with_sleep attempts step log s = Returned tt log' s') steps ->
  forall log s, exists log' s', wait_for_each attempts steps log s = Returned tt log' s'.
Proof.
  induction 1 as [|step rest Hstep _ IH]; intros log s; simpl.
  - unfold ret. eauto.
  - destruct (Hstep log s) as (log1 & s1 & R1). rewrite (bind_eq _ _ _ _ _ _ _ R1).
    apply IH.
Qed.

Lemma answers_well_balance hl msg req :
  answered_key (req_contract_callable req) = KBalance ->
  answers_well hl msg req -> is_Some (body_balance (body msg)).
Proof. intros Hkey (_ & H). rewrite Hkey in H. exact H. Qed.

Lemma answers_well_amount hl msg req :
  answered_key (req_contract_callable req) = KAmount ->
  answers_well hl msg req -> is_Some (body_amount (body msg)).
Proof. intros Hkey (_ & H). rewrite Hkey in H. exact H. Qed.

Section Answering.

Variables k attempts : nat.
Hypothesis ledger_responsive : responsive TX_HASH_LENGTH ledger k.
Hypothesis ledger_in_hex : answers_in_hex ledger.
Hypothesis enough_attempts : (k <= attempts)%nat.

(** A step whose verdict accepts every answer of the expected kind that
    carries its field gets through from any state. *)
Lemma accepting_step_returns {St X} (step : M St bool) (request : St -> Request)
    (expected : Performative) (key : Body -> option X) (f : X -> St -> St) :
  polls ledger step (fun _ => True) request (on_field expected key (fun x s => Accept (f x s))) ->
  (forall s, expected = expected_performative (req_performative (request s))) ->
  (forall s msg, answers_well TX_HASH_LENGTH msg (request s) -> is_Some (key (body msg))) ->
  forall log s, exists log' s',
    wait_for_condition_with_sleep attempts step log s = Returned tt log' s'.
Proof using ledger_responsive enough_attempts.
  intros Hpolls Hexp Hkey log s.
  destruct (wait_accepting ledger step _ request expected key f TX_HASH_LENGTH k attempts
              log s Hpolls ledger_responsive enough_attempts Logic.I (Hexp s) (Hkey s))
    as (m & x & _ & _ & _ & Hrun).
  eauto.
Qed.

(** A step that wraps the answered data with [HexBytes] gets through:
    the ledger's data is hexadecimal. *)
Lemma building_step_returns {St} (step : M St bool) (request : St -> Request)
    (expected : Performative) (store : string -> St -> St) :
  polls ledger step (fun _ => True) request
    (on_field expected body_data
       (fun d s => match HexBytes_error d with
                   | Some exc => Crash exc
                   | None => Accept (store d s)
                   end)) ->
  (forall s, expected = expected_performative (req_performative (request s)) /\
             answered_key (req_contract_callable (request s)) = KData /\
             String.eqb (req_contract_callable (request s)) "get_tx_data" = false) ->
  forall log s, exists log' s',
    wait_for_condition_with_sleep attempts step log s = Returned tt log' s'.
Proof using ledger_responsive ledger_in_hex enough_attempts.
  intros Hpolls Hreq log s. destruct (Hreq s) as (Hexp & Hkey & Hcall).
  assert (Hhex : forall n d,
            performative (ledger n (request s)) = expected ->
            body_data (body (ledger n (request s))) = Some d ->
            HexBytes_error d = None).
  { intros n d Hp Hd. pose proof (ledger_in_hex n (request s) d) as H.
    rewrite Hcall, <- Hexp in H. exact (H Hp Hd). }
  destruct (wait_responsive ledger step _ request _ Hpolls TX_HASH_LENGTH k attempts log s
              ledger_responsive enough_attempts Logic.I) as (m & s' & _ & _ & Hrun).
  - intros n Hwell.
    destruct (RedeemFacts.answers_well_data _ _ _ Hkey Hwell) as [d Hd].
    destruct Hwell as (Hp & _). rewrite <- Hexp in Hp.
    eexists. rewrite (on_field_good _ _ _ _ _ d Hp Hd), (Hhex n d Hp Hd). reflexivity.
  - intros n e. unfold on_field.
    destruct (Performative_eqb _ _) eqn:Hp; simpl; [|discriminate].
    apply Performative_eqb_eq in Hp.
    destruct (body_data _) as [d|] eqn:Hd; [|discriminate].
    rewrite (Hhex n d Hp Hd). discriminate.
  - eauto.
Qed.

(** The encoding step gets through: its answers can be decoded. *)
Lemma encoding_step_returns {St} (step : M St bool) (request : St -> Request)
    (store : bytes -> St -> St) :
  polls ledger step (fun _ => True) request
    (on_field RAW_TRANSACTION body_data
       (fun d s => match bytes_fromhex (drop2 d) with
                   | None => Crash "ValueError"
                   | Some decoded => Accept (store decoded s)
                   end)) ->
  (forall s, req_performative (request s) = GET_RAW_TRANSACTION /\
             req_contract_callable (request s) = "get_tx_data") ->
  forall log s, exists log' s',
    wait_for_condition_with_sleep attempts step log s = Returned tt log' s'.
Proof using ledger_responsive ledger_in_hex enough_attempts.
  intros Hpolls Hreq log s. destruct (Hreq s) as [Hperf Hcall].
  assert (Hhex : forall n d,
            performative (ledger n (request s)) = RAW_TRANSACTION ->
            body_data (body (ledger n (request s))) = Some d ->
            is_Some (bytes_fromhex (drop2 d))).
  { intros n d Hp Hd. pose proof (ledger_in_hex n (request s) d) as H.
    rewrite Hcall, Hperf in H. exact (H Hp Hd). }
  destruct (wait_responsive ledger step _ request _ Hpolls TX_HASH_LENGTH k attempts log s
              ledger_responsive enough_attempts Logic.I) as (m & s' & _ & _ & Hrun).
  - intros n Hwell.
    assert (Hkey : answered_key (req_contract_callable (request s)) = KData)
      by (rewrite Hcall; reflexivity).
    destruct (RedeemFacts.answers_well_data _ _ _ Hkey Hwell) as [d Hd].
    destruct Hwell as (Hp & _). rewrite Hperf in Hp. simpl in Hp.
    destruct (Hhex n d Hp Hd) as [decoded Hx].
    exists (store decoded s).
    rewrite (on_field_good _ _ _ _ _ d Hp Hd), Hx. reflexivity.
  - intros n e. unfold on_field.
    destruct (Performative_eqb _ _) eqn:Hp; simpl; [|discriminate].
    apply Performative_eqb_eq in Hp.
    destruct (body_data _) as [d|] eqn:Hd; [|discriminate].
    destruct (Hhex n d Hp Hd) as [decoded ->]. discriminate.
  - eauto.
Qed.

(** The hashing step gets through: a good answer has the expected
    length. *)
Lemma hashing_step_returns {St} (step : M St bool) (request : St -> Request)
    (store : string -> St -> St) :
  polls ledger step (fun _ => True) request
    (on_field STATE body_tx_hash
       (fun h s => if negb (Nat.eqb (String.length h) TX_HASH_LENGTH) then Reject
                   else Accept (store (drop2 h) s))) ->
  (forall s, req_performative (request s) = GET_STATE /\
             req_contract_callable (request s) = "get_raw_safe_transaction_hash") ->
  forall log s, exists log' s',
    wait_for_condition_with_sleep attempts step log s = Returned tt log' s'.
Proof using ledger_responsive enough_attempts.
  intros Hpolls Hreq log s. destruct (Hreq s) as [Hperf Hcall].
  destruct (wait_responsive ledger step _ request _ Hpolls TX_HASH_LENGTH k attempts log s
              ledger_responsive enough_attempts Logic.I) as (m & s' & _ & _ & Hrun).
  - intros n (Hp & Hcarries).
    rewrite Hcall in Hcarries. destruct Hcarries as (h & Hh & Hlen).
    rewrite Hperf in Hp. exists (store (drop2 h) s).
    rewrite (on_field_good _ _ _ _ _ h); [|exact Hp | exact Hh].
    rewrite Hlen, Nat.eqb_refl. reflexivity.
  - intros n e. unfold on_field.
    destruct (negb _); [discriminate|].
    destruct (body_tx_hash _) as [h|]; [|discriminate].
    destruct (negb _); discriminate.
  - eauto.
Qed.

Lemma bet_prepare_safe_tx_returns log s :
  exists hex log' s',
    BetPlacementBehaviour._prepare_safe_tx ledger params synchronized_data ids SAFE_GAS
      TX_HASH_LENGTH hash_payload_to_hex attempts log s = Returned hex log' s'.
Proof using ledger_responsive ledger_in_hex enough_attempts.
  unfold BetPlacementBehaviour._prepare_safe_tx.
  destruct (wait_for_each_returns attempts
              [BetPlacementBehaviour._build_approval_tx ledger params synchronized_data ids;
               BetPlacementBehaviour._calc_buy_amount ledger params synchronized_data ids;
               BetPlacementBehaviour._build_buy_tx ledger params synchronized_data ids;
               BetPlacementBehaviour._build_multisend_data ledger params ids;
               BetPlacementBehaviour._build_safe_tx_hash ledger params synchronized_data ids
                 SAFE_GAS TX_HASH_LENGTH]) with (log := log) (s := s)
    as (log1 & s1 & R1).
  - repeat constructor.
    + exact (building_step_returns _ _ _ _
               (BetPlacementFacts._build_approval_tx_polls ledger params synchronized_data ids)
               (fun _ => conj eq_refl (conj eq_refl eq_refl))).
    + exact (accepting_step_returns _ _ _ _ _
               (BetPlacementFacts._calc_buy_amount_polls ledger params synchronized_data ids)
               (fun _ => eq_refl)
               (fun _ msg =>
                  answers_well_amount TX_HASH_LENGTH msg
                    (BetPlacementBehaviour.calc_buy_amount_request params synchronized_data
                       ids) eq_refl)).
    + exact (building_step_returns _ _ _ _
               (BetPlacementFacts._build_buy_tx_polls ledger params synchronized_data ids)
               (fun _ => conj eq_refl (conj eq_refl eq_refl))).
    + exact (encoding_step_returns _ _ _
               (BetPlacementFacts.bet_build_multisend_data_polls ledger params ids)
               (fun _ => conj eq_refl eq_refl)).
    + exact (hashing_step_returns _ _ _
               (BetPlacementFacts._build_safe_tx_hash_polls ledger params synchronized_data
                  ids SAFE_GAS TX_HASH_LENGTH)
               (fun _ => conj eq_refl eq_refl)).
  - rewrite (bind_eq _ _ _ _ _ _ _ R1). unfold bind, gets, ret. eauto.
Qed.

(** X4.  Bet placement gets through on a ledger that answers.  When
    among any [k] consecutive requests one is answered well, the data of
    the answers is hexadecimal, so that neither [HexBytes] nor
    [bytes.fromhex] raises, and the run is followed for at least [k]
    attempts per step, [async_act] returns from any state.  The payload
    then lacks the hash exactly when the stored balance is below the
    investment amount; a balance equal to the investment amount is
    sufficient. *)
Theorem bet_act_returns_on_answering_ledger log s :
  exists payload log' s',
    BetPlacementBehaviour.async_act ledger params synchronized_data agent_address ids
      SAFE_GAS TX_HASH_LENGTH hash_payload_to_hex attempts log s
      = Returned payload log' s' /\
    (payload = MultisigTxPayload [Some agent_address; None] <->
     (BetPlacementBehaviour.balance s' <
        BetPlacementBehaviour.investment_amount params synchronized_data)%Z).
Proof using ledger_responsive ledger_in_hex enough_attempts.
  assert (Hrun : exists payload log' s',
            BetPlacementBehaviour.async_act ledger params synchronized_data agent_address ids
              SAFE_GAS TX_HASH_LENGTH hash_payload_to_hex attempts log s
              = Returned payload log' s').
  { unfold BetPlacementBehaviour.async_act.
    destruct (accepting_step_returns _ _ _ _ _
                (BetPlacementFacts._check_balance_polls ledger synchronized_data ids)
                (fun _ => eq_refl)
                (fun _ msg =>
                   answers_well_balance TX_HASH_LENGTH msg
                     (BetPlacementBehaviour.check_balance_request synchronized_data ids)
                     eq_refl) log s)
      as (log0 & s0 & R0).
    rewrite (bind_eq _ _ _ _ _ _ _ R0). unfold bind at 1. unfold gets at 1.
    destruct (BetPlacementBehaviour.sufficient_balance params synchronized_data s0).
    - destruct (bet_prepare_safe_tx_returns log0 s0) as (hex & log1 & s1 & R1).
      unfold bind at 1. unfold bind at 1. rewrite R1. unfold ret. eauto.
    - unfold bind, ret. eauto. }
  destruct Hrun as (payload & log' & s' & Hrun).
  exists payload, log', s'. split; [exact Hrun|].
  apply BetPlacementFacts.bet_async_act_returned in Hrun.
  destruct Hrun as (m & b & _ & _ & [(Hb & _ & -> & ->) | (Hb & Hprep & ->)]).
  - simpl. split; [intros _; exact Hb | reflexivity].
  - destruct Hprep as (m1 & m2 & m3 & m4 & m5 & a & amount & b' & d & decoded & h & E).
    cbv zeta in E. destruct E as (_ & -> & _). simpl.
    split; [discriminate | lia].
Qed.

(** On a ledger that answers, the candidate loop returns. *)
Lemma _prepare_safe_tx_loop_returns cands :
  forall found log s, exists found' log' s',
    RedeemBehaviour._prepare_safe_tx_loop ledger params ids attempts cands found log s
      = Returned found' log' s'.
Proof using ledger_responsive ledger_in_hex enough_attempts.
  induction cands as [|c rest IH]; intros found log s; simpl.
  - unfold ret. eauto.
  - destruct (RedeemFacts.eligible params c) eqn:He.
    + destruct (RedeemFacts._process_candidate_returns ledger params ids TX_HASH_LENGTH k
                  attempts ledger_responsive ledger_in_hex enough_attempts c log s He)
        as (log1 & s1 & R1).
      rewrite (bind_eq _ _ _ _ _ _ _ R1). simpl. unfold bind at 1. unfold gets at 1.
      destruct (Nat.eqb _ _); [unfold ret; eauto | apply IH].
    + unfold bind at 1. rewrite (RedeemFacts._process_candidate_skip _ _ _ _ _ _ _ He).
      simpl. apply IH.
Qed.

(** X5.  Redeeming gets through on a ledger that answers: under the same
    conditions, which keep the setter of [built_data] and
    [bytes.fromhex] from raising, [async_act] returns from any state,
    whatever the trade-history source holds. *)
Theorem redeem_act_returns_on_answering_ledger log s :
  exists payload log' s',
    RedeemBehaviour.async_act ledger params synchronized_data agent_address ids
      SAFE_GAS TX_HASH_LENGTH hash_payload_to_hex RedeemRound_auto_round_id attempts log s
      = Returned payload log' s'.
Proof using ledger_responsive ledger_in_hex enough_attempts.
  unfold RedeemBehaviour.async_act.
  destruct (RedeemFacts._get_redeem_info_returns log s) as (s0 & R0 & _).
  rewrite (bind_eq _ _ _ _ _ _ _ R0).
  destruct (RedeemFacts._clean_redeem_info_returns ledger params synchronized_data ids
              TX_HASH_LENGTH k attempts ledger_responsive enough_attempts log s0)
    as (log1 & s1 & R1).
  rewrite (bind_eq _ _ _ _ _ _ _ R1).
  assert (Hprep : exists r log2 s2,
            RedeemBehaviour._prepare_safe_tx ledger params synchronized_data ids SAFE_GAS
              TX_HASH_LENGTH hash_payload_to_hex attempts log1 s1 = Returned r log2 s2).
  { unfold RedeemBehaviour._prepare_safe_tx. unfold bind at 1. unfold gets at 1.
    destruct (_prepare_safe_tx_loop_returns (RedeemBehaviour._redeem_info s1) false log1 s1)
      as (found & logL & sL & RL).
    rewrite (bind_eq _ _ _ _ _ _ _ RL).
    destruct found; simpl; [|unfold ret; eauto].
    destruct (wait_for_each_returns attempts
                [RedeemBehaviour._build_multisend_data ledger params ids;
                 RedeemBehaviour._build_multisend_safe_tx_hash ledger params
                   synchronized_data ids SAFE_GAS TX_HASH_LENGTH])
      with (log := logL) (s := sL) as (log2 & s2 & R2).
    - repeat constructor.
      + exact (encoding_step_returns _ _ _
                 (RedeemFacts._build_multisend_data_polls ledger params ids)
                 (fun _ => conj eq_refl eq_refl)).
      + exact (hashing_step_returns _ _ _
                 (RedeemFacts._build_multisend_safe_tx_hash_polls ledger params
                    synchronized_data ids SAFE_GAS TX_HASH_LENGTH)
                 (fun _ => conj eq_refl eq_refl)).
    - simpl in R2. rewrite (bind_eq _ _ _ _ _ _ _ R2). unfold bind, gets, ret. eauto. }
  destruct Hprep as (r & log2 & s2 & R2).
  rewrite (bind_eq _ _ _ _ _ _ _ R2). unfold ret. eauto.
Qed.

End Answering.

(** ** Edge cases of the encoding and hashing steps of bet placement *)

Lemma length_drop2 (x : string) : String.length (drop2 x) = (String.length x - 2)%nat.
Proof. destruct x as [|a [|b x]]; simpl; try reflexivity. lia. Qed.

Lemma drop2_short (x : string) : (String.length x <= 2)%nat -> drop2 x = "".
Proof. destruct x as [|a [|b [|c x]]]; simpl; intros H; try reflexivity. lia. Qed.

(** X6.  [_build_multisend_data] does not validate the encoded data
    beyond [bytes.fromhex].  When the answer is of the right kind and its
    data, without the first two characters, is not hexadecimal, the step
    raises ValueError instead of returning false, and the controller does
    not invoke it again: the wait ends with the exception.  When the data
    is at most two characters long, the step accepts it and stores empty
    multisend data. *)
Theorem multisend_data_edge_cases log s d :
  let request := BetPlacementBehaviour.get_tx_data_request params ids s in
  performative (ledger (List.length log) request) = RAW_TRANSACTION ->
  body_data (body (ledger (List.length log) request)) = Some d ->
  (bytes_fromhex (drop2 d) = None ->
   BetPlacementBehaviour._build_multisend_data ledger params ids log s
     = Raised "ValueError" /\
   forall attempts,
     wait_for_condition_with_sleep (S attempts)
       (BetPlacementBehaviour._build_multisend_data ledger params ids) log s
     = Raised "ValueError") /\
  ((String.length d <= 2)%nat ->
   BetPlacementBehaviour._build_multisend_data ledger params ids log s
     = Returned true (log ++ [request]) (BetPlacementBehaviour.set_multisend_data [] s)).
Proof.
  intros request Hp Hd.
  pose proof (BetPlacementFacts.bet_build_multisend_data_polls ledger params ids log s Logic.I)
    as Hstep.
  fold request in Hstep.
  unfold BetPlacementFacts.multisend_verdict in Hstep.
  rewrite (on_field_good _ _ _ _ _ d Hp Hd) in Hstep.
  split.
  - intros Hx. rewrite Hx in Hstep. split; [exact Hstep|].
    intros attempts. simpl. unfold bind. rewrite Hstep. reflexivity.
  - intros Hlen. rewrite (drop2_short d Hlen) in Hstep. exact Hstep.
Qed.

(** X7.  [_build_safe_tx_hash] checks the length of the hash.  An answer
    of the right kind whose hash has another length than
    [TX_HASH_LENGTH] makes the step return false with the fields
    untouched, so it is tried again; and after every returned
    [_prepare_safe_tx] the stored hash has [TX_HASH_LENGTH - 2]
    characters. *)
Theorem safe_tx_hash_length_checked :
  (forall log s h,
     let request :=
       BetPlacementBehaviour.get_raw_safe_transaction_hash_request params synchronized_data
         ids SAFE_GAS s in
     performative (ledger (List.length log) request) = STATE ->
     body_tx_hash (body (ledger (List.length log) request)) = Some h ->
     String.length h <> TX_HASH_LENGTH ->
     BetPlacementBehaviour._build_safe_tx_hash ledger params synchronized_data ids SAFE_GAS
       TX_HASH_LENGTH log s = Returned false (log ++ [request]) s) /\
  (forall attempts log s hex log' s',
     BetPlacementBehaviour._prepare_safe_tx ledger params synchronized_data ids SAFE_GAS
       TX_HASH_LENGTH hash_payload_to_hex attempts log s = Returned hex log' s' ->
     String.length (BetPlacementBehaviour.safe_tx_hash s') = (TX_HASH_LENGTH - 2)%nat).
Proof.
  split.
  - intros log s h request Hp Hh Hlen.
    rewrite (BetPlacementFacts._build_safe_tx_hash_polls ledger params synchronized_data ids
               SAFE_GAS TX_HASH_LENGTH log s Logic.I).
    fold request. unfold BetPlacementFacts.safe_tx_hash_verdict.
    rewrite (on_field_good _ _ _ _ _ h Hp Hh).
    apply Nat.eqb_neq in Hlen. rewrite Hlen. reflexivity.
  - intros attempts log s hex log' s' H.
    apply BetPlacementFacts.bet_prepare_safe_tx_returned in H. destruct H as [Hprep _].
    destruct Hprep as (m1 & m2 & m3 & m4 & m5 & a & amount & b & d & decoded & h & E).
    cbv zeta in E. destruct E as (_ & -> & _ & _ & _ & _ & (_ & _ & Hlen)).
    simpl. rewrite length_drop2, Hlen. reflexivity.
Qed.

(** The request of [_build_buy_tx] that guards the buy with [amount]. *)
Definition guarded_buy_request (amount : Z) : Request :=
  {| req_performative := GET_STATE;
     req_contract_address := sampled_bet_id synchronized_data;
     req_contract_id := FixedProductMarketMakerContract_contract_id ids;
     req_contract_callable := "get_buy_data";
     req_kwargs :=
       [("investment_amount", VInt (get_bet_amount params (confidence synchronized_data)));
        ("outcome_index", VInt (vote synchronized_data));
        ("min_outcome_tokens_to_buy", VInt amount)] |}.

(** X8.  The buy is guarded by the quote.  In every returned
    [_prepare_safe_tx] of bet placement, the amount that the accepted
    answer of [calc_buy_amount] reported is what the later buy request
    passes as [min_outcome_tokens_to_buy], whatever [buy_amount] held
    before; it is also what [buy_amount] holds afterwards. *)
Theorem buy_guarded_by_quoted_amount attempts log s hex log' s' :
  BetPlacementBehaviour._prepare_safe_tx ledger params synchronized_data ids SAFE_GAS
    TX_HASH_LENGTH hash_payload_to_hex attempts log s = Returned hex log' s' ->
  exists amount pre mid post,
    let quote := BetPlacementBehaviour.calc_buy_amount_request params synchronized_data ids in
    log' = pre ++ [quote] ++ mid ++ [guarded_buy_request amount] ++ post /\
    body_amount (body (ledger (List.length pre) quote)) = Some amount /\
    BetPlacementBehaviour.buy_amount s' = amount /\
    Forall (fun r => req_contract_callable r = "get_buy_data" ->
                     r = guarded_buy_request amount) (mid ++ post).
Proof.
  intros H.
  apply BetPlacementFacts.bet_prepare_safe_tx_returned in H. destruct H as [Hprep _].
  destruct Hprep as (m1 & m2 & m3 & m4 & m5 & a & amount & b & d & decoded & h & E).
  cbv zeta in E. destruct E as (Hlog & Hs & _ & (_ & Hamount) & _).
  set (r1 := BetPlacementBehaviour.build_approval_request params synchronized_data ids) in *.
  set (r2 := BetPlacementBehaviour.calc_buy_amount_request params synchronized_data ids) in *.
  match type of Hlog with
  | log' = (((_ ++ repeat ?r (S m3)) ++ repeat ?r' (S m4)) ++ repeat ?r'' (S m5)) =>
      set (r3 := r) in *; set (r4 := r') in *; set (r5 := r'') in *
  end.
  assert (Hr3 : r3 = guarded_buy_request amount) by reflexivity.
  exists amount, ((log ++ repeat r1 (S m1)) ++ repeat r2 m2), (repeat r3 m3),
    (repeat r4 (S m4) ++ repeat r5 (S m5)).
  cbv zeta. fold r2. refine (conj _ (conj _ (conj _ _))).
  - rewrite Hlog, (repeat_S_snoc r2 m2), (repeat_S_snoc r3 m3), Hr3, <- !app_assoc.
    reflexivity.
  - rewrite length_app, repeat_length. exact Hamount.
  - rewrite Hs. reflexivity.
  - rewrite !Forall_app. repeat split; apply List.Forall_forall; intros r Hr Hcall;
      apply repeat_spec in Hr; subst r; first [exact Hr3 | discriminate Hcall].
Qed.

(** ** The current candidate *)

(** X9.  Every method that reads the current candidate raises ValueError,
    before any request is sent, while no candidate has been set; and
    [_process_candidate] sets it first: whenever it returns, the current
    candidate is the one it was given. *)
Theorem current_candidate_required :
  (forall log s,
     RedeemBehaviour._current_redeem_info s = None ->
     RedeemBehaviour._is_winning_position log s = Raised "ValueError" /\
     RedeemBehaviour._is_dust params log s = Raised "ValueError" /\
     RedeemBehaviour._check_already_resolved ledger params ids log s = Raised "ValueError" /\
     RedeemBehaviour._build_resolve_data ledger params ids log s = Raised "ValueError" /\
     RedeemBehaviour._build_claim_data ledger params ids log s = Raised "ValueError" /\
     RedeemBehaviour._build_redeem_data ledger params ids log s = Raised "ValueError" /\
     (forall attempts,
        RedeemBehaviour._get_block_number int attempts log s = Raised "ValueError") /\
     (forall attempts,
        RedeemBehaviour._prepare_single_redeem ledger params ids (S attempts) log s
          = Raised "ValueError")) /\
  (forall attempts c log s b log' s',
     RedeemBehaviour._process_candidate ledger params ids attempts c log s
       = Returned b log' s' ->
     RedeemBehaviour._current_redeem_info s' = Some c).
Proof.
  split.
  - intros log s Hnone.
    assert (Hres : RedeemBehaviour._check_already_resolved ledger params ids log s
                   = Raised "ValueError").
    { unfold RedeemBehaviour._check_already_resolved, RedeemBehaviour.current_condition_id,
        RedeemBehaviour.current_condition, RedeemBehaviour.current_fpmm,
        RedeemBehaviour.current_redeem_info, bind. rewrite Hnone. reflexivity. }
    repeat match goal with |- _ /\ _ => split end.
    + unfold RedeemBehaviour._is_winning_position, RedeemBehaviour.current_redeem_info, bind.
      rewrite Hnone. reflexivity.
    + unfold RedeemBehaviour._is_dust, RedeemBehaviour.current_redeem_info, bind.
      rewrite Hnone. reflexivity.
    + exact Hres.
    + unfold RedeemBehaviour._build_resolve_data, RedeemBehaviour.current_question_id,
        RedeemBehaviour.current_fpmm, RedeemBehaviour.current_redeem_info, bind.
      rewrite Hnone. reflexivity.
    + unfold RedeemBehaviour._build_claim_data, RedeemBehaviour.current_question_id,
        RedeemBehaviour.current_fpmm, RedeemBehaviour.current_redeem_info, bind, gets.
      rewrite Hnone. reflexivity.
    + unfold RedeemBehaviour._build_redeem_data, RedeemBehaviour.current_collateral_token,
        RedeemBehaviour.current_fpmm, RedeemBehaviour.current_redeem_info, bind.
      rewrite Hnone. reflexivity.
    + intros attempts.
      unfold RedeemBehaviour._get_block_number, RedeemBehaviour.current_redeem_info, bind.
      rewrite Hnone. reflexivity.
    + intros attempts. unfold RedeemBehaviour._prepare_single_redeem.
      simpl. unfold bind at 1. unfold bind at 1. rewrite Hres. reflexivity.
  - intros attempts c log s b log' s' H.
    destruct (RedeemFacts.eligible params c) eqn:He.
    + destruct (RedeemFacts._process_candidate_returned _ _ _ _ _ _ _ _ _ _ He H)
        as (_ & s1 & Hdone & ->).
      destruct (RedeemFacts.single_redeem_done_grown _ _ _ _ _ _ _ _ Hdone)
        as (r & d1 & d2 & d3 & m & ext & _ & _ & _ & _ & Hcur & _).
      simpl. exact Hcur.
    + rewrite (RedeemFacts._process_candidate_skip _ _ _ _ _ _ _ He) in H.
      injection H as _ _ <-. reflexivity.
Qed.

(** ** Discovery *)

(** The trades of the pages, one page after the other; a page without a
    chunk contributes nothing. *)
Definition fetched (pages : list Page) : list RedeemInfo :=
  concat (map (fun page => match page_chunk page with
                           | Some chunk => chunk
                           | None => []
                           end) pages).

Lemma _get_redeem_info_loop_collects rounds :
  forall log s, (List.length (RedeemBehaviour.pending_pages s) < rounds)%nat ->
  exists s',
    RedeemBehaviour._get_redeem_info_loop rounds log s = Returned tt log s' /\
    (RedeemBehaviour._fetch_status s' <> FAIL ->
     RedeemBehaviour._redeem_info s' =
       RedeemBehaviour._redeem_info s ++ fetched (RedeemBehaviour.pending_pages s) /\
     RedeemBehaviour.pending_pages s' = []).
Proof.
  induction rounds as [|n IH]; intros log s Hlen; [lia|].
  simpl. unfold bind at 1. unfold RedeemBehaviour._prepare_fetching.
  destruct (RedeemBehaviour.pending_pages s) as [|page rest] eqn:Hpages.
  - exists s. split; [destruct (RedeemBehaviour._fetch_status s); reflexivity|].
    intros _. unfold fetched. simpl. rewrite app_nil_r. split; [reflexivity | exact Hpages].
  - destruct (FetchStatus_eqb (RedeemBehaviour._fetch_status s) FAIL) eqn:Hfail.
    + apply FetchStatus_eqb_eq in Hfail. rewrite Hfail. simpl.
      exists s. split; [reflexivity|]. intros Hne. contradiction.
    + assert (Hgo : match RedeemBehaviour._fetch_status s with
                    | FAIL => Returned false log s
                    | _ => Returned true log s
                    end = Returned true log s).
      { destruct (RedeemBehaviour._fetch_status s); try reflexivity. discriminate. }
      rewrite Hgo. simpl. unfold bind at 1. unfold bind at 1.
      unfold RedeemBehaviour._fetch_redeem_info. rewrite Hpages.
      set (s1 := RedeemBehaviour.set_fetch_status (page_status page)
                   (RedeemBehaviour.set_pending_pages rest s)).
      unfold fetched. simpl. fold (fetched rest).
      destruct (page_chunk page) as [updates|].
      * unfold modify.
        set (s2 := RedeemBehaviour.set_redeem_info
                     (RedeemBehaviour._redeem_info s1 ++ updates) s1).
        destruct (IH log s2) as (s' & Hrun & Hd).
        { simpl in Hlen. simpl. lia. }
        exists s'. split; [exact Hrun|]. intros Hne.
        destruct (Hd Hne) as [Hinfo Hrest]. split; [|exact Hrest].
        rewrite Hinfo. simpl. rewrite <- app_assoc. reflexivity.
      * unfold ret.
        destruct (IH log s1) as (s' & Hrun & Hd).
        { simpl in Hlen. simpl. lia. }
        exists s'. split; [exact Hrun|]. intros Hne.
        destruct (Hd Hne) as [Hinfo Hrest]. split; [|exact Hrest].
        rewrite Hinfo. reflexivity.
Qed.

(** X10.  Discovery keeps what it had and appends.  [_get_redeem_info]
    always returns and sends no request.  When it ends with status
    SUCCESS, every page was read and the candidates are those held
    before, followed by the trades of the pages in the order they were
    read, a page without a chunk adding nothing; nothing is deduplicated
    or reordered.  With any other final status the candidates are
    empty. *)
Theorem discovery_appends_pages_in_order log s :
  exists s',
    RedeemBehaviour._get_redeem_info log s = Returned tt log s' /\
    (RedeemBehaviour._fetch_status s' = SUCCESS ->
     RedeemBehaviour._redeem_info s' =
       RedeemBehaviour._redeem_info s ++ fetched (RedeemBehaviour.pending_pages s) /\
     RedeemBehaviour.pending_pages s' = []) /\
    (RedeemBehaviour._fetch_status s' <> SUCCESS -> RedeemBehaviour._redeem_info s' = []).
Proof.
  unfold RedeemBehaviour._get_redeem_info. unfold bind at 1. unfold gets at 1.
  destruct (_get_redeem_info_loop_collects (S (List.length (RedeemBehaviour.pending_pages s)))
              log s) as (s1 & Hrun & Hd); [lia|].
  unfold bind at 1. rewrite Hrun. unfold bind, gets.
  destruct (FetchStatus_eqb (RedeemBehaviour._fetch_status s1) SUCCESS) eqn:Hst; simpl.
  - apply FetchStatus_eqb_eq in Hst. exists s1. split; [reflexivity|]. split.
    + intros _. apply Hd. rewrite Hst. discriminate.
    + intros Hne. contradiction.
  - exists (RedeemBehaviour.set_redeem_info [] s1). split; [reflexivity|]. split.
    + simpl. intros Hs. rewrite Hs in Hst. discriminate Hst.
    + reflexivity.
Qed.

(** ** The block-index lookup *)

(** What the setter of [from_block] stores for [id]. *)
Definition from_block_of (id : string) : Value :=
  match int id with
  | Some n => VInt n
  | None => VStr DEFAULT_FROM_BLOCK
  end.

Lemma _get_block_number_loop_settles timestamp pre :
  forall attempts log s answer rest,
  RedeemBehaviour.pending_blocks s = pre ++ answer :: rest ->
  Forall (fun b => block_status b = IN_PROGRESS) pre ->
  block_status answer <> IN_PROGRESS ->
  (List.length pre < attempts)%nat ->
  exists s',
    RedeemBehaviour._get_block_number_loop attempts timestamp log s
      = Returned answer log s' /\
    RedeemBehaviour.pending_blocks s' = rest /\
    RedeemBehaviour._fetch_status s' = block_status answer /\
    RedeemBehaviour._from_block s' = RedeemBehaviour._from_block s.
Proof.
  induction pre as [|b pre IH]; intros attempts log s answer rest Hblocks Hpre Hans Hlen;
    (destruct attempts as [|n]; [simpl in Hlen; lia|]); simpl;
    unfold bind at 1; unfold RedeemBehaviour._fetch_block_number; rewrite Hblocks; simpl;
    unfold bind at 1; unfold gets at 1; simpl.
  - destruct (FetchStatus_eqb (block_status answer) IN_PROGRESS) eqn:Hst.
    + apply FetchStatus_eqb_eq in Hst. contradiction.
    + simpl. unfold ret. eexists. split; [reflexivity|]. simpl. auto.
  - apply Forall_cons_1 in Hpre. destruct Hpre as [Hb Hpre].
    rewrite Hb. simpl.
    destruct (IH n log
                (RedeemBehaviour.set_fetch_status IN_PROGRESS
                   (RedeemBehaviour.set_pending_blocks (pre ++ answer :: rest) s))
                answer rest eq_refl Hpre Hans) as (s' & Hrun & Hrest & Hst & Hfrom).
    { simpl in Hlen. lia. }
    exists s'. split; [exact Hrun|]. auto.
Qed.

(** X11.  [_get_block_number] polls the lookup until its status is no
    longer IN_PROGRESS and uses the answer that settled it.  When that
    answer comes within the attempts followed, the method returns true
    and sends no request; if the status it left is SUCCESS, the
    from-block becomes the integer read from the answer's [id], or
    "earliest" when the [id] is missing or is not an integer; with any
    other status the from-block stays as it was. *)
Theorem block_lookup_uses_settling_answer attempts log s c pre answer rest :
  RedeemBehaviour._current_redeem_info s = Some c ->
  RedeemBehaviour.pending_blocks s = pre ++ answer :: rest ->
  Forall (fun b => block_status b = IN_PROGRESS) pre ->
  block_status answer <> IN_PROGRESS ->
  (List.length pre < attempts)%nat ->
  exists s',
    RedeemBehaviour._get_block_number int attempts log s = Returned true log s' /\
    RedeemBehaviour.pending_blocks s' = rest /\
    RedeemBehaviour._fetch_status s' = block_status answer /\
    RedeemBehaviour._from_block s' =
      (if FetchStatus_eqb (block_status answer) SUCCESS
       then from_block_of (match block_id answer with
                           | Some id => id
                           | None => DEFAULT_FROM_BLOCK
                           end)
       else RedeemBehaviour._from_block s) /\
    ((exists n, RedeemBehaviour._from_block s' = VInt n) \/
     RedeemBehaviour._from_block s' = VStr DEFAULT_FROM_BLOCK \/
     RedeemBehaviour._from_block s' = RedeemBehaviour._from_block s).
Proof.
  intros Hcur Hblocks Hpre Hans Hlen.
  destruct (_get_block_number_loop_settles (creationTimestamp (fpmm c)) pre attempts log s
              answer rest Hblocks Hpre Hans Hlen) as (s1 & Hrun & Hrest & Hst & Hfrom).
  unfold RedeemBehaviour._get_block_number. unfold bind at 1.
  unfold RedeemBehaviour.current_redeem_info. rewrite Hcur.
  rewrite (bind_eq _ _ _ _ _ _ _ Hrun). unfold bind at 1. unfold gets at 1.
  rewrite Hst.
  destruct (FetchStatus_eqb (block_status answer) SUCCESS) eqn:Hs.
  - unfold bind, modify, ret. eexists. split; [reflexivity|].
    unfold RedeemBehaviour.set_from_block, from_block_of.
    destruct (int _) as [n|]; simpl; repeat split; eauto.
  - unfold bind, ret. eexists. split; [reflexivity|]. repeat split; auto.
Qed.

(** ** The idempotency filter *)

Lemma filter_sublist {A} (f : A -> bool) (l : list A) : sublist (List.filter f l) l.
Proof.
  induction l as [|a l IH]; simpl; [constructor|].
  destruct (f a); [apply sublist_skip | apply sublist_cons]; exact IH.
Qed.

Lemma filter_filter_same {A} (f : A -> bool) (l : list A) :
  List.filter f (List.filter f l) = List.filter f l.
Proof.
  induction l as [|a l IH]; simpl; [reflexivity|].
  destruct (f a) eqn:Hf; simpl; [rewrite Hf, IH; reflexivity | exact IH].
Qed.

(** X12.  The filter only removes.  What [_clean_redeem_info] leaves is
    a subsequence of the candidates it found, in the same order; when the
    recorded payouts do not sum to more than zero it leaves all of them;
    and a second pass that is answered with the same payout map removes
    nothing more. *)
Theorem clean_redeem_info_only_removes attempts log s log1 s1 :
  RedeemBehaviour._clean_redeem_info ledger params synchronized_data ids attempts log s
    = Returned tt log1 s1 ->
  sublist (RedeemBehaviour._redeem_info s1) (RedeemBehaviour._redeem_info s) /\
  ((RedeemBehaviour.sum_values (RedeemBehaviour._payouts s1) <= 0)%Z ->
   RedeemBehaviour._redeem_info s1 = RedeemBehaviour._redeem_info s) /\
  (forall attempts' log2 s2,
     RedeemBehaviour._clean_redeem_info ledger params synchronized_data ids attempts' log1 s1
       = Returned tt log2 s2 ->
     RedeemBehaviour._payouts s2 = RedeemBehaviour._payouts s1 ->
     RedeemBehaviour._redeem_info s2 = RedeemBehaviour._redeem_info s1).
Proof.
  intros H.
  destruct (RedeemFacts._clean_redeem_info_returned _ _ _ _ _ _ _ _ _ H)
    as (m & p & _ & _ & _ & Hp & Hclean & _).
  rewrite Hp, Hclean. unfold RedeemFacts.cleaned.
  split; [|split].
  - destruct (0 <? RedeemBehaviour.sum_values p)%Z; [apply filter_sublist | reflexivity].
  - intros Hsum. apply Z.ltb_ge in Hsum. rewrite Hsum. reflexivity.
  - intros attempts' log2 s2 H2 Hsame.
    destruct (RedeemFacts._clean_redeem_info_returned _ _ _ _ _ _ _ _ _ H2)
      as (m2 & p2 & _ & _ & _ & Hp2 & Hclean2 & _).
    rewrite Hclean2, Hclean. rewrite Hp2 in Hsame. subst p2.
    unfold RedeemFacts.cleaned.
    destruct (0 <? RedeemBehaviour.sum_values p)%Z; [apply filter_filter_same | reflexivity].
Qed.

(** ** The from-block of the claim requests *)

(** A request that, if it asks to build a claim, asks for the claim from
    block [v] on. *)
Definition scoped (v : Value) (r : Request) : Prop :=
  req_contract_callable r = "build_claim_winnings" ->
  exists q, req_kwargs r = [("from_block", v); ("question_id", VStr q)].

(** From [log] to [log'] only requests scoped by [v] were sent. *)
Definition sent_scoped (v : Value) (log log' : Trace) : Prop :=
  exists ext, log' = log ++ ext /\ Forall (scoped v) ext.

Lemma sent_scoped_refl v log : sent_scoped v log log.
Proof. exists []. rewrite app_nil_r. split; [reflexivity | constructor]. Qed.

Lemma sent_scoped_trans v log log1 log2 :
  sent_scoped v log log1 -> sent_scoped v log1 log2 -> sent_scoped v log log2.
Proof.
  intros (e1 & -> & F1) (e2 & -> & F2). exists (e1 ++ e2).
  rewrite app_assoc. split; [reflexivity | apply Forall_app; split; assumption].
Qed.

Lemma sent_scoped_repeat v log (r : Request) (n : nat) :
  scoped v r -> sent_scoped v log (log ++ repeat r n).
Proof.
  intros Hr. exists (repeat r n). split; [reflexivity|].
  apply List.Forall_forall. intros x Hx. apply repeat_spec in Hx. subst x. exact Hr.
Qed.

Lemma single_redeem_done_scoped c log s log' s' :
  RedeemFacts.single_redeem_done ledger params ids c log s log' s' ->
  sent_scoped (RedeemBehaviour._from_block s) log log'.
Proof.
  intros (log1 & s1 & log2 & s2 & log3 & s3 & P1 & P2 & P3 & P4).
  destruct (RedeemFacts.polled_check_resolved _ _ _ _ _ _ _ _ P1)
    as (r & m1 & -> & _ & _ & Hs1 & (_ & _ & _ & F1 & _)).
  destruct (RedeemFacts.polled_builder _ _ _ _ _ _ _ P3)
    as (d3 & m3 & -> & _ & _ & _ & _).
  destruct (RedeemFacts.polled_builder _ _ _ _ _ _ _ P4)
    as (d4 & m4 & -> & _ & _ & _ & _).
  assert (H12 : sent_scoped (RedeemBehaviour._from_block s)
                  (log ++ repeat (RedeemFacts.check_resolved_request params ids c) (S m1)) log2
                /\ RedeemBehaviour._from_block s2 = RedeemBehaviour._from_block s).
  { destruct (RedeemBehaviour._already_resolved s1).
    - destruct P2 as [-> ->]. split; [apply sent_scoped_refl | exact F1].
    - destruct (RedeemFacts.polled_builder _ _ _ _ _ _ _ P2)
        as (d2 & m2 & -> & _ & _ & _ & (_ & _ & _ & F2 & _)).
      split; [|congruence]. apply sent_scoped_repeat. intros Hcall. discriminate Hcall. }
  destruct H12 as [H12 F2].
  eapply sent_scoped_trans; [|apply sent_scoped_repeat; intros Hcall; discriminate Hcall].
  eapply sent_scoped_trans;
    [|apply sent_scoped_repeat; intros _; rewrite <- F2; eexists; reflexivity].
  eapply sent_scoped_trans; [|exact H12].
  apply sent_scoped_repeat. intros Hcall. discriminate Hcall.
Qed.

Lemma _process_candidate_scoped attempts c log s b log' s' :
  RedeemBehaviour._process_candidate ledger params ids attempts c log s
    = Returned b log' s' ->
  sent_scoped (RedeemBehaviour._from_block s) log log' /\
  RedeemBehaviour._from_block s' = RedeemBehaviour._from_block s.
Proof.
  intros H. destruct (RedeemFacts.eligible params c) eqn:He.
  - destruct (RedeemFacts._process_candidate_returned _ _ _ _ _ _ _ _ _ _ He H)
      as (_ & s1 & Hdone & ->).
    split; [exact (single_redeem_done_scoped _ _ _ _ _ Hdone)|].
    destruct (RedeemFacts.single_redeem_done_grown _ _ _ _ _ _ _ _ Hdone)
      as (r & d1 & d2 & d3 & m & ext & _ & _ & _ & _ & _ & (_ & _ & _ & F & _)).
    exact F.
  - rewrite (RedeemFacts._process_candidate_skip _ _ _ _ _ _ _ He) in H.
    injection H as _ <- <-. split; [apply sent_scoped_refl | reflexivity].
Qed.

Lemma _prepare_safe_tx_loop_scoped attempts cands :
  forall found log s found' log' s',
  RedeemBehaviour._prepare_safe_tx_loop ledger params ids attempts cands found log s
    = Returned found' log' s' ->
  sent_scoped (RedeemBehaviour._from_block s) log log' /\
  RedeemBehaviour._from_block s' = RedeemBehaviour._from_block s.
Proof.
  induction cands as [|c rest IH]; intros found log s found' log' s' H; simpl in H.
  - ret_inv H. split; [apply sent_scoped_refl | reflexivity].
  - bind_inv H log1 s1 R1.
    destruct (_process_candidate_scoped _ _ _ _ _ _ _ R1) as [S1 F1].
    assert (Hrest : forall found0,
              RedeemBehaviour._prepare_safe_tx_loop ledger params ids attempts rest found0
                log1 s1 = Returned found' log' s' ->
              sent_scoped (RedeemBehaviour._from_block s) log log' /\
              RedeemBehaviour._from_block s' = RedeemBehaviour._from_block s).
    { intros found0 H0. destruct (IH _ _ _ _ _ _ H0) as [S2 F2].
      rewrite F1 in S2. split; [exact (sent_scoped_trans _ _ _ _ S1 S2) | congruence]. }
    destruct a; simpl in H; [|exact (Hrest _ H)].
    bind_inv H logx sx Rx. ret_inv Rx.
    match type of H with context [Nat.eqb ?a ?b] => destruct (Nat.eqb a b) end.
    + ret_inv H. split; [exact S1 | exact F1].
    + exact (Hrest _ H).
Qed.

(** X13.  The act never changes the from-block, and every request to
    build a claim that it sends asks for the claim from that block on:
    [_get_block_number] is not among the steps of [async_act]. *)
Theorem claims_scoped_by_unchanged_from_block attempts log s payload log' s' :
  RedeemBehaviour.async_act ledger params synchronized_data agent_address ids
    SAFE_GAS TX_HASH_LENGTH hash_payload_to_hex RedeemRound_auto_round_id attempts log s
    = Returned payload log' s' ->
  RedeemBehaviour._from_block s' = RedeemBehaviour._from_block s /\
  exists sent,
    log' = log ++ sent /\
    Forall (scoped (RedeemBehaviour._from_block s)) sent.
Proof.
  intros H. apply RedeemFacts.async_act_returned in H.
  destruct H as (s0 & log1 & s1 & r & Hget & Hclean & Hprep & _).
  destruct (RedeemFacts._get_redeem_info_returns log s) as (s0' & Hget' & Hd & _).
  rewrite Hget' in Hget. injection Hget as <-.
  destruct Hd as (_ & _ & F0 & _).
  destruct (RedeemFacts._clean_redeem_info_returned _ _ _ _ _ _ _ _ _ Hclean)
    as (m & p & Hlog1 & _ & _ & _ & _ & _ & _ & F1).
  apply RedeemFacts._prepare_safe_tx_returned in Hprep.
  destruct Hprep as (found & logL & sL & Hloop & Hnone & Hsome).
  destruct (_prepare_safe_tx_loop_scoped _ _ _ _ _ _ _ _ Hloop) as [SL FL].
  assert (Hend : sent_scoped (RedeemBehaviour._from_block s) logL log' /\
                 RedeemBehaviour._from_block s' = RedeemBehaviour._from_block sL).
  { destruct found.
    - destruct (Hsome eq_refl) as [(m1 & m2 & d & decoded & h & E) _].
      cbv zeta in E. destruct E as (-> & _ & _ & _ & _ & _ & _ & ->).
      split; [|reflexivity].
      eapply sent_scoped_trans;
        [|apply sent_scoped_repeat; intros Hcall; discriminate Hcall].
      apply sent_scoped_repeat. intros Hcall. discriminate Hcall.
    - destruct (Hnone eq_refl) as (_ & -> & ->).
      split; [apply sent_scoped_refl | reflexivity]. }
  destruct Hend as [SE FE].
  split; [congruence|].
  assert (S1 : sent_scoped (RedeemBehaviour._from_block s) log log1).
  { rewrite Hlog1. apply sent_scoped_repeat. intros Hcall. discriminate Hcall. }
  rewrite F1, F0 in SL.
  exact (sent_scoped_trans _ _ _ _ S1 (sent_scoped_trans _ _ _ _ SL SE)).
Qed.

(** ** Answers that [HexBytes] rejects *)

(** A step that raises on the answer it gets ends the wait with the
    exception. *)
Lemma polls_crash {St} (step : M St bool) (I : St -> Prop) (request : St -> Request)
    (verdict : ContractApiMessage -> St -> Verdict St) log s exc :
  polls ledger step I request verdict ->
  I s ->
  verdict (ledger (List.length log) (request s)) s = Crash exc ->
  step log s = Raised exc /\
  forall attempts, wait_for_condition_with_sleep (S attempts) step log s = Raised exc.
Proof.
  intros Hpolls HI Hv.
  assert (Hstep : step log s = Raised exc) by (rewrite (Hpolls log s HI), Hv; reflexivity).
  split; [exact Hstep|]. intros attempts. simpl. unfold bind. rewrite Hstep. reflexivity.
Qed.

(** The answer to [request] at this point is of kind [expected] and
    carries data that makes [HexBytes] raise [exc]. *)
Definition answered_non_hex (log : Trace) (request : Request) (expected : Performative)
    (exc : string) : Prop :=
  exists data,
    performative (ledger (List.length log) request) = expected /\
    body_data (body (ledger (List.length log) request)) = Some data /\
    HexBytes_error data = Some exc.

(** X14.  The steps that wrap the answered data with [HexBytes] do not
    return false on data that is not hexadecimal: [_build_approval_tx]
    and [_build_buy_tx] of bet placement and the three builders of
    redeeming, through the setter of [built_data], raise what [HexBytes]
    raises, append nothing, and the wait ends with the exception instead
    of trying again. *)
Theorem builders_raise_on_non_hex_data log exc :
  (forall s,
     answered_non_hex log (BetPlacementBehaviour.build_approval_request params
                             synchronized_data ids) STATE exc ->
     forall attempts,
       wait_for_condition_with_sleep (S attempts)
         (BetPlacementBehaviour._build_approval_tx ledger params synchronized_data ids) log s
       = Raised exc) /\
  (forall s,
     answered_non_hex log (BetPlacementBehaviour.get_buy_data_request params
                             synchronized_data ids s) STATE exc ->
     forall attempts,
       wait_for_condition_with_sleep (S attempts)
         (BetPlacementBehaviour._build_buy_tx ledger params synchronized_data ids) log s
       = Raised exc) /\
  (forall c s,
     RedeemBehaviour._current_redeem_info s = Some c ->
     (answered_non_hex log (RedeemFacts.build_resolve_request params ids c)
        RAW_TRANSACTION exc ->
      forall attempts,
        wait_for_condition_with_sleep (S attempts)
          (RedeemBehaviour._build_resolve_data ledger params ids) log s = Raised exc) /\
     (answered_non_hex log (RedeemFacts.build_claim_request params ids c s)
        RAW_TRANSACTION exc ->
      forall attempts,
        wait_for_condition_with_sleep (S attempts)
          (RedeemBehaviour._build_claim_data ledger params ids) log s = Raised exc) /\
     (answered_non_hex log (RedeemFacts.build_redeem_request params ids c)
        RAW_TRANSACTION exc ->
      forall attempts,
        wait_for_condition_with_sleep (S attempts)
          (RedeemBehaviour._build_redeem_data ledger params ids) log s = Raised exc)).
Proof.
  assert (Hcrash : forall {St} (store : string -> St -> St) expected msg s d,
            performative msg = expected -> body_data (body msg) = Some d ->
            HexBytes_error d = Some exc ->
            on_field expected body_data
              (fun d s => match HexBytes_error d with
                          | Some e => Crash e
                          | None => Accept (store d s)
                          end) msg s = Crash exc).
  { intros St store expected msg s d Hp Hd Hx.
    rewrite (on_field_good _ _ _ _ _ d Hp Hd), Hx. reflexivity. }
  split; [|split].
  - intros s (d & Hp & Hd & Hx).
    exact (proj2 (polls_crash _ _ _ _ log s exc
                    (BetPlacementFacts._build_approval_tx_polls ledger params
                       synchronized_data ids) Logic.I (Hcrash _ _ _ _ _ _ Hp Hd Hx))).
  - intros s (d & Hp & Hd & Hx).
    exact (proj2 (polls_crash _ _ _ _ log s exc
                    (BetPlacementFacts._build_buy_tx_polls ledger params
                       synchronized_data ids) Logic.I (Hcrash _ _ _ _ _ _ Hp Hd Hx))).
  - intros c s Hc. split; [|split]; intros (d & Hp & Hd & Hx).
    + exact (proj2 (polls_crash _ _ _ _ log s exc
                      (RedeemFacts._build_resolve_data_polls ledger params ids c) Hc
                      (Hcrash _ _ _ _ _ _ Hp Hd Hx))).
    + exact (proj2 (polls_crash _ _ _ _ log s exc
                      (RedeemFacts._build_claim_data_polls ledger params ids c) Hc
                      (Hcrash _ _ _ _ _ _ Hp Hd Hx))).
    + exact (proj2 (polls_crash _ _ _ _ log s exc
                      (RedeemFacts._build_redeem_data_polls ledger params ids c) Hc
                      (Hcrash _ _ _ _ _ _ Hp Hd Hx))).
Qed.

End More.

(** ** The further properties at concrete runs *)

(** A ledger that answers every request with the given encoded data and
    hash. *)
Definition answering_with (data hash : string) : Ledger :=
  fun _ req =>
    {| performative := expected_performative (req_performative req);
       body := {| body_balance := Some 200%Z;
                  body_amount := Some 7%Z;
                  body_data := Some data;
                  body_tx_hash := Some hash;
                  body_payouts := Some ∅;
                  body_resolved := Some false |} |}.

(** A losing trade and a dust trade: None; one winning trade among them:
    a hash. *)
Lemma no_hash_iff_all_skipped_witness :
  exists r log' s',
    Demo.redeem_prepare (Demo.ledger 0 ∅ true) 1 []
      (Demo.redeeming [Demo.loser; Demo.winner_a; Demo.dust]) = Returned r log' s' /\
    r <> None /\
    ~ Forall (skipped (Demo.params 2)) [Demo.loser; Demo.winner_a; Demo.dust].
Proof.
  destruct (Demo.redeem_prepare (Demo.ledger 0 ∅ true) 1 []
              (Demo.redeeming [Demo.loser; Demo.winner_a; Demo.dust]))
    as [r log' s'| |e] eqn:Hrun.
  - exists r, log', s'. split; [reflexivity|].
    pose proof (proj1 (no_hash_iff_all_skipped (Demo.ledger 0 ∅ true) (Demo.params 2)
                         Demo.synchronized_data Demo.agent_address Demo.ids Demo.SAFE_GAS
                         Demo.TX_HASH_LENGTH Demo.hash_payload_to_hex
                         Demo.RedeemRound_auto_round_id 1) _ _ _ _ _ Hrun) as Hiff.
    assert (Hr : r <> None) by (vm_compute in Hrun; congruence).
    split; [exact Hr|]. intros Hall. apply Hr, Hiff. exact Hall.
  - vm_compute in Hrun. discriminate Hrun.
  - vm_compute in Hrun. discriminate Hrun.
Defined.

(** Two winning trades around a dust trade, on the ledger that fails every
    other request. *)
Lemma prepare_safe_tx_accounting_witness :
  let s := Demo.redeeming [Demo.winner_a; Demo.dust; Demo.winner_b] in
  exists r log' s',
    Demo.redeem_prepare (Demo.flaky_ledger 0 ∅ false) 2 [] s = Returned r log' s' /\
    exists n,
      (n <= 3)%nat /\
      RedeemBehaviour._expected_winnings s' =
        (0 + RedeemFacts.total_claimable (processed (Demo.params 2) n s))%Z /\
      (n = 3%nat \/ List.length (RedeemBehaviour.multisend_batches s') = 2%nat).
Proof.
  intros s.
  destruct (Demo.redeem_prepare (Demo.flaky_ledger 0 ∅ false) 2 [] s)
    as [r log' s'| |e] eqn:Hrun.
  - exists r, log', s'. split; [reflexivity|].
    destruct (prepare_safe_tx_accounting _ _ _ _ _ _ _ _ _ _ _ _ _ Hrun)
      as (n & Hn & _ & W & _ & Hstop).
    exists n. split; [exact Hn|]. split; [exact W | exact Hstop].
  - vm_compute in Hrun. discriminate Hrun.
  - vm_compute in Hrun. discriminate Hrun.
Defined.

(** A batch size of ten cannot be reached with two candidates: both are
    processed. *)
Lemma unreachable_cap_processes_every_candidate_witness :
  let s := Demo.redeeming [Demo.winner_a; Demo.winner_b] in
  exists r log' s',
    RedeemBehaviour._prepare_safe_tx (Demo.ledger 0 ∅ false) (Demo.params 10)
      Demo.synchronized_data Demo.ids Demo.SAFE_GAS Demo.TX_HASH_LENGTH
      Demo.hash_payload_to_hex 1 [] s = Returned r log' s' /\
    RedeemBehaviour._expected_winnings s' = 300%Z.
Proof.
  intros s.
  destruct (RedeemBehaviour._prepare_safe_tx (Demo.ledger 0 ∅ false) (Demo.params 10)
              Demo.synchronized_data Demo.ids Demo.SAFE_GAS Demo.TX_HASH_LENGTH
              Demo.hash_payload_to_hex 1 [] s) as [r log' s'| |e] eqn:Hrun.
  - exists r, log', s'. split; [reflexivity|].
    assert (Hcap : (List.length (RedeemBehaviour.multisend_batches s) +
                      3 * List.length (RedeemBehaviour._redeem_info s)
                    < redeeming_batch_size (Demo.params 10))%nat) by (simpl; lia).
    destruct (unreachable_cap_processes_every_candidate _ _ _ _ _ _ _ _ _ _ _ _ _ Hcap Hrun)
      as [W _].
    exact W.
  - vm_compute in Hrun. discriminate Hrun.
  - vm_compute in Hrun. discriminate Hrun.
Defined.

(** Bet placement on the ledger that fails every other request, followed
    for two attempts per step, with the balance equal to the investment
    amount. *)
Lemma bet_act_returns_on_answering_ledger_witness :
  exists payload log' s',
    Demo.bet_act (Demo.flaky_ledger 150 ∅ false) 2 [] BetPlacementBehaviour.__init__
      = Returned payload log' s' /\
    (payload = MultisigTxPayload [Some Demo.agent_address; None] <->
     (BetPlacementBehaviour.balance s' <
        BetPlacementBehaviour.investment_amount (Demo.params 2) Demo.synchronized_data)%Z).
Proof.
  exact (bet_act_returns_on_answering_ledger (Demo.flaky_ledger 150 ∅ false) (Demo.params 2)
           Demo.synchronized_data Demo.agent_address Demo.ids Demo.SAFE_GAS
           Demo.TX_HASH_LENGTH Demo.hash_payload_to_hex 2 2
           (flaky_ledger_responsive 150 ∅ false) (flaky_ledger_in_hex 150 ∅ false)
           (le_n 2) [] BetPlacementBehaviour.__init__).
Defined.

(** Redeeming on the same ledger, with two pages of trades. *)
Lemma redeem_act_returns_on_answering_ledger_witness :
  exists payload log' s',
    Demo.redeem_act (Demo.flaky_ledger 0 ∅ false) 2 []
      (RedeemBehaviour.__init__
         [mkPage (Some [Demo.winner_a; Demo.loser]) IN_PROGRESS;
          mkPage (Some [Demo.winner_b]) SUCCESS] [])
      = Returned payload log' s'.
Proof.
  exact (redeem_act_returns_on_answering_ledger (Demo.flaky_ledger 0 ∅ false) (Demo.params 2)
           Demo.synchronized_data Demo.agent_address Demo.ids Demo.SAFE_GAS
           Demo.TX_HASH_LENGTH Demo.hash_payload_to_hex Demo.RedeemRound_auto_round_id 2 2
           (flaky_ledger_responsive 0 ∅ false) (flaky_ledger_in_hex 0 ∅ false)
           (le_n 2) [] _).
Defined.

(** Encoded data that is not hexadecimal: the step raises. *)
Lemma multisend_data_edge_cases_witness :
  BetPlacementBehaviour._build_multisend_data (answering_with "0xzz" Demo.tx_hash)
    (Demo.params 2) Demo.ids [] BetPlacementBehaviour.__init__ = Raised "ValueError" /\
  BetPlacementBehaviour._build_multisend_data (answering_with "0x" Demo.tx_hash)
    (Demo.params 2) Demo.ids [] BetPlacementBehaviour.__init__
    = Returned true
        [BetPlacementBehaviour.get_tx_data_request (Demo.params 2) Demo.ids
           BetPlacementBehaviour.__init__]
        (BetPlacementBehaviour.set_multisend_data [] BetPlacementBehaviour.__init__).
Proof.
  split.
  - exact (proj1 (proj1 (multisend_data_edge_cases (answering_with "0xzz" Demo.tx_hash)
                           (Demo.params 2) Demo.ids [] BetPlacementBehaviour.__init__ "0xzz"
                           eq_refl eq_refl) eq_refl)).
  - exact (proj2 (multisend_data_edge_cases (answering_with "0x" Demo.tx_hash)
                    (Demo.params 2) Demo.ids [] BetPlacementBehaviour.__init__ "0x"
                    eq_refl eq_refl) (le_n 2)).
Defined.

(** A hash of four characters is rejected; the accepted one leaves
    sixty-four characters. *)
Lemma safe_tx_hash_length_checked_witness :
  BetPlacementBehaviour._build_safe_tx_hash (answering_with "0xabcd" "0x12") (Demo.params 2)
    Demo.synchronized_data Demo.ids Demo.SAFE_GAS Demo.TX_HASH_LENGTH []
    BetPlacementBehaviour.__init__
    = Returned false
        [BetPlacementBehaviour.get_raw_safe_transaction_hash_request (Demo.params 2)
           Demo.synchronized_data Demo.ids Demo.SAFE_GAS BetPlacementBehaviour.__init__]
        BetPlacementBehaviour.__init__ /\
  exists hex log' s',
    Demo.bet_prepare (Demo.ledger 200 ∅ false) 1 [] BetPlacementBehaviour.__init__
      = Returned hex log' s' /\
    String.length (BetPlacementBehaviour.safe_tx_hash s') = 64%nat.
Proof.
  split.
  - refine (proj1 (safe_tx_hash_length_checked (answering_with "0xabcd" "0x12")
                     (Demo.params 2) Demo.synchronized_data Demo.ids Demo.SAFE_GAS
                     Demo.TX_HASH_LENGTH Demo.hash_payload_to_hex)
              [] BetPlacementBehaviour.__init__ "0x12" eq_refl eq_refl _).
    simpl. unfold Demo.TX_HASH_LENGTH. lia.
  - destruct (Demo.bet_prepare (Demo.ledger 200 ∅ false) 1 [] BetPlacementBehaviour.__init__)
      as [hex log' s'| |e] eqn:Hrun.
    + exists hex, log', s'. split; [reflexivity|].
      exact (proj2 (safe_tx_hash_length_checked (Demo.ledger 200 ∅ false)
                      (Demo.params 2) Demo.synchronized_data Demo.ids Demo.SAFE_GAS
                      Demo.TX_HASH_LENGTH Demo.hash_payload_to_hex) _ _ _ _ _ _ Hrun).
    + vm_compute in Hrun. discriminate Hrun.
    + vm_compute in Hrun. discriminate Hrun.
Defined.

(** The quote of seven tokens guards the buy, though the instance held a
    stale quote of ninety-nine. *)
Lemma buy_guarded_by_quoted_amount_witness :
  let s := BetPlacementBehaviour.set_buy_amount 99 BetPlacementBehaviour.__init__ in
  exists hex log' s',
    Demo.bet_prepare (Demo.flaky_ledger 200 ∅ false) 2 [] s = Returned hex log' s' /\
    BetPlacementBehaviour.buy_amount s' = 7%Z /\
    In (guarded_buy_request (Demo.params 2) Demo.synchronized_data Demo.ids 7) log'.
Proof.
  intros s.
  destruct (Demo.bet_prepare (Demo.flaky_ledger 200 ∅ false) 2 [] s)
    as [hex log' s'| |e] eqn:Hrun.
  - exists hex, log', s'. split; [reflexivity|].
    destruct (buy_guarded_by_quoted_amount _ _ _ _ _ _ _ _ _ _ _ _ _ Hrun)
      as (amount & pre & mid & post & Hlog & _ & Hamount & _).
    cbv zeta in Hlog.
    assert (H7 : BetPlacementBehaviour.buy_amount s' = 7%Z)
      by (vm_compute in Hrun; injection Hrun as _ _ <-; reflexivity).
    split; [exact H7|].
    rewrite Hlog. rewrite <- H7, Hamount.
    apply in_or_app. right. simpl. right. apply in_or_app. right. left. reflexivity.
  - vm_compute in Hrun. discriminate Hrun.
  - vm_compute in Hrun. discriminate Hrun.
Defined.

(** A fresh instance has no current candidate; processing one sets it. *)
Lemma current_candidate_required_witness :
  RedeemBehaviour._is_dust (Demo.params 2) [] (RedeemBehaviour.__init__ [] [])
    = Raised "ValueError" /\
  exists b log' s',
    Demo.process (Demo.ledger 0 ∅ true) 1 Demo.winner_a [] (RedeemBehaviour.__init__ [] [])
      = Returned b log' s' /\
    RedeemBehaviour._current_redeem_info s' = Some Demo.winner_a.
Proof.
  pose proof (current_candidate_required (Demo.ledger 0 ∅ true) (Demo.params 2) Demo.ids
                Demo.int) as [Hnone Hset].
  split.
  - exact (proj1 (proj2 (Hnone [] (RedeemBehaviour.__init__ [] []) eq_refl))).
  - destruct (Demo.process (Demo.ledger 0 ∅ true) 1 Demo.winner_a []
                (RedeemBehaviour.__init__ [] [])) as [b log' s'| |e] eqn:Hrun.
    + exists b, log', s'. split; [reflexivity|]. exact (Hset _ _ _ _ _ _ _ Hrun).
    + vm_compute in Hrun. discriminate Hrun.
    + vm_compute in Hrun. discriminate Hrun.
Defined.

(** Three pages, the second without a chunk. *)
Lemma discovery_appends_pages_in_order_witness :
  let pages := [mkPage (Some [Demo.winner_a; Demo.loser]) IN_PROGRESS;
                mkPage None IN_PROGRESS;
                mkPage (Some [Demo.winner_a]) SUCCESS] in
  exists s',
    RedeemBehaviour._get_redeem_info [] (RedeemBehaviour.__init__ pages [])
      = Returned tt [] s' /\
    RedeemBehaviour._fetch_status s' = SUCCESS /\
    RedeemBehaviour._redeem_info s' = [Demo.winner_a; Demo.loser; Demo.winner_a].
Proof.
  intros pages.
  destruct (discovery_appends_pages_in_order [] (RedeemBehaviour.__init__ pages []))
    as (s' & Hrun & Hok & _).
  exists s'. split; [exact Hrun|].
  assert (Hst : RedeemBehaviour._fetch_status s' = SUCCESS)
    by (vm_compute in Hrun; injection Hrun as <-; reflexivity).
  split; [exact Hst|]. exact (proj1 (Hok Hst)).
Defined.

(** The lookup is in progress once, then answers block 17. *)
Lemma block_lookup_uses_settling_answer_witness :
  let s := RedeemBehaviour.set_current_redeem_info (Some Demo.winner_a)
             (RedeemBehaviour.__init__ []
                [mkBlockAnswer None IN_PROGRESS; mkBlockAnswer (Some "17") SUCCESS;
                 mkBlockAnswer (Some "18") SUCCESS]) in
  exists s',
    RedeemBehaviour._get_block_number Demo.int 2 [] s = Returned true [] s' /\
    RedeemBehaviour.pending_blocks s' = [mkBlockAnswer (Some "18") SUCCESS] /\
    RedeemBehaviour._from_block s' = VInt 17.
Proof.
  intros s.
  assert (Hpre : Forall (fun b => block_status b = IN_PROGRESS)
                   [mkBlockAnswer None IN_PROGRESS])
    by (constructor; [reflexivity | constructor]).
  assert (Hans : block_status (mkBlockAnswer (Some "17") SUCCESS) <> IN_PROGRESS)
    by discriminate.
  destruct (block_lookup_uses_settling_answer Demo.int 2 [] s Demo.winner_a
              [mkBlockAnswer None IN_PROGRESS] (mkBlockAnswer (Some "17") SUCCESS)
              [mkBlockAnswer (Some "18") SUCCESS] eq_refl eq_refl Hpre Hans (le_n 2))
    as (s' & Hrun & Hrest & _ & Hfrom & _).
  exists s'. split; [exact Hrun|]. split; [exact Hrest | exact Hfrom].
Defined.

(** The trade "0xa" is paid out already: it is removed, and what is left
    was there before. *)
Lemma clean_redeem_info_only_removes_witness :
  let P : gmap string Z := {["0xa" := 5%Z]} in
  let s := Demo.redeeming [Demo.winner_a; Demo.winner_b] in
  exists log1 s1,
    Demo.clean (Demo.flaky_ledger 0 P false) 2 [] s = Returned tt log1 s1 /\
    sublist (RedeemBehaviour._redeem_info s1) [Demo.winner_a; Demo.winner_b].
Proof.
  intros P s.
  destruct (Demo.clean (Demo.flaky_ledger 0 P false) 2 [] s) as [[] log1 s1| |e] eqn:Hrun.
  - exists log1, s1. split; [reflexivity|].
    exact (proj1 (clean_redeem_info_only_removes _ _ _ _ _ _ _ _ _ Hrun)).
  - vm_compute in Hrun. discriminate Hrun.
  - vm_compute in Hrun. discriminate Hrun.
Defined.

(** A fresh instance claims from "earliest". *)
Lemma claims_scoped_by_unchanged_from_block_witness :
  exists payload log' s',
    Demo.redeem_act (Demo.ledger 0 ∅ false) 1 []
      (RedeemBehaviour.__init__ [mkPage (Some [Demo.winner_a]) SUCCESS] [])
      = Returned payload log' s' /\
    RedeemBehaviour._from_block s' = VStr "earliest" /\
    Forall (scoped (VStr "earliest")) log'.
Proof.
  destruct (Demo.redeem_act (Demo.ledger 0 ∅ false) 1 []
              (RedeemBehaviour.__init__ [mkPage (Some [Demo.winner_a]) SUCCESS] []))
    as [payload log' s'| |e] eqn:Hrun.
  - exists payload, log', s'. split; [reflexivity|].
    destruct (claims_scoped_by_unchanged_from_block _ _ _ _ _ _ _ _ _ _ _ _ _ _ _ Hrun)
      as (Hfrom & sent & Hlog & Hsent).
    split; [exact Hfrom|]. rewrite Hlog. exact Hsent.
  - vm_compute in Hrun. discriminate Hrun.
  - vm_compute in Hrun. discriminate Hrun.
Defined.

(** Data with a blank in it: the approval step of bet placement raises,
    and so does the processing of an eligible candidate. *)
Lemma builders_raise_on_non_hex_data_witness :
  let garbled := answering_with "0xab cd" Demo.tx_hash in
  HexBytes_error "0xab cd" = Some "binascii.Error" /\
  wait_for_condition_with_sleep 1
    (BetPlacementBehaviour._build_approval_tx garbled (Demo.params 2)
       Demo.synchronized_data Demo.ids) [] BetPlacementBehaviour.__init__
    = Raised "binascii.Error" /\
  Demo.bet_act garbled 1 [] BetPlacementBehaviour.__init__ = Raised "binascii.Error" /\
  Demo.process garbled 1 Demo.winner_a [] (Demo.redeeming []) = Raised "binascii.Error".
Proof.
  intros garbled. split; [reflexivity|]. split; [|split; vm_compute; reflexivity].
  refine (proj1 (builders_raise_on_non_hex_data garbled (Demo.params 2)
                   Demo.synchronized_data Demo.ids [] "binascii.Error")
            BetPlacementBehaviour.__init__ _ 0%nat).
  exists "0xab cd". split; [reflexivity|]. split; reflexivity.
Defined.
